(** * EpochLens: the timestamp converter ([src/utils/converter.js])

    A shallow embedding of [window.EpochLens.Converter] and of the constants
    it reads from [window.EpochLens.Constants], followed by the properties of
    the detector, the formatter and the conversion facade.

    Layout: the platform (strings, Number values, Date, the host's
    internationalisation services) comes first, then the program's functions
    under their source names, then the lemmas. *)

From Stdlib Require Import ZArith NArith QArith Qround Qabs List String Ascii Bool Lia.
Import ListNotations.

Local Open Scope Z_scope.

(* ================================================================= *)
(** ** Platform: strings *)

Module JS.

(** A string is its sequence of UTF-16 code units. *)
Definition code_unit := N.
Definition jsstring := list code_unit.

(** String literals of the source (all of them ASCII). *)
Definition lit (s : string) : jsstring :=
  map N_of_ascii (list_ascii_of_string s).

Definition cu_eqb (a b : code_unit) : bool := N.eqb a b.

Fixpoint str_eqb (a b : jsstring) : bool :=
  match a, b with
  | [], [] => true
  | x :: a', y :: b' => cu_eqb x y && str_eqb a' b'
  | _, _ => false
  end.

(** [\d] without the unicode flag: U+0030 .. U+0039. *)
Definition is_digit (c : code_unit) : bool :=
  ((48 <=? c) && (c <=? 57))%N.

(** [\w]: ASCII letters, digits and the underscore. *)
Definition is_word (c : code_unit) : bool :=
  (is_digit c
   || ((65 <=? c) && (c <=? 90))
   || ((97 <=? c) && (c <=? 122))
   || (c =? 95))%N.

(** WhiteSpace and LineTerminator of ECMA-262: what [String.prototype.trim]
    strips and what [Number] skips around a numeric literal. *)
Definition is_space (c : code_unit) : bool :=
  ((c =? 9) || (c =? 10) || (c =? 11) || (c =? 12) || (c =? 13) || (c =? 32)
   || (c =? 160) || (c =? 5760) || ((8192 <=? c) && (c <=? 8202))
   || (c =? 8232) || (c =? 8233) || (c =? 8239) || (c =? 8287)
   || (c =? 12288) || (c =? 65279))%N.

Fixpoint drop_while (p : code_unit -> bool) (s : jsstring) : jsstring :=
  match s with
  | [] => []
  | c :: s' => if p c then drop_while p s' else s
  end.

Fixpoint take_while (p : code_unit -> bool) (s : jsstring) : jsstring :=
  match s with
  | [] => []
  | c :: s' => if p c then c :: take_while p s' else []
  end.

Definition trimStart (s : jsstring) : jsstring := drop_while is_space s.
Definition trimEnd (s : jsstring) : jsstring := rev (drop_while is_space (rev s)).

(** [s.trim()] *)
Definition trim (s : jsstring) : jsstring := trimEnd (trimStart s).

(** [s.slice(-n)] for [n >= 0]: the last [n] code units. *)
Definition slice_last (n : nat) (s : jsstring) : jsstring :=
  skipn (List.length s - n) s.

(** [s.slice(0, -n)] for [n >= 0]: all but the last [n] code units. *)
Definition slice_drop_last (n : nat) (s : jsstring) : jsstring :=
  firstn (List.length s - n) s.

(** [s.padStart(n, '0')] *)
Definition padStart0 (n : nat) (s : jsstring) : jsstring :=
  repeat 48%N (n - List.length s) ++ s.

Definition starts_with (p s : jsstring) : bool :=
  str_eqb p (firstn (List.length p) s).

(* ----------------------------------------------------------------- *)
(** ** Platform: Number values *)

(** A Number is NaN, an infinity, or a finite value.  A finite value is kept
    as the exact rational it denotes; the rounding to a double is the identity
    on the integers of magnitude up to 2^53, which contains every value this
    program computes from a string of at most 15 digits. *)
Inductive JSNumber :=
| NaN
| Infinity (negative : bool)
| Finite (q : Q).

Definition of_Z (z : Z) : JSNumber := Finite (inject_Z z).

Definition isNaN (n : JSNumber) : bool :=
  match n with NaN => true | _ => false end.

(** [a * b] for a finite, positive [b] (the program multiplies by 1000). *)
Definition mul_pos (a : JSNumber) (b : Z) : JSNumber :=
  match a with
  | NaN => NaN
  | Infinity s => Infinity s
  | Finite q => Finite (q * inject_Z b)
  end.

(** [a >= b] and [a <= b] against a finite integer; false on NaN. *)
Definition ge_int (a : JSNumber) (b : Z) : bool :=
  match a with
  | NaN => false
  | Infinity s => negb s
  | Finite q => Qle_bool (inject_Z b) q
  end.

Definition le_int (a : JSNumber) (b : Z) : bool :=
  match a with
  | NaN => false
  | Infinity s => s
  | Finite q => Qle_bool q (inject_Z b)
  end.

(** [Math.floor(a / b)] for a finite, positive [b]. *)
Definition floor_div (a : JSNumber) (b : Z) : JSNumber :=
  match a with
  | NaN => NaN
  | Infinity s => Infinity s
  | Finite q => of_Z (Qfloor (q / inject_Z b))
  end.

(** Value of a run of digits in radix [r] (letters count from 10). *)
Definition digit_val (c : code_unit) : Z :=
  if is_digit c then Z.of_N c - 48
  else if ((97 <=? c) && (c <=? 122))%N then Z.of_N c - 87
  else if ((65 <=? c) && (c <=? 90))%N then Z.of_N c - 55
  else 36.

Definition digits_val (r : Z) (s : jsstring) : Z :=
  fold_left (fun acc c => acc * r + digit_val c) s 0.

Definition is_radix_digit (r : Z) (c : code_unit) : bool :=
  digit_val c <? r.

Definition all_digits (s : jsstring) : bool := forallb is_digit s.

(** NonDecimalIntegerLiteral: [0x..], [0o..], [0b..] (either case, unsigned). *)
Definition parse_nondecimal (s : jsstring) : option Z :=
  match s with
  | 48%N :: p :: ds =>
      let radix :=
        if ((p =? 120) || (p =? 88))%N then Some 16
        else if ((p =? 111) || (p =? 79))%N then Some 8
        else if ((p =? 98) || (p =? 66))%N then Some 2
        else None in
      match radix, ds with
      | Some r, _ :: _ =>
          if forallb (is_radix_digit r) ds then Some (digits_val r ds) else None
      | _, _ => None
      end
  | _ => None
  end.

(** An optional sign in front of a literal: [(negative, rest)]. *)
Definition strip_sign (s : jsstring) : bool * jsstring :=
  match s with
  | 45%N :: r => (true, r)
  | 43%N :: r => (false, r)
  | _ => (false, s)
  end.

(** ExponentPart after the mantissa: empty, or [e]/[E], an optional sign and
    at least one digit, up to the end of the string. *)
Definition parse_exponent (s : jsstring) : option Z :=
  match s with
  | [] => Some 0
  | e :: r =>
      if ((e =? 101) || (e =? 69))%N then
        let '(neg, ds) := strip_sign r in
        match ds with
        | [] => None
        | _ => if all_digits ds
               then Some (if neg then - digits_val 10 ds else digits_val 10 ds)
               else None
        end
      else None
  end.

Definition scale10 (m e : Z) : Q :=
  if 0 <=? e then inject_Z (m * 10 ^ e)
  else Qmake m (Z.to_pos (10 ^ (- e))).

(** StrUnsignedDecimalLiteral other than [Infinity]. *)
Definition parse_unsigned_decimal (s : jsstring) : option Q :=
  let ip := take_while is_digit s in
  let r1 := drop_while is_digit s in
  let '(fp, r2) :=
    match r1 with
    | 46%N :: r => (take_while is_digit r, drop_while is_digit r)
    | _ => ([], r1)
    end in
  match ip, fp with
  | [], [] => None
  | _, _ =>
      match parse_exponent r2 with
      | Some e =>
          Some (scale10 (digits_val 10 (ip ++ fp)) (e - Z.of_nat (List.length fp)))
      | None => None
      end
  end.

Definition neg_number (n : JSNumber) : JSNumber :=
  match n with
  | NaN => NaN
  | Infinity s => Infinity (negb s)
  | Finite q => Finite (- q)
  end.

Definition parse_decimal (s : jsstring) : JSNumber :=
  let '(neg, body) := strip_sign s in
  let v :=
    if str_eqb body (lit "Infinity") then Infinity false
    else match parse_unsigned_decimal body with
         | Some q => Finite q
         | None => NaN
         end in
  if neg then neg_number v else v.

(** StringToNumber: [Number(s)] on a string.  The result is the rational
    that the numeric text denotes.  It is the Number itself for a text of at
    most 15 digits (an integer below 2^53); for other texts the Number is
    that rational rounded to a double, or an infinity, so there only the
    distinction between NaN and the other Numbers is to be read off this
    definition. *)
Definition StringToNumber (s : jsstring) : JSNumber :=
  match trim s with
  | [] => of_Z 0
  | t => match parse_nondecimal t with
         | Some z => of_Z z
         | None => parse_decimal t
         end
  end.

(** Decimal digits of a non-negative integer, most significant first. *)
Fixpoint to_digits (fuel : nat) (n : Z) (acc : jsstring) : jsstring :=
  match fuel with
  | O => acc
  | S f =>
      let acc' := Z.to_N (48 + n mod 10) :: acc in
      if n <? 10 then acc' else to_digits f (n / 10) acc'
  end.

Definition nat_to_string (n : Z) : jsstring :=
  to_digits (S (Z.to_nat (Z.log2 n))) n [].

(** Decimal text of an integer: [String(n)] for an integral Number below
    1e21 in magnitude. *)
Definition int_to_string (z : Z) : jsstring :=
  if z <? 0 then 45%N :: nat_to_string (- z) else nat_to_string z.

(** The values the converter is handed: a string, or a Number with an integral
    value (a safe integer).  Any other Number [x] has a string form with a
    ['.'], an ['e'] or a letter in it, and since [Number(String(x))] is [x]
    the program treats it exactly as it treats the string [String(x)]. *)
Inductive JSValue :=
| VString (s : jsstring)
| VInt (z : Z).

(** [String(v)] *)
Definition ToString (v : JSValue) : jsstring :=
  match v with
  | VString s => s
  | VInt z => int_to_string z
  end.

(** [Number(v)] *)
Definition Number (v : JSValue) : JSNumber :=
  match v with
  | VString s => StringToNumber s
  | VInt z => of_Z z
  end.


(* ----------------------------------------------------------------- *)
(** ** Platform: exceptions, the system clock, shared objects *)

(** What a call can observe or change outside its arguments: the system
    clock, read by [new Date()], and the [lastIndex] of the one RegExp object
    with the global flag that the program keeps in a shared place,
    [Constants.TIMESTAMP_REGEX]. *)
Record World := {
  clock : nat -> Z;          (* the k-th reading of the clock, in ms *)
  reads : nat;               (* readings taken so far *)
  shared_lastIndex : nat     (* Constants.TIMESTAMP_REGEX.lastIndex *)
}.

Inductive Error := RangeError | TypeError.

Inductive Outcome (A : Type) :=
| Return (a : A)
| Throw (e : Error).
Arguments Return {A} a.
Arguments Throw {A} e.

(** Computations that read the clock and may throw. *)
Definition M (A : Type) : Type := World -> Outcome A * World.

Definition ret {A} (a : A) : M A := fun w => (Return a, w).

Definition throw {A} (e : Error) : M A := fun w => (Throw e, w).

Definition bind {A B} (m : M A) (k : A -> M B) : M B :=
  fun w => match m w with
           | (Return a, w') => k a w'
           | (Throw e, w') => (Throw e, w')
           end.

(** [try { m } catch (e) { handler e }] *)
Definition try_catch {A} (m : M A) (handler : Error -> M A) : M A :=
  fun w => match m w with
           | (Return a, w') => (Return a, w')
           | (Throw e, w') => handler e w'
           end.

Notation "x <- m ;; k" := (bind m (fun x => k))
  (at level 61, m at next level, right associativity).

Definition tick (w : World) : World :=
  {| clock := clock w; reads := S (reads w);
     shared_lastIndex := shared_lastIndex w |}.

(** [new Date()]: the current time value. *)
Definition new_Date_now : M Z :=
  fun w => (Return (clock w (reads w)), tick w).

(* ----------------------------------------------------------------- *)
(** ** Platform: Date and the calendar *)

Definition Qtrunc (q : Q) : Z :=
  if 0 <=? Qnum q then Qfloor q else Qceiling q.

(** TimeClip: the time value of [new Date(n)]; [None] is the NaN of an
    invalid Date. *)
Definition TimeClip (n : JSNumber) : option Z :=
  match n with
  | Finite q =>
      if Qle_bool (Qabs q) (inject_Z 8640000000000000) then Some (Qtrunc q)
      else None
  | _ => None
  end.

(** Proleptic Gregorian date of a day number counted from 1970-01-01. *)
Definition civil_from_days (days : Z) : Z * Z * Z :=
  let z := days + 719468 in
  let era := z / 146097 in
  let doe := z - era * 146097 in
  let yoe := (doe - doe / 1460 + doe / 36524 - doe / 146096) / 365 in
  let doy := doe - (365 * yoe + yoe / 4 - yoe / 100) in
  let mp := (5 * doy + 2) / 153 in
  let d := doy - (153 * mp + 2) / 5 + 1 in
  let m := if mp <? 10 then mp + 3 else mp - 9 in
  let y := yoe + era * 400 + (if m <=? 2 then 1 else 0) in
  (y, m, d).

Record Fields := {
  f_year : Z; f_month : Z; f_day : Z; f_weekday : Z;
  f_hour : Z; f_minute : Z; f_second : Z; f_millisecond : Z
}.

(** Calendar fields of a time value already shifted to the wanted zone. *)
Definition fields_of (t : Z) : Fields :=
  let days := t / 86400000 in
  let rest := t mod 86400000 in
  let '(y, m, d) := civil_from_days days in
  {| f_year := y; f_month := m; f_day := d;
     f_weekday := (days + 4) mod 7;
     f_hour := rest / 3600000;
     f_minute := (rest / 60000) mod 60;
     f_second := (rest / 1000) mod 60;
     f_millisecond := rest mod 1000 |}.

Definition pad_int (n : nat) (z : Z) : jsstring := padStart0 n (int_to_string z).

(** [date.toISOString()] of a valid time value. *)
Definition toISOString (t : Z) : jsstring :=
  let f := fields_of t in
  let y := f_year f in
  let year :=
    if (0 <=? y) && (y <=? 9999) then pad_int 4 y
    else (if y <? 0 then lit "-" else lit "+") ++ pad_int 6 (Z.abs y) in
  year ++ lit "-" ++ pad_int 2 (f_month f) ++ lit "-" ++ pad_int 2 (f_day f)
    ++ lit "T" ++ pad_int 2 (f_hour f) ++ lit ":" ++ pad_int 2 (f_minute f)
    ++ lit ":" ++ pad_int 2 (f_second f) ++ lit "." ++ pad_int 3 (f_millisecond f)
    ++ lit "Z".

(** Month and weekday names of the [en-US] locale. *)
Definition month_long (m : Z) : jsstring :=
  nth (Z.to_nat (m - 1))
    (map lit ["January"; "February"; "March"; "April"; "May"; "June"; "July";
              "August"; "September"; "October"; "November"; "December"]%string)
    [].

Definition month_short (m : Z) : jsstring := firstn 3 (month_long m).

Definition weekday_long (d : Z) : jsstring :=
  nth (Z.to_nat d)
    (map lit ["Sunday"; "Monday"; "Tuesday"; "Wednesday"; "Thursday"; "Friday";
              "Saturday"]%string)
    [].

Definition weekday_short (d : Z) : jsstring := firstn 3 (weekday_long d).

(** The year as [Intl.DateTimeFormat] prints it: the year of the era. *)
Definition year_of_era (y : Z) : Z := if 1 <=? y then y else 1 - y.

(* ----------------------------------------------------------------- *)
(** ** Platform: the host's time zones and locale *)

(** The services of the host that the converter calls and whose results
    depend on the installation: the time-zone database and the rendering of
    dates in the host's locale.  Offsets are minutes east of UTC. *)
Record Host := {
  (** the zone named by an identifier, as the offset it has at an instant;
      [None] when the platform rejects the identifier with a RangeError *)
  timeZone : jsstring -> option (Z -> Z);
  (** the host's own zone: [- date.getTimezoneOffset()] *)
  localOffset : Z -> Z;
  (** [date.toLocaleString()] *)
  toLocaleString_default : Z -> jsstring;
  (** [date.toLocaleString(undefined, {timeZone?, year: 'numeric',
      month: 'short', ..., hour12: true})], the zone already resolved *)
  toLocaleString_fields : option jsstring -> Z -> jsstring;
  (** [date.toLocaleString('en-US', {timeZone?, timeZoneName})] with
      [timeZoneName] ['longOffset'] ([true]) or ['short'] ([false]) *)
  toLocaleString_zoneName : bool -> option jsstring -> Z -> jsstring
}.

(** ["UTC"] is always supported; anything else is the database's word. *)
Definition lookup_zone (h : Host) (tz : jsstring) : option (Z -> Z) :=
  if str_eqb tz (lit "UTC") then Some (fun _ => 0) else timeZone h tz.

(** Handing [{timeZone: tz}] to [Intl.DateTimeFormat] or [toLocaleString]. *)
Definition resolve_zone (h : Host) (tz : jsstring) : M (Z -> Z) :=
  match lookup_zone h tz with
  | Some z => ret z
  | None => throw RangeError
  end.

(** A host for the examples: one zone besides UTC, local time at UTC+1. *)
Definition sample_host : Host := {|
  timeZone := fun tz =>
    if str_eqb tz (lit "Asia/Kolkata") then Some (fun _ => 330) else None;
  localOffset := fun _ => 60;
  toLocaleString_default := fun t => lit "default:" ++ toISOString (t + 3600000);
  toLocaleString_fields := fun tz t =>
    match tz with
    | Some z => z ++ lit ":" ++ toISOString t
    | None => lit "local:" ++ toISOString (t + 3600000)
    end;
  toLocaleString_zoneName := fun long tz t =>
    match tz with
    | Some z =>
        if str_eqb z (lit "UTC")
        then lit "12/5/2023, 4:00:00 PM " ++ (if long then lit "GMT" else lit "UTC")
        else lit "12/5/2023, 9:30:00 PM " ++ (if long then lit "GMT+05:30" else lit "GMT+5:30")
    | None => lit "12/5/2023, 5:00:00 PM " ++ (if long then lit "GMT+01:00" else lit "GMT+1")
    end
|}.

(** A world whose clock stands still at [now]. *)
Definition world_at (now : Z) : World :=
  {| clock := fun _ => now; reads := 0; shared_lastIndex := 0 |}.

End JS.

Import JS.

(* ================================================================= *)
(** ** [window.EpochLens.Constants] *)

Module Constants.

(** Valid timestamp range (2000-01-01 to 2100-01-01). *)
Definition MIN_TIMESTAMP_MS : Z := 946684800000.
Definition MAX_TIMESTAMP_MS : Z := 4102444800000.

(** Elements to skip when scanning. *)
Definition SKIP_ELEMENTS : list jsstring :=
  map lit ["SCRIPT"; "STYLE"; "NOSCRIPT"; "IFRAME"; "OBJECT"; "EMBED"; "INPUT";
           "TEXTAREA"; "SELECT"; "BUTTON"]%string.

End Constants.

(* ================================================================= *)
(** ** [window.EpochLens.Converter]: validation and unit inference *)

Module Converter.

(** [/^\d{n}$/.test(str)] *)
Definition test_digits (n : nat) (str : jsstring) : bool :=
  all_digits str && (List.length str =? n)%nat.

(** [/^\d{10}$|^\d{13}$/.test(str)] *)
Definition test_10_or_13 (str : jsstring) : bool :=
  test_digits 10 str || test_digits 13 str.

Definition isValidTimestamp (value : JSValue) : bool :=
  let num := Number value in
  if isNaN num then false
  else
    let str := trim (ToString value) in
    if negb (test_10_or_13 str) then false
    else
      let ms := if (List.length str =? 10)%nat then mul_pos num 1000 else num in
      ge_int ms Constants.MIN_TIMESTAMP_MS && le_int ms Constants.MAX_TIMESTAMP_MS.

Definition toMilliseconds (timestamp : JSValue) : JSNumber :=
  let str := trim (ToString timestamp) in
  let num := Number (VString str) in
  if (List.length str =? 10)%nat then mul_pos num 1000 else num.


(* ----------------------------------------------------------------- *)
(** ** [window.EpochLens.Converter]: formatting *)

(** The [date] argument of [formatDate]: a Date object with its time value
    ([None] for NaN), or a value that is not a Date. *)
Inductive DateArg :=
| NotADate
| DateObj (time : option Z).

(** The fields of the options object that the converter reads; [None] is a
    field left undefined. *)
Record Options := {
  format : option jsstring;
  customFormat : option jsstring;
  timezone : option jsstring;
  showSecondaryTimezone : bool;
  secondaryTimezone : option jsstring
}.

(** [{}] *)
Definition no_options : Options :=
  {| format := None; customFormat := None; timezone := None;
     showSecondaryTimezone := false; secondaryTimezone := None |}.

(** [{...options, timezone: tz}] *)
Definition with_timezone (options : Options) (tz : option jsstring) : Options :=
  {| format := format options; customFormat := customFormat options;
     timezone := tz;
     showSecondaryTimezone := showSecondaryTimezone options;
     secondaryTimezone := secondaryTimezone options |}.

(** Truthiness of a string-valued field. *)
Definition truthy (o : option jsstring) : bool :=
  match o with
  | Some (_ :: _) => true
  | _ => false
  end.

Definition or_default (o : option jsstring) (d : string) : jsstring :=
  match o with
  | Some v => v
  | None => lit d
  end.

(** [toDate]: [None] is [null], [Some tv] a Date object. *)
Definition toDate (timestamp : JSValue) : option (option Z) :=
  if negb (isValidTimestamp timestamp) then None
  else Some (TimeClip (toMilliseconds timestamp)).

(** The sign, hours and minutes of an offset in minutes. *)
Definition offset_sign (offset : Z) : jsstring :=
  if 0 <=? offset then lit "+" else lit "-".

Definition offset_hours (offset : Z) : jsstring := pad_int 2 (Z.abs offset / 60).

Definition offset_mins (offset : Z) : jsstring := pad_int 2 (Z.abs offset mod 60).

Definition _formatRelative (date : option Z) : M jsstring :=
  now <- new_Date_now ;;
  match date with
  | None => ret (lit "in NaN years")
  | Some t =>
      let diff := now - t in
      let absDiff := Z.abs diff in
      let isPast := 0 <? diff in
      let seconds := absDiff / 1000 in
      let minutes := seconds / 60 in
      let hours := minutes / 60 in
      let days := hours / 24 in
      let weeks := days / 7 in
      let months := days / 30 in
      let years := days / 365 in
      let '(value, unit) :=
        if seconds <? 60 then (seconds, lit "second")
        else if minutes <? 60 then (minutes, lit "minute")
        else if hours <? 24 then (hours, lit "hour")
        else if days <? 7 then (days, lit "day")
        else if weeks <? 4 then (weeks, lit "week")
        else if months <? 12 then (months, lit "month")
        else (years, lit "year") in
      let plural := if negb (value =? 1) then lit "s" else [] in
      ret (if isPast
           then (if value =? 0 then lit "just now"
                 else int_to_string value ++ lit " " ++ unit ++ plural ++ lit " ago")
           else lit "in " ++ int_to_string value ++ lit " " ++ unit ++ plural)
  end.

(** [formatted.match(/GMT([+-]\d{1,2}:?\d{2})/)]: the group, if any. *)
Definition two_digits (s : jsstring) : bool :=
  match s with
  | a :: b :: _ => is_digit a && is_digit b
  | _ => false
  end.

(** [:?\d{2}] at the head of [s]: the text it matches. *)
Definition colon_digits (s : jsstring) : option jsstring :=
  match s with
  | c :: r =>
      if (c =? 58)%N then (if two_digits r then Some (c :: firstn 2 r) else None)
      else if two_digits s then Some (firstn 2 s) else None
  | [] => None
  end.

(** [[+-]\d{1,2}:?\d{2}] at the head of [s], two digits tried before one. *)
Definition gmt_offset_at (s : jsstring) : option jsstring :=
  match s with
  | sg :: d1 :: r1 =>
      if ((sg =? 43) || (sg =? 45))%N && is_digit d1 then
        let one :=
          match colon_digits r1 with
          | Some t => Some (sg :: d1 :: t)
          | None => None
          end in
        match r1 with
        | d2 :: r2 =>
            if is_digit d2 then
              match colon_digits r2 with
              | Some t => Some (sg :: d1 :: d2 :: t)
              | None => one
              end
            else one
        | [] => one
        end
      else None
  | _ => None
  end.

Fixpoint match_gmt_offset (s : jsstring) : option jsstring :=
  match s with
  | [] => None
  | _ :: s' =>
      if starts_with (lit "GMT") s then
        match gmt_offset_at (skipn 3 s) with
        | Some m => Some m
        | None => match_gmt_offset s'
        end
      else match_gmt_offset s'
  end.

(** [parts[parts.length - 1] || ''] after [formatted.split(' ')]. *)
Definition last_field (s : jsstring) : jsstring :=
  rev (take_while (fun c => negb (c =? 32)%N) (rev s)).

Definition _getTimezoneOffset (h : Host) (date : Z) (timezone : jsstring) : M jsstring :=
  if str_eqb timezone (lit "local") then
    let offset := localOffset h date in
    ret (offset_sign offset ++ offset_hours offset ++ lit ":" ++ offset_mins offset)
  else
    try_catch
      (_ <- resolve_zone h timezone ;;
       let formatted := toLocaleString_zoneName h true (Some timezone) date in
       match match_gmt_offset formatted with
       | Some offset =>
           ret (if existsb (fun c => (c =? 58)%N) offset then offset
                else firstn 3 offset ++ lit ":" ++ skipn 3 offset)
       | None => ret []
       end)
      (fun _ => ret []).

Definition _getTimezoneAbbr (h : Host) (date : Z) (timezone : jsstring) : M jsstring :=
  if str_eqb timezone (lit "local") then
    ret (last_field (toLocaleString_zoneName h false None date))
  else
    try_catch
      (_ <- resolve_zone h timezone ;;
       ret (last_field (toLocaleString_zoneName h false (Some timezone) date)))
      (fun _ => ret []).

Record Parts := {
  year : Z; month : Z; monthLong : jsstring; monthShort : jsstring;
  day : Z; weekdayLong : jsstring; weekdayShort : jsstring;
  hour : Z; hour12 : Z; minute : Z; second : Z; millisecond : Z;
  ampm : jsstring; offset : jsstring; tzAbbr : jsstring
}.

(** The calendar fields come from [Intl.DateTimeFormat('en-US', ...)] in the
    wanted zone, with the 24-hour clock running from 0 to 23; the millisecond
    comes from [date.getMilliseconds()]. *)
Definition _getDateParts (h : Host) (date : Z) (timezone : jsstring) : M Parts :=
  zone <- (if str_eqb timezone (lit "local") then ret (localOffset h)
           else resolve_zone h timezone) ;;
  let f := fields_of (date + zone date * 60000) in
  let hour := f_hour f in
  let hour12 := if hour =? 0 then 12 else if 12 <? hour then hour - 12 else hour in
  offset <- _getTimezoneOffset h date timezone ;;
  tzAbbr <- _getTimezoneAbbr h date timezone ;;
  ret {| year := year_of_era (f_year f);
         month := f_month f;
         monthLong := month_long (f_month f);
         monthShort := month_short (f_month f);
         day := f_day f;
         weekdayLong := weekday_long (f_weekday f);
         weekdayShort := weekday_short (f_weekday f);
         hour := hour;
         hour12 := hour12;
         minute := f_minute f;
         second := f_second f;
         millisecond := date mod 1000;
         ampm := if hour <? 12 then lit "am" else lit "pm";
         offset := offset;
         tzAbbr := tzAbbr |}.

Definition toUpperCase (s : jsstring) : jsstring :=
  map (fun c => if ((97 <=? c) && (c <=? 122))%N then (c - 32)%N else c) s.

Definition toLowerCase (s : jsstring) : jsstring :=
  map (fun c => if ((65 <=? c) && (c <=? 90))%N then (c + 32)%N else c) s.

(** The token table, in the order the object literal lists its keys. *)
Definition tokens (parts : Parts) : list (jsstring * jsstring) :=
  [ (lit "YYYY", int_to_string (year parts));
    (lit "YY", slice_last 2 (int_to_string (year parts)));
    (lit "MMMM", monthLong parts);
    (lit "MMM", monthShort parts);
    (lit "MM", pad_int 2 (month parts));
    (lit "M", int_to_string (month parts));
    (lit "DD", pad_int 2 (day parts));
    (lit "D", int_to_string (day parts));
    (lit "dddd", weekdayLong parts);
    (lit "ddd", weekdayShort parts);
    (lit "HH", pad_int 2 (hour parts));
    (lit "H", int_to_string (hour parts));
    (lit "hh", pad_int 2 (hour12 parts));
    (lit "h", int_to_string (hour12 parts));
    (lit "mm", pad_int 2 (minute parts));
    (lit "m", int_to_string (minute parts));
    (lit "ss", pad_int 2 (second parts));
    (lit "s", int_to_string (second parts));
    (lit "SSS", pad_int 3 (millisecond parts));
    (lit "A", toUpperCase (ampm parts));
    (lit "a", toLowerCase (ampm parts));
    (lit "Z", offset parts);
    (lit "z", tzAbbr parts) ].

(** [keys.sort((a, b) => b.length - a.length)]: longest first, keys of one
    length in their original order (the sort is stable). *)
Fixpoint insert_by_length (t : jsstring * jsstring) (l : list (jsstring * jsstring))
  : list (jsstring * jsstring) :=
  match l with
  | [] => [t]
  | u :: l' =>
      if (List.length (fst t) <? List.length (fst u))%nat
      then u :: insert_by_length t l'
      else t :: l
  end.

Definition sort_longest_first (l : list (jsstring * jsstring)) : list (jsstring * jsstring) :=
  fold_right insert_by_length [] l.

(** The replacement text of one match: [$$], [$&], [$`] and [$'] are
    expanded; the patterns have no groups, so [$1] and the like stay. *)
Fixpoint expand_replacement (matched before after repl : jsstring) : jsstring :=
  match repl with
  | [] => []
  | c :: r =>
      if (c =? 36)%N then
        match r with
        | d :: r' =>
            if (d =? 36)%N then 36%N :: expand_replacement matched before after r'
            else if (d =? 38)%N then matched ++ expand_replacement matched before after r'
            else if (d =? 96)%N then before ++ expand_replacement matched before after r'
            else if (d =? 39)%N then after ++ expand_replacement matched before after r'
            else c :: expand_replacement matched before after r
        | [] => [c]
        end
      else c :: expand_replacement matched before after r
  end.

(** [whole.replace(new RegExp(token, 'g'), repl)] for a token made of
    letters: every occurrence, left to right, without overlap.  [s] is what
    is left of [whole] from position [pos]; [skip] counts the code units of
    the current match still to pass. *)
Fixpoint replace_from (token repl whole : jsstring) (pos skip : nat) (s : jsstring)
  : jsstring :=
  match s with
  | [] => []
  | c :: s' =>
      match skip with
      | S k => replace_from token repl whole (S pos) k s'
      | O =>
          if starts_with token s then
            expand_replacement token (firstn pos whole)
              (skipn (pos + List.length token) whole) repl
              ++ replace_from token repl whole (S pos) (List.length token - 1) s'
          else c :: replace_from token repl whole (S pos) 0 s'
      end
  end.

Definition replace_all (token repl s : jsstring) : jsstring :=
  replace_from token repl s 0 0 s.

Definition _formatCustom (h : Host) (date : Z) (pattern timezone : jsstring) : M jsstring :=
  parts <- _getDateParts h date timezone ;;
  let sortedTokens := sort_longest_first (tokens parts) in
  ret (fold_left (fun result t => replace_all (fst t) (snd t) result)
                 sortedTokens pattern).

Definition _formatISO (h : Host) (date : Z) (timezone : jsstring) : M jsstring :=
  if str_eqb timezone (lit "local") then
    let offset := localOffset h date in
    let sign := offset_sign offset in
    let hours := offset_hours offset in
    let mins := offset_mins offset in
    match TimeClip (of_Z (date + offset * 60000)) with
    | Some local =>
        ret (slice_drop_last 1 (toISOString local) ++ sign ++ hours ++ lit ":" ++ mins)
    | None => throw RangeError
    end
  else if str_eqb timezone (lit "UTC") then ret (toISOString date)
  else _formatCustom h date (lit "YYYY-MM-DDTHH:mm:ss") timezone.

Definition formatDate (h : Host) (date : DateArg) (options : Options) : M jsstring :=
  let format := or_default (format options) "locale" in
  let customFormat := or_default (customFormat options) "YYYY-MM-DD HH:mm:ss" in
  let timezone := or_default (timezone options) "local" in
  match date with
  | NotADate | DateObj None => ret (lit "Invalid Date")
  | DateObj (Some t) =>
      try_catch
        (let tzOptions := if str_eqb timezone (lit "local") then None else Some timezone in
         if str_eqb format (lit "iso") then _formatISO h t timezone
         else if str_eqb format (lit "relative") then _formatRelative (Some t)
         else if str_eqb format (lit "custom") then _formatCustom h t customFormat timezone
         else
           match tzOptions with
           | None => ret (toLocaleString_fields h None t)
           | Some tz =>
               _ <- resolve_zone h tz ;;
               ret (toLocaleString_fields h (Some tz) t)
           end)
        (fun _ => ret (toLocaleString_default h t))
  end.

(* ----------------------------------------------------------------- *)
(** ** [convert] *)

Module Result.
(** The object [convert] returns; [None] is a property that is absent. *)
Record t := {
  success : bool;
  error : option jsstring;
  original : JSValue;
  milliseconds : option JSNumber;
  seconds : option JSNumber;
  isSeconds : option bool;
  date : option (option Z);
  formatted : option jsstring;
  secondaryFormatted : option jsstring;
  relative : option jsstring
}.
End Result.

Definition convert (h : Host) (timestamp : JSValue) (options : Options) : M Result.t :=
  match toDate timestamp with
  | None =>
      ret {| Result.success := false;
             Result.error := Some (lit "Invalid timestamp");
             Result.original := timestamp;
             Result.milliseconds := None; Result.seconds := None;
             Result.isSeconds := None; Result.date := None;
             Result.formatted := None; Result.secondaryFormatted := None;
             Result.relative := None |}
  | Some date =>
      let ms := toMilliseconds timestamp in
      let isSeconds := (List.length (ToString timestamp) =? 10)%nat in
      formatted <- formatDate h (DateObj date) options ;;
      secondaryFormatted <-
        (if showSecondaryTimezone options && truthy (secondaryTimezone options)
         then r <- formatDate h (DateObj date)
                     (with_timezone options (secondaryTimezone options)) ;;
              ret (Some r)
         else ret None) ;;
      relative <- _formatRelative date ;;
      ret {| Result.success := true;
             Result.error := None;
             Result.original := timestamp;
             Result.milliseconds := Some ms;
             Result.seconds := Some (floor_div ms 1000);
             Result.isSeconds := Some isSeconds;
             Result.date := Some date;
             Result.formatted := Some formatted;
             Result.secondaryFormatted := secondaryFormatted;
             Result.relative := Some relative |}
  end.

(* ----------------------------------------------------------------- *)
(** ** [findTimestamps] *)

Definition word_at (text : jsstring) (i : nat) : bool :=
  match nth_error text i with
  | Some c => is_word c
  | None => false
  end.

(** [\b] at position [i]: exactly one side is a word character. *)
Definition word_boundary (text : jsstring) (i : nat) : bool :=
  xorb (match i with O => false | S j => word_at text j end) (word_at text i).

(** [text.slice(i, i + n)] *)
Definition slice (text : jsstring) (i n : nat) : jsstring :=
  firstn n (skipn i text).

(** [\d{n}] at position [i]. *)
Definition digits_at (text : jsstring) (i n : nat) : bool :=
  (List.length (slice text i n) =? n)%nat && all_digits (slice text i n).

(** One attempt of [/\b(\d{10}|\d{13})\b/] at position [i]: the length of
    the match, the first alternative tried first. *)
Definition match_at (text : jsstring) (i : nat) : option nat :=
  if word_boundary text i then
    if digits_at text i 10 && word_boundary text (i + 10) then Some 10%nat
    else if digits_at text i 13 && word_boundary text (i + 13) then Some 13%nat
    else None
  else None.

(** The search of [regex.exec(text)]: positions [i], [i + 1], ... for
    [tries] positions; the first match as (index, length). *)
Fixpoint exec_from (text : jsstring) (i tries : nat) : option (nat * nat) :=
  match tries with
  | O => None
  | S k =>
      match match_at text i with
      | Some n => Some (i, n)
      | None => exec_from text (S i) k
      end
  end.

(** [regex.exec(text)] with the global flag and [regex.lastIndex = lastIndex]:
    the positions up to the end of the text, the end included. *)
Definition exec (text : jsstring) (lastIndex : nat) : option (nat * nat) :=
  exec_from text lastIndex (S (List.length text) - lastIndex).

Module Candidate.
Record t := {
  value : jsstring;
  index : nat;
  length : nat;
  isSeconds : bool
}.
End Candidate.

(** The [while] loop; [lastIndex] is that of the RegExp the function makes
    for itself.  [None] when [fuel] iterations did not finish the loop. *)
Fixpoint findTimestamps_loop (fuel : nat) (text : jsstring) (lastIndex : nat)
  (results : list Candidate.t) : option (list Candidate.t) :=
  match fuel with
  | O => None
  | S fuel' =>
      match exec text lastIndex with
      | None => Some results
      | Some (idx, n) =>
          let timestamp := slice text idx n in
          let results' :=
            if isValidTimestamp (VString timestamp) then
              results ++ [ {| Candidate.value := timestamp;
                              Candidate.index := idx;
                              Candidate.length := List.length timestamp;
                              Candidate.isSeconds := (List.length timestamp =? 10)%nat |} ]
            else results in
          findTimestamps_loop fuel' text (idx + n) results'
      end
  end.

Definition findTimestamps (text : jsstring) : option (list Candidate.t) :=
  findTimestamps_loop (S (List.length text)) text 0 [].

(* ----------------------------------------------------------------- *)
(** ** [dateToEpoch] *)

(** The [date] argument of [dateToEpoch]: a Date object, or a string handed
    to [new Date(...)]. *)
Inductive DateInput :=
| DIDate (time : option Z)
| DIString (s : jsstring).

(** [parse] is the platform's [Date.parse]: the time value of
    [new Date(s)], [None] for NaN.  Nothing inside the [try] throws on these
    arguments. *)
Definition dateToEpoch (parse : jsstring -> option Z) (date : DateInput)
  (inSeconds : bool) : option Z :=
  let d := match date with
           | DIDate tv => tv
           | DIString s => parse s
           end in
  match d with
  | None => None
  | Some ms => Some (if inSeconds then ms / 1000 else ms)
  end.

(* ----------------------------------------------------------------- *)
(** ** The claims' vocabulary *)

(** A run of [n] digits at position [i] of [text], bounded on both sides by
    a word boundary: the code unit before it, and the one after it, is
    missing or is not a word character. *)
Definition bounded_digit_run (text : jsstring) (i n : nat) : Prop :=
  (i + n <= List.length text)%nat
  /\ (forall k, (k < n)%nat ->
        exists c, nth_error text (i + k) = Some c /\ is_digit c = true)
  /\ (i = O \/ exists c, nth_error text (i - 1) = Some c /\ is_word c = false)
  /\ ((i + n)%nat = List.length text
      \/ exists c, nth_error text (i + n) = Some c /\ is_word c = false).

(** What the scan reports at a position where the pattern matches and the
    matched text is a valid timestamp. *)
Definition reported (text : jsstring) (c : Candidate.t) : Prop :=
  match_at text (Candidate.index c) = Some (Candidate.length c)
  /\ Candidate.value c = slice text (Candidate.index c) (Candidate.length c)
  /\ Candidate.isSeconds c = (Candidate.length c =? 10)%nat
  /\ isValidTimestamp (VString (Candidate.value c)) = true.

(** Candidates in text order, none starting before [from] or before the end
    of the one in front of it. *)
Fixpoint non_overlapping (from : nat) (results : list Candidate.t) : Prop :=
  match results with
  | [] => True
  | c :: rest =>
      (from <= Candidate.index c)%nat
      /\ non_overlapping (Candidate.index c + Candidate.length c) rest
  end.

(** The divisor ladder of relative formatting: the magnitude and the unit
    word chosen for a distance of [absDiff] milliseconds. *)
Inductive RelativeUnit (absDiff : Z) : Z -> jsstring -> Prop :=
| RU_second :
    absDiff / 1000 < 60 ->
    RelativeUnit absDiff (absDiff / 1000) (lit "second")
| RU_minute :
    60 <= absDiff / 1000 -> absDiff / 1000 / 60 < 60 ->
    RelativeUnit absDiff (absDiff / 1000 / 60) (lit "minute")
| RU_hour :
    60 <= absDiff / 1000 / 60 -> absDiff / 1000 / 60 / 60 < 24 ->
    RelativeUnit absDiff (absDiff / 1000 / 60 / 60) (lit "hour")
| RU_day :
    24 <= absDiff / 1000 / 60 / 60 -> absDiff / 1000 / 60 / 60 / 24 < 7 ->
    RelativeUnit absDiff (absDiff / 1000 / 60 / 60 / 24) (lit "day")
| RU_week :
    7 <= absDiff / 1000 / 60 / 60 / 24 -> absDiff / 1000 / 60 / 60 / 24 / 7 < 4 ->
    RelativeUnit absDiff (absDiff / 1000 / 60 / 60 / 24 / 7) (lit "week")
| RU_month :
    4 <= absDiff / 1000 / 60 / 60 / 24 / 7 -> absDiff / 1000 / 60 / 60 / 24 / 30 < 12 ->
    RelativeUnit absDiff (absDiff / 1000 / 60 / 60 / 24 / 30) (lit "month")
| RU_year :
    12 <= absDiff / 1000 / 60 / 60 / 24 / 30 ->
    RelativeUnit absDiff (absDiff / 1000 / 60 / 60 / 24 / 365) (lit "year").

(** The zone whose calendar fields [_getDateParts] extracts: the host's own
    for ['local'], otherwise the one the platform knows under the name. *)
Definition effective_zone (h : Host) (timezone : jsstring) : option (Z -> Z) :=
  if str_eqb timezone (lit "local") then Some (localOffset h)
  else lookup_zone h timezone.

(** [c] does not occur in [s]. *)
Definition free (c : code_unit) (s : jsstring) : bool :=
  forallb (fun x => negb (x =? c)%N) s.

(** Text made of digits and minus signs: the decimal text of integers. *)
Definition plain (s : jsstring) : bool :=
  forallb (fun x => is_digit x || (x =? 45)%N) s.

(** The letters that tokens of the custom pattern are made of. *)
Definition token_letters : jsstring := lit "YMDdHhmsSAaZz".

(** A pattern without any token letter. *)
Definition literal (s : jsstring) : bool :=
  forallb (fun x => negb (existsb (N.eqb x) token_letters)) s.

(** The text of an instant's calendar fields under the default pattern
    [YYYY-MM-DD HH:mm:ss]. *)
Definition default_rendering (f : Fields) : jsstring :=
  int_to_string (year_of_era (f_year f)) ++ lit "-"
  ++ pad_int 2 (f_month f) ++ lit "-" ++ pad_int 2 (f_day f)
  ++ lit " " ++ pad_int 2 (f_hour f) ++ lit ":"
  ++ pad_int 2 (f_minute f) ++ lit ":" ++ pad_int 2 (f_second f).

(** Two worlds in which the clock will show the same times from now on. *)
Definition same_time (w1 w2 : World) : Prop :=
  forall k, clock w1 (reads w1 + k) = clock w2 (reads w2 + k).

(** A computation whose outcome is a function of its arguments and of the
    times the clock shows while it runs, and of nothing else: run in two
    worlds with the same future clock it has the same outcome, it leaves the
    clocks in agreement, and it leaves the shared RegExp as it found it. *)
Definition deterministic {A} (m : M A) : Prop :=
  forall w1 w2,
    same_time w1 w2 ->
    fst (m w1) = fst (m w2)
    /\ same_time (snd (m w1)) (snd (m w2))
    /\ shared_lastIndex (snd (m w1)) = shared_lastIndex w1.

(** The failure record of [convert]. *)
Definition failure (timestamp : JSValue) : Result.t :=
  {| Result.success := false;
     Result.error := Some (lit "Invalid timestamp");
     Result.original := timestamp;
     Result.milliseconds := None; Result.seconds := None;
     Result.isSeconds := None; Result.date := None;
     Result.formatted := None; Result.secondaryFormatted := None;
     Result.relative := None |}.

End Converter.

Import Converter.

(* ================================================================= *)
(** ** The content script ([src/content/content.js]) *)

Module Content.

Definition set_lastIndex (i : nat) (w : World) : World :=
  {| clock := clock w; reads := reads w; shared_lastIndex := i |}.

(** [Constants.TIMESTAMP_REGEX.test(text)].  The RegExp is the shared one
    and has the global flag: the search starts at its [lastIndex], a match
    leaves [lastIndex] behind the match, a failure resets it to 0. *)
Definition TIMESTAMP_REGEX_test (text : jsstring) : M bool :=
  fun w =>
    match exec text (shared_lastIndex w) with
    | Some (idx, n) => (Return true, set_lastIndex (idx + n) w)
    | None => (Return false, set_lastIndex 0 w)
    end.

(** What [acceptNode] reads of a text node: its parent, if any, with the
    parent's [tagName] ([None] when it has none) and whether the parent's
    class list contains [epochlens-timestamp]; and the node's text. *)
Record Parent := {
  tagName : option jsstring;
  isTimestampWrapper : bool
}.

Record TextNode := {
  parentNode : option Parent;
  nodeValue : jsstring
}.

(** [SKIP_ELEMENTS.includes(tagName)] *)
Definition skipped (tag : option jsstring) : bool :=
  match tag with
  | Some t => existsb (str_eqb t) Constants.SKIP_ELEMENTS
  | None => false
  end.

(** The filter of the TreeWalker in [scanPage] and [scanElement]; [true] is
    [FILTER_ACCEPT], [false] is [FILTER_REJECT]. *)
Definition acceptNode (node : TextNode) : M bool :=
  match parentNode node with
  | None => ret false
  | Some parent =>
      if skipped (tagName parent) then ret false
      else if isTimestampWrapper parent then ret false
      else
        found <- TIMESTAMP_REGEX_test (nodeValue node) ;;
        if negb found then ret false else ret true
  end.

(** [while (node = walker.nextNode()) textNodes.push(node)] over the text
    nodes of the document, in document order. *)
Fixpoint collectTextNodes (nodes : list TextNode) : M (list TextNode) :=
  match nodes with
  | [] => ret []
  | node :: rest =>
      accepted <- acceptNode node ;;
      textNodes <- collectTextNodes rest ;;
      ret (if accepted then node :: textNodes else textNodes)
  end.

(** The children of the fragment that replaces a text node: plain text, or
    the wrapper element made for a timestamp, whose first child shows the
    timestamp as it stood in the text. *)
Inductive Fragment :=
| Text (s : jsstring)
| Wrapper (timestamp : jsstring).

(** One round of [timestamps.forEach(...)]: the children appended and the
    new [lastIndex]. *)
Definition appendCandidate (text : jsstring) (lastIndex : nat) (c : Candidate.t)
  : list Fragment * nat :=
  let index := Candidate.index c in
  let value := Candidate.value c in
  ((if (lastIndex <? index)%nat then [Text (slice text lastIndex (index - lastIndex))]
    else [])
   ++ [Wrapper value],
   (index + List.length value)%nat).

Fixpoint appendCandidates (text : jsstring) (lastIndex : nat)
  (timestamps : list Candidate.t) : list Fragment * nat :=
  match timestamps with
  | [] => ([], lastIndex)
  | c :: rest =>
      let '(children, lastIndex') := appendCandidate text lastIndex c in
      let '(more, final) := appendCandidates text lastIndex' rest in
      (children ++ more, final)
  end.

(** [processTextNode]: the children of the fragment put in the place of the
    node, and the number added to [timestampCount]; [None] when the function
    returns without touching the node. *)
Definition processTextNode (node : TextNode) : option (list Fragment * nat) :=
  let text := nodeValue node in
  match findTimestamps text with
  | None | Some [] => None
  | Some timestamps =>
      match parentNode node with
      | None => None
      | Some _ =>
          let '(children, lastIndex) := appendCandidates text 0 timestamps in
          Some (children
                  ++ (if (lastIndex <? List.length text)%nat
                      then [Text (skipn lastIndex text)] else []),
                List.length timestamps)
      end
  end.

(** The text a fragment child shows for the original text. *)
Definition originalText (f : Fragment) : jsstring :=
  match f with
  | Text s => s
  | Wrapper timestamp => timestamp
  end.

(** The timestamps wrapped in a list of children, in order. *)
Definition wrapped (children : list Fragment) : list jsstring :=
  flat_map (fun f => match f with
                     | Text _ => []
                     | Wrapper timestamp => [timestamp]
                     end) children.

(** A node that passes the checks [acceptNode] makes before it consults
    the RegExp: it has a parent, not one of the skipped elements and not a
    wrapper made by an earlier scan. *)
Definition eligible (node : TextNode) : bool :=
  match parentNode node with
  | Some parent => negb (skipped (tagName parent)) && negb (isTimestampWrapper parent)
  | None => false
  end.

End Content.

(* ================================================================= *)
(** ** The popup script (second part of [src/content/content.js]) *)

Module Popup.

Definition MIN_TIMESTAMP_MS : Z := 946684800000.
Definition MAX_TIMESTAMP_MS : Z := 4102444800000.

(** The popup's own [isValidTimestamp]; [value] is the trimmed input. *)
Definition isValidTimestamp (value : jsstring) : bool :=
  if negb (test_10_or_13 value) then false
  else
    let num := Number (VString value) in
    let ms := if (List.length value =? 10)%nat then mul_pos num 1000 else num in
    ge_int ms MIN_TIMESTAMP_MS && le_int ms MAX_TIMESTAMP_MS.

(** The popup's own [formatRelative]: the ladder stops at days. *)
Definition formatRelative (date : Z) : M jsstring :=
  now <- new_Date_now ;;
  let diff := now - date in
  let absDiff := Z.abs diff in
  let isPast := 0 <? diff in
  let seconds := absDiff / 1000 in
  let minutes := seconds / 60 in
  let hours := minutes / 60 in
  let days := hours / 24 in
  let '(value, unit) :=
    if seconds <? 60 then (seconds, lit "second")
    else if minutes <? 60 then (minutes, lit "minute")
    else if hours <? 24 then (hours, lit "hour")
    else (days, lit "day") in
  let plural := if negb (value =? 1) then lit "s" else [] in
  ret (if isPast
       then (if value =? 0 then lit "just now"
             else int_to_string value ++ lit " " ++ unit ++ plural ++ lit " ago")
       else lit "in " ++ int_to_string value ++ lit " " ++ unit ++ plural).

(** The popup's own [formatDate(date, timezone)], on a valid Date. *)
Definition formatDate (h : Host) (date : Z) (timezone : jsstring) : M jsstring :=
  try_catch
    (if str_eqb timezone (lit "local") then ret (toLocaleString_fields h None date)
     else
       _ <- resolve_zone h timezone ;;
       ret (toLocaleString_fields h (Some timezone) date))
    (fun _ => ret (toLocaleString_default h date)).

(** The hint [detectInputType] shows beside the input. *)
Inductive InputType := Seconds | Milliseconds | DateText | DateString.

(** [/^\d{4}-\d{2}-\d{2}/.test(value)] *)
Definition test_date_prefix (value : jsstring) : bool :=
  test_digits 4 (slice value 0 4) && str_eqb (slice value 4 1) (lit "-")
  && test_digits 2 (slice value 5 2) && str_eqb (slice value 7 1) (lit "-")
  && test_digits 2 (slice value 8 2).

(** [/^\w+ \d+/.test(value)]: the run of word characters at the start is
    not empty (a space is no word character, so the run is taken whole) and
    a space and a digit follow it. *)
Definition test_word_number (value : jsstring) : bool :=
  match value with
  | c :: _ =>
      is_word c &&
      match drop_while is_word value with
      | sp :: d :: _ => (sp =? 32)%N && is_digit d
      | _ => false
      end
  | [] => false
  end.

Definition detectInputType (value : jsstring) : option InputType :=
  if test_digits 10 value then Some Seconds
  else if test_digits 13 value then Some Milliseconds
  else if test_date_prefix value then Some DateText
  else if test_word_number value then Some DateString
  else None.

(** [parseDate]; [parse] is the platform's [Date.parse], [None] its NaN. *)
Definition parseDate (parse : jsstring -> option Z) (value : jsstring) : option Z :=
  match parse value with
  | None => None
  | Some ms =>
      if (ms <? MIN_TIMESTAMP_MS) || (MAX_TIMESTAMP_MS <? ms) then None
      else Some ms
  end.

(** The settings the popup reads; they are merged over the defaults, so
    every field is there. *)
Record Settings := {
  timezone : jsstring;
  showSecondaryTimezone : bool;
  secondaryTimezone : jsstring
}.

(** The result card: what the elements of the popup are set to.  The two
    epoch fields hold the Numbers that are written into the elements. *)
Record Card := {
  timestampType : jsstring;
  epochSeconds : JSNumber;
  epochMs : JSNumber;
  timezoneLabel : jsstring;
  formattedDate : jsstring;
  secondaryDate : option jsstring;
  isoDate : jsstring;
  relativeTime : jsstring
}.

(** The statements that [showTimestampResult] and [showDateResult] share,
    from [elements.epochSeconds] on; [date] is [new Date(ms)].  On an
    invalid Date the renderings are "Invalid Date" and [toISOString]
    throws. *)
Definition fillCard (h : Host) (settings : Settings) (label : jsstring)
  (ms : JSNumber) (date : option Z) : M Card :=
  match date with
  | None => throw RangeError
  | Some t =>
      formatted <- formatDate h t (timezone settings) ;;
      secondary <-
        (if showSecondaryTimezone settings
            && negb (str_eqb (secondaryTimezone settings) [])
         then s <- formatDate h t (secondaryTimezone settings) ;; ret (Some s)
         else ret None) ;;
      relative <- formatRelative t ;;
      ret {| timestampType := label;
             epochSeconds := floor_div ms 1000;
             epochMs := ms;
             timezoneLabel := if str_eqb (timezone settings) (lit "local")
                              then lit "Local Time" else timezone settings;
             formattedDate := formatted;
             secondaryDate := secondary;
             isoDate := toISOString t;
             relativeTime := relative |}
  end.

Definition showTimestampResult (h : Host) (settings : Settings) (timestamp : jsstring)
  : M Card :=
  let num := Number (VString timestamp) in
  let isSeconds := (List.length timestamp =? 10)%nat in
  let ms := if isSeconds then mul_pos num 1000 else num in
  fillCard h settings (if isSeconds then lit "Seconds" else lit "Milliseconds")
    ms (TimeClip ms).

Definition showDateResult (h : Host) (settings : Settings) (date : Z) : M Card :=
  fillCard h settings (lit "From Date") (of_Z date) (Some date).

(** What the popup shows after [handleInput]. *)
Inductive View :=
| EmptyState
| ResultCard (card : Card)
| ErrorCard (message : jsstring).

(** [handleInput] on the text of the input field: the view, and the hint
    ([None] for the empty hint). *)
Definition handleInput (h : Host) (parse : jsstring -> option Z) (settings : Settings)
  (input : jsstring) : M (View * option InputType) :=
  let value := trim input in
  match value with
  | [] => ret (EmptyState, None)
  | _ :: _ =>
      let inputType := detectInputType value in
      if isValidTimestamp value then
        card <- showTimestampResult h settings value ;;
        ret (ResultCard card, inputType)
      else
        match parseDate parse value with
        | Some date =>
            card <- showDateResult h settings date ;;
            ret (ResultCard card, inputType)
        | None =>
            ret (ErrorCard (lit "Invalid timestamp or date format"), inputType)
        end
  end.

(** The popup's ladder: the magnitude and the unit word for a distance of
    [absDiff] milliseconds. *)
Inductive LadderUnit (absDiff : Z) : Z -> jsstring -> Prop :=
| LU_second :
    absDiff / 1000 < 60 ->
    LadderUnit absDiff (absDiff / 1000) (lit "second")
| LU_minute :
    60 <= absDiff / 1000 -> absDiff / 1000 / 60 < 60 ->
    LadderUnit absDiff (absDiff / 1000 / 60) (lit "minute")
| LU_hour :
    60 <= absDiff / 1000 / 60 -> absDiff / 1000 / 60 / 60 < 24 ->
    LadderUnit absDiff (absDiff / 1000 / 60 / 60) (lit "hour")
| LU_day :
    24 <= absDiff / 1000 / 60 / 60 ->
    LadderUnit absDiff (absDiff / 1000 / 60 / 60 / 24) (lit "day").

End Popup.

(* ================================================================= *)
(** ** The service worker ([src/background/service-worker.js]) *)

Module ServiceWorker.

Definition MIN_TIMESTAMP_MS : Z := 946684800000.
Definition MAX_TIMESTAMP_MS : Z := 4102444800000.

(** The standalone copies of the validation and of the unit inference. *)
Definition isValidTimestamp (value : JSValue) : bool :=
  let num := Number value in
  if isNaN num then false
  else
    let str := trim (ToString value) in
    if negb (test_10_or_13 str) then false
    else
      let ms := if (List.length str =? 10)%nat then mul_pos num 1000 else num in
      ge_int ms MIN_TIMESTAMP_MS && le_int ms MAX_TIMESTAMP_MS.

Definition toMilliseconds (timestamp : JSValue) : JSNumber :=
  let str := trim (ToString timestamp) in
  let num := Number (VString str) in
  if (List.length str =? 10)%nat then mul_pos num 1000 else num.

(** The worker's [formatDate(date, settings)].  On an invalid Date
    [toISOString] throws inside the [try] and [toLocaleString] yields
    "Invalid Date" either way. *)
Definition formatDate (h : Host) (date : option Z) (settings : Options) : M jsstring :=
  let timezone := or_default (Converter.timezone settings) "local" in
  let format := or_default (Converter.format settings) "locale" in
  match date with
  | None => ret (lit "Invalid Date")
  | Some t =>
      try_catch
        (if str_eqb format (lit "iso") then ret (toISOString t)
         else if str_eqb timezone (lit "local") then ret (toLocaleString_fields h None t)
         else
           _ <- resolve_zone h timezone ;;
           ret (toLocaleString_fields h (Some timezone) t))
        (fun _ => ret (toLocaleString_default h t))
  end.

Module Result.
(** The object [convertTimestamp] returns; [None] is an absent property. *)
Record t := {
  success : bool;
  error : option jsstring;
  original : option JSValue;
  milliseconds : option JSNumber;
  seconds : option JSNumber;
  isSeconds : option bool;
  date : option jsstring;
  formatted : option jsstring
}.
End Result.

Definition convertTimestamp (h : Host) (timestamp : JSValue) (settings : Options)
  : M Result.t :=
  if negb (isValidTimestamp timestamp) then
    ret {| Result.success := false;
           Result.error := Some (lit "Invalid timestamp");
           Result.original := None;
           Result.milliseconds := None; Result.seconds := None;
           Result.isSeconds := None; Result.date := None;
           Result.formatted := None |}
  else
    let ms := toMilliseconds timestamp in
    let date := TimeClip ms in
    let isSeconds := (List.length (ToString timestamp) =? 10)%nat in
    formatted <- formatDate h date settings ;;
    iso <- match date with
           | Some t => ret (toISOString t)
           | None => throw RangeError
           end ;;
    ret {| Result.success := true;
           Result.error := None;
           Result.original := Some timestamp;
           Result.milliseconds := Some ms;
           Result.seconds := Some (floor_div ms 1000);
           Result.isSeconds := Some isSeconds;
           Result.date := Some iso;
           Result.formatted := Some formatted |}.

(** [dateToTimestamp]; [parse] is the platform's [Date.parse]. *)
Definition dateToTimestamp (parse : jsstring -> option Z) (dateStr : jsstring)
  : option Z :=
  match parse dateStr with
  | None => None
  | Some ms =>
      if (ms <? MIN_TIMESTAMP_MS) || (MAX_TIMESTAMP_MS <? ms) then None
      else Some ms
  end.

(** [String(n)], exact on the integral values below 1e21 -- the only
    Numbers that the code below prints, behind [isValidTimestamp]. *)
Definition number_text (n : JSNumber) : jsstring :=
  match n with
  | NaN => lit "NaN"
  | Infinity s => if s then lit "-Infinity" else lit "Infinity"
  | Finite q => int_to_string (Qfloor q)
  end.

(** What a handler does to the outside: a request to copy a text to the
    clipboard ([copyToClipboard] catches its own failures), a notification
    written to the log. *)
Inductive Action :=
| CopyToClipboard (text : jsstring)
| ShowNotification (title message : jsstring).

Definition handleCopyTimestamp (parse : jsstring -> option Z) (selection : jsstring)
  : list Action :=
  if isValidTimestamp (VString selection) then
    let ms := toMilliseconds (VString selection) in
    [ CopyToClipboard (number_text ms);
      ShowNotification (lit "Copied") (lit "Timestamp: " ++ number_text ms ++ lit "ms") ]
  else
    match dateToTimestamp parse selection with
    | Some timestamp =>
        if timestamp =? 0 then
          [ ShowNotification (lit "Conversion Failed") (lit "Could not parse date") ]
        else
          [ CopyToClipboard (int_to_string timestamp);
            ShowNotification (lit "Copied") (lit "Timestamp: " ++ int_to_string timestamp) ]
    | None => [ ShowNotification (lit "Conversion Failed") (lit "Could not parse date") ]
    end.

(** The badge text of [updateBadge(count, tabId)]. *)
Definition badgeText (count : Z) : jsstring :=
  if 0 <? count then (if 99 <? count then lit "99+" else int_to_string count)
  else [].

End ServiceWorker.

(* ----------------------------------------------------------------- *)
(** ** The options page *)

Module OptionsPage.

(** The settings the preview reads. *)
Record Settings := {
  dateFormat : jsstring;
  customFormat : jsstring;
  timezone : jsstring
}.

(** The page's own [formatCustom(date, pattern, timezone)]: nine tokens,
    the numeric ones taken as the texts that [formatToParts] yields. *)
Definition formatCustom (h : Host) (date : Z) (pattern timezone : jsstring)
  : M jsstring :=
  zone <- (if str_eqb timezone (lit "local") then ret (localOffset h)
           else resolve_zone h timezone) ;;
  let f := fields_of (date + zone date * 60000) in
  let hour := f_hour f in
  let hour12 := if hour =? 0 then 12 else if 12 <? hour then hour - 12 else hour in
  let tokens :=
    [ (lit "YYYY", int_to_string (year_of_era (f_year f)));
      (lit "MM", pad_int 2 (f_month f));
      (lit "DD", pad_int 2 (f_day f));
      (lit "HH", pad_int 2 (f_hour f));
      (lit "hh", pad_int 2 hour12);
      (lit "mm", pad_int 2 (f_minute f));
      (lit "ss", pad_int 2 (f_second f));
      (lit "A", if hour <? 12 then lit "AM" else lit "PM");
      (lit "a", if hour <? 12 then lit "am" else lit "pm") ] in
  ret (fold_left (fun result t => replace_all (fst t) (snd t) result)
                 (sort_longest_first tokens) pattern).

(** [updateFormatPreview]: the text written into the preview element. *)
Definition updateFormatPreview (h : Host) (settings : Settings) : M jsstring :=
  now <- new_Date_now ;;
  let format := dateFormat settings in
  let timezone := timezone settings in
  try_catch
    (if str_eqb format (lit "iso") then ret (toISOString now)
     else if str_eqb format (lit "relative") then ret (lit "just now")
     else if str_eqb format (lit "custom") then
       formatCustom h now (customFormat settings) timezone
     else if str_eqb timezone (lit "local") then ret (toLocaleString_fields h None now)
     else
       _ <- resolve_zone h timezone ;;
       ret (toLocaleString_fields h (Some timezone) now))
    (fun _ => ret (toLocaleString_default h now)).

End OptionsPage.

(* ================================================================= *)
(** * Properties *)

Example int_to_string_ex :
  int_to_string 1701792000 = lit "1701792000" /\ int_to_string 0 = lit "0"
  /\ int_to_string (-45) = lit "-45" /\ int_to_string 9 = lit "9"
  /\ int_to_string 10 = lit "10" /\ int_to_string 1024 = lit "1024".
Proof. repeat split; reflexivity. Qed.

(* ----------------------------------------------------------------- *)
(** ** Characters and trimming *)

Lemma is_digit_spec c : is_digit c = true <-> (48 <= c <= 57)%N.
Proof. unfold is_digit. rewrite andb_true_iff, !N.leb_le. tauto. Qed.

(** Settles a goal [c =? k = false] or a ranged test from bounds on [c]. *)
Ltac char_neq :=
  unfold cu_eqb;
  repeat (apply orb_false_iff; split);
  first [ apply N.eqb_neq; lia
        | apply andb_false_iff; (left + right); apply N.leb_gt; lia ].

Lemma digit_not_space c : is_digit c = true -> is_space c = false.
Proof. intros H. apply is_digit_spec in H. unfold is_space. char_neq. Qed.

Lemma digit_is_word c : is_digit c = true -> is_word c = true.
Proof. intros H. unfold is_word. rewrite H. reflexivity. Qed.

Lemma all_digits_app a b :
  all_digits (a ++ b) = all_digits a && all_digits b.
Proof. apply forallb_app. Qed.

Lemma all_digits_rev s : all_digits (rev s) = all_digits s.
Proof.
  induction s as [|c s IH]; simpl; [reflexivity|].
  rewrite all_digits_app, IH. simpl. rewrite andb_true_r. apply andb_comm.
Qed.

Lemma drop_space_digits s :
  all_digits s = true -> drop_while is_space s = s.
Proof.
  destruct s as [|c s]; simpl; [reflexivity|].
  intros H. apply andb_true_iff in H as [H _].
  rewrite (digit_not_space _ H). reflexivity.
Qed.

Lemma trim_digits s : all_digits s = true -> trim s = s.
Proof.
  intros H. unfold trim, trimStart, trimEnd.
  rewrite (drop_space_digits s H).
  rewrite drop_space_digits by (rewrite all_digits_rev; exact H).
  apply rev_involutive.
Qed.

Lemma take_while_all s : all_digits s = true -> take_while is_digit s = s.
Proof.
  induction s as [|c s IH]; simpl; [reflexivity|].
  intros H. apply andb_true_iff in H as [Hc Hs].
  rewrite Hc, (IH Hs). reflexivity.
Qed.

Lemma drop_while_all s : all_digits s = true -> drop_while is_digit s = [].
Proof.
  induction s as [|c s IH]; simpl; [reflexivity|].
  intros H. apply andb_true_iff in H as [Hc Hs].
  rewrite Hc. exact (IH Hs).
Qed.

(** Trimming is idempotent: a trimmed string starts and ends with a
    non-space. *)
Lemma drop_while_idem p s : drop_while p (drop_while p s) = drop_while p s.
Proof.
  induction s as [|c s IH]; simpl; [reflexivity|].
  destruct (p c) eqn:E; [exact IH|]. simpl. rewrite E. reflexivity.
Qed.

Lemma drop_while_snoc p a c :
  p c = false -> exists a', drop_while p (a ++ [c]) = a' ++ [c].
Proof.
  intros Hc. induction a as [|x a IH]; simpl.
  - rewrite Hc. exists []. reflexivity.
  - destruct (p x); [exact IH|]. exists (x :: a). reflexivity.
Qed.

Lemma drop_while_head p s c t : drop_while p s = c :: t -> p c = false.
Proof.
  induction s as [|x s IH]; simpl; [discriminate|].
  destruct (p x) eqn:Ex; [exact IH|]. congruence.
Qed.

Lemma trimStart_trimEnd s : trimStart (trimEnd (trimStart s)) = trimEnd (trimStart s).
Proof.
  unfold trimEnd, trimStart.
  destruct (drop_while is_space s) as [|c t] eqn:E; [reflexivity|].
  pose proof (drop_while_head _ _ _ _ E) as Hc.
  simpl rev at 2 4.
  destruct (drop_while_snoc is_space (rev t) c Hc) as [a' Ha].
  rewrite Ha, rev_app_distr. simpl. rewrite Hc. reflexivity.
Qed.

Lemma trim_idem s : trim (trim s) = trim s.
Proof.
  unfold trim. rewrite (trimStart_trimEnd s).
  unfold trimEnd. rewrite rev_involutive, drop_while_idem. reflexivity.
Qed.

(* ----------------------------------------------------------------- *)
(** ** Number of a digit string, decimal text of an integer *)

Lemma digit_not_prefix c :
  is_digit c = true ->
  (((c =? 120) || (c =? 88))%N = false) /\ (((c =? 111) || (c =? 79))%N = false)
  /\ (((c =? 98) || (c =? 66))%N = false).
Proof. intros H. apply is_digit_spec in H. repeat split; char_neq. Qed.

Lemma parse_nondecimal_digits s :
  all_digits s = true -> parse_nondecimal s = None.
Proof.
  destruct s as [|a [|p ds]]; simpl; try reflexivity.
  - intros _. destruct a as [|q]; [reflexivity|]. do 6 (destruct q; try reflexivity).
  - intros H. apply andb_true_iff in H as [_ H]. apply andb_true_iff in H as [Hp _].
    destruct (digit_not_prefix p Hp) as (E1 & E2 & E3).
    rewrite E1, E2, E3.
    destruct a as [|q]; [reflexivity|]. do 6 (destruct q; try reflexivity).
Qed.

Lemma parse_decimal_digits s :
  all_digits s = true -> s <> [] ->
  parse_decimal s = of_Z (digits_val 10 s).
Proof.
  intros H Hne. destruct s as [|c s]; [congruence|].
  assert (Hc : is_digit c = true) by (simpl in H; apply andb_true_iff in H; tauto).
  unfold parse_decimal.
  assert (Hsign : strip_sign (c :: s) = (false, c :: s)).
  { unfold strip_sign. destruct c as [|q]; [reflexivity|].
    apply is_digit_spec in Hc.
    do 6 (destruct q; try reflexivity); exfalso; lia. }
  rewrite Hsign.
  assert (Hinf : str_eqb (c :: s) (lit "Infinity") = false).
  { simpl. destruct (cu_eqb c 73%N) eqn:E; [|reflexivity].
    apply N.eqb_eq in E. subst c. discriminate Hc. }
  rewrite Hinf.
  unfold parse_unsigned_decimal.
  rewrite (take_while_all _ H), (drop_while_all _ H).
  simpl parse_exponent. cbv iota beta.
  rewrite app_nil_r. unfold of_Z, scale10. simpl.
  rewrite Z.mul_1_r. reflexivity.
Qed.

Lemma StringToNumber_digits s :
  all_digits (trim s) = true -> trim s <> [] ->
  StringToNumber s = of_Z (digits_val 10 (trim s)).
Proof.
  intros H Hne. unfold StringToNumber.
  destruct (trim s) as [|c t] eqn:E; [congruence|].
  rewrite (parse_nondecimal_digits _ H). apply parse_decimal_digits; assumption.
Qed.

Lemma digits_val_snoc r s c :
  digits_val r (s ++ [c]) = digits_val r s * r + digit_val c.
Proof. unfold digits_val. rewrite fold_left_app. reflexivity. Qed.

Lemma to_digits_spec f :
  forall n acc,
    0 <= n < 2 ^ Z.of_nat f -> f <> O ->
    exists ds, to_digits f n acc = ds ++ acc /\ all_digits ds = true
               /\ ds <> [] /\ digits_val 10 ds = n.
Proof.
  induction f as [|f IH]; intros n acc Hn Hf; [congruence|].
  assert (Hc : is_digit (Z.to_N (48 + n mod 10)) = true).
  { apply is_digit_spec. pose proof (Z.mod_pos_bound n 10 ltac:(lia)). lia. }
  assert (Hv : digit_val (Z.to_N (48 + n mod 10)) = n mod 10).
  { unfold digit_val. rewrite Hc.
    pose proof (Z.mod_pos_bound n 10 ltac:(lia)). lia. }
  cbn [to_digits]. destruct (n <? 10) eqn:E.
  - apply Z.ltb_lt in E. exists [Z.to_N (48 + n mod 10)].
    split; [reflexivity|]. split; [unfold all_digits, forallb; rewrite Hc; reflexivity|].
    split; [discriminate|].
    change [Z.to_N (48 + n mod 10)] with ([] ++ [Z.to_N (48 + n mod 10)]).
    rewrite digits_val_snoc, Hv. change (digits_val 10 []) with 0.
    rewrite Z.mod_small; lia.
  - apply Z.ltb_ge in E.
    assert (Hdiv : 0 <= n / 10 < 2 ^ Z.of_nat f).
    { split; [apply Z.div_pos; lia|].
      apply Z.div_lt_upper_bound; [lia|].
      rewrite Nat2Z.inj_succ, Z.pow_succ_r in Hn by lia. lia. }
    assert (Hf' : f <> O).
    { intros ->. simpl in Hdiv. assert (1 <= n / 10) by (apply Z.div_le_lower_bound; lia). lia. }
    destruct (IH (n / 10) (Z.to_N (48 + n mod 10) :: acc) Hdiv Hf')
      as (ds & Hds & Hall & _ & Hval).
    exists (ds ++ [Z.to_N (48 + n mod 10)]). repeat split.
    + rewrite Hds, <- app_assoc. reflexivity.
    + rewrite all_digits_app, Hall. unfold all_digits, forallb. rewrite Hc. reflexivity.
    + destruct ds; discriminate.
    + rewrite digits_val_snoc, Hval, Hv. rewrite (Z.div_mod n 10) at 3 by lia. lia.
Qed.

Lemma nat_to_string_spec n :
  0 <= n ->
  all_digits (nat_to_string n) = true /\ nat_to_string n <> []
  /\ digits_val 10 (nat_to_string n) = n.
Proof.
  intros Hn. unfold nat_to_string.
  destruct (to_digits_spec (S (Z.to_nat (Z.log2 n))) n []) as (ds & E & Ha & Hne & Hv).
  - split; [exact Hn|]. rewrite Nat2Z.inj_succ, Z2Nat.id by apply Z.log2_nonneg.
    destruct (Z.eq_dec n 0) as [->|Hpos]; [reflexivity|].
    apply Z.log2_spec. lia.
  - discriminate.
  - rewrite E, app_nil_r. auto.
Qed.

(** When the trimmed string form of a value is a run of digits, [Number]
    of the value is the decimal value of that run. *)
Lemma Number_of_digit_form v :
  all_digits (trim (ToString v)) = true -> trim (ToString v) <> [] ->
  Number v = of_Z (digits_val 10 (trim (ToString v))).
Proof.
  destruct v as [s|z]; simpl; [apply StringToNumber_digits|].
  unfold int_to_string. destruct (z <? 0) eqn:E.
  - apply Z.ltb_lt in E.
    destruct (nat_to_string_spec (- z) ltac:(lia)) as (Ha & Hne & _).
    set (ds := nat_to_string (- z)) in *.
    assert (Ht : trim (45%N :: ds) = 45%N :: ds).
    { unfold trim, trimStart, trimEnd. simpl drop_while at 2.
      simpl rev at 2.
      destruct (rev ds) as [|c t] eqn:Er.
      - apply (f_equal (@rev _)) in Er. rewrite rev_involutive in Er. simpl in Er. congruence.
      - assert (Hc : is_digit c = true).
        { pose proof (all_digits_rev ds) as Hr. rewrite Er, Ha in Hr. simpl in Hr.
          apply andb_true_iff in Hr. tauto. }
        simpl. rewrite (digit_not_space c Hc).
        change (c :: t ++ [45%N]) with ((c :: t) ++ [45%N]).
        rewrite <- Er, rev_app_distr, rev_involutive. reflexivity. }
    rewrite Ht. simpl. discriminate.
  - apply Z.ltb_ge in E.
    destruct (nat_to_string_spec z E) as (Ha & Hne & Hv).
    rewrite (trim_digits _ Ha), Hv. reflexivity.
Qed.

Lemma Qle_bool_inject a b : Qle_bool (inject_Z a) (inject_Z b) = (a <=? b).
Proof. unfold Qle_bool, inject_Z. simpl. rewrite !Z.mul_1_r. reflexivity. Qed.

Lemma ge_int_of_Z a b : ge_int (of_Z a) b = (b <=? a).
Proof. apply Qle_bool_inject. Qed.

Lemma le_int_of_Z a b : le_int (of_Z a) b = (a <=? b).
Proof. apply Qle_bool_inject. Qed.

Lemma mul_pos_of_Z a b : mul_pos (of_Z a) b = of_Z (a * b).
Proof. reflexivity. Qed.

Lemma test_10_or_13_spec str :
  test_10_or_13 str = true <->
  all_digits str = true /\ (List.length str = 10%nat \/ List.length str = 13%nat).
Proof.
  unfold test_10_or_13, test_digits.
  rewrite orb_true_iff, !andb_true_iff, !Nat.eqb_eq. tauto.
Qed.

(* ----------------------------------------------------------------- *)
(** ** Validation and unit inference *)

(** What [isValidTimestamp] returns, written out on the decimal value of the
    trimmed string form. *)
Lemma isValidTimestamp_digits v :
  all_digits (trim (ToString v)) = true ->
  (List.length (trim (ToString v)) = 10%nat \/ List.length (trim (ToString v)) = 13%nat) ->
  isValidTimestamp v =
  let n := digits_val 10 (trim (ToString v)) in
  let ms := if (List.length (trim (ToString v)) =? 10)%nat then n * 1000 else n in
  (Constants.MIN_TIMESTAMP_MS <=? ms) && (ms <=? Constants.MAX_TIMESTAMP_MS).
Proof.
  intros Ha Hl. unfold isValidTimestamp.
  assert (Hne : trim (ToString v) <> []) by (destruct (trim (ToString v)); [simpl in Hl; lia|discriminate]).
  rewrite (Number_of_digit_form v Ha Hne). simpl isNaN. cbv iota.
  replace (test_10_or_13 (trim (ToString v))) with true
    by (symmetry; apply test_10_or_13_spec; tauto).
  simpl negb. cbv iota zeta.
  destruct (List.length (trim (ToString v)) =? 10)%nat;
    rewrite ?mul_pos_of_Z, ge_int_of_Z, le_int_of_Z; reflexivity.
Qed.

Lemma isValidTimestamp_shape v :
  isValidTimestamp v = true -> test_10_or_13 (trim (ToString v)) = true.
Proof.
  unfold isValidTimestamp. destruct (isNaN (Number v)); [discriminate|].
  destruct (test_10_or_13 (trim (ToString v))); [reflexivity|discriminate].
Qed.

(** Acceptance, written out on the trimmed string form. *)
Lemma isValidTimestamp_iff (v : JSValue) :
  isValidTimestamp v = true <->
  all_digits (trim (ToString v)) = true
  /\ Number v = of_Z (digits_val 10 (trim (ToString v)))
  /\ ((List.length (trim (ToString v)) = 10%nat
       /\ 946684800000 <= digits_val 10 (trim (ToString v)) * 1000 <= 4102444800000)
      \/ (List.length (trim (ToString v)) = 13%nat
          /\ 946684800000 <= digits_val 10 (trim (ToString v)) <= 4102444800000)).
Proof.
  split.
  - intros H. pose proof (isValidTimestamp_shape v H) as Hs.
    apply test_10_or_13_spec in Hs as [Ha Hl].
    assert (Hne : trim (ToString v) <> [])
      by (destruct (trim (ToString v)); [simpl in Hl; lia|discriminate]).
    rewrite (isValidTimestamp_digits v Ha Hl) in H. cbv zeta in H.
    unfold Constants.MIN_TIMESTAMP_MS, Constants.MAX_TIMESTAMP_MS in H.
    split; [exact Ha|]. split; [exact (Number_of_digit_form v Ha Hne)|].
    destruct Hl as [Hl|Hl]; rewrite Hl in H; simpl Nat.eqb in H; cbv iota in H;
      apply andb_true_iff in H as [H1 H2];
      apply Z.leb_le in H1; apply Z.leb_le in H2; [left|right]; auto.
  - intros (Ha & _ & Hr).
    rewrite (isValidTimestamp_digits v Ha) by tauto. cbv zeta.
    unfold Constants.MIN_TIMESTAMP_MS, Constants.MAX_TIMESTAMP_MS.
    destruct Hr as [[Hl [H1 H2]]|[Hl [H1 H2]]]; rewrite Hl; simpl Nat.eqb; cbv iota;
      apply andb_true_iff; split; apply Z.leb_le; assumption.
Qed.

(** C1 (as amended).  [isValidTimestamp value] is true exactly when the
    trimmed string form of [value] is a run of 10 or of 13 ASCII digits and
    the milliseconds derived from it (the number times 1000 for 10 digits, the
    number itself for 13) lie in [946684800000, 4102444800000], both bounds
    included.  ["4102444800"] is accepted; ["946684800"] has nine digits and
    is rejected, as are ["12345"] and ["12345678901"]. *)
Theorem isValidTimestamp_spec :
  (forall v : JSValue,
      isValidTimestamp v = true <->
      let str := trim (ToString v) in
      all_digits str = true
      /\ Number v = of_Z (digits_val 10 str)
      /\ ((List.length str = 10%nat
           /\ 946684800000 <= digits_val 10 str * 1000 <= 4102444800000)
          \/ (List.length str = 13%nat
              /\ 946684800000 <= digits_val 10 str <= 4102444800000)))
  /\ isValidTimestamp (VString (lit "4102444800")) = true
  /\ isValidTimestamp (VString (lit "946684800")) = false
  /\ isValidTimestamp (VString (lit "12345")) = false
  /\ isValidTimestamp (VString (lit "12345678901")) = false.
Proof.
  split; [exact isValidTimestamp_iff|repeat split; reflexivity].
Qed.

(** C1, the example that fails: the spec's lower boundary ["946684800"] is
    a nine-digit string, and [isValidTimestamp] rejects it on its length. *)
Lemma isValidTimestamp_nine_digit_min_rejected :
  isValidTimestamp (VString (lit "946684800")) <> true.
Proof. vm_compute. discriminate. Qed.

(** The lower bound itself is accepted once written with ten digits. *)
Example isValidTimestamp_lower_bound_inclusive :
  isValidTimestamp (VString (lit "0946684800")) = true
  /\ isValidTimestamp (VString (lit "0946684799")) = false
  /\ isValidTimestamp (VString (lit "0946684800000")) = true
  /\ isValidTimestamp (VString (lit "4102444800001")) = false
  /\ isValidTimestamp (VInt 4102444800) = true
  /\ isValidTimestamp (VString (lit " 1701792000 ")) = true.
Proof. repeat split; reflexivity. Qed.

(** The unit is read off the length of the trimmed string form. *)
Lemma Number_digits s : all_digits s = true -> Number (VString s) = of_Z (digits_val 10 s).
Proof.
  intros Hd. destruct s as [|c s'] eqn:Es; [reflexivity|]. rewrite <- Es in *.
  rewrite <- (trim_digits s Hd) at 2.
  apply (Number_of_digit_form (VString s)); simpl; rewrite (trim_digits s Hd);
    [assumption|subst s; discriminate].
Qed.

Lemma toMilliseconds_trimmed v s :
  all_digits s = true -> trim (ToString v) = s ->
  toMilliseconds v =
  if (List.length s =? 10)%nat then of_Z (digits_val 10 s * 1000)
  else of_Z (digits_val 10 s).
Proof.
  intros Hd Hv. unfold toMilliseconds. rewrite Hv, (Number_digits s Hd).
  destruct (List.length s =? 10)%nat; reflexivity.
Qed.

(** C2.  For a 10-digit numeric string [toMilliseconds] is [Number(s) * 1000],
    for a 13-digit one it is [Number(s)]; the unit is read off the digit count
    of the trimmed string form and nothing else.  The strings are those of at
    most 15 digits, whose Number is the integer they spell (it is below
    2^53). *)
Theorem toMilliseconds_by_digit_count
  (s : jsstring) (Hd : all_digits s = true) (Hlen : (List.length s <= 15)%nat) :
  (List.length s = 10%nat ->
     toMilliseconds (VString s) = mul_pos (Number (VString s)) 1000)
  /\ (List.length s = 13%nat -> toMilliseconds (VString s) = Number (VString s))
  /\ Number (VString s) = of_Z (digits_val 10 s)
  /\ (forall v : JSValue,
        trim (ToString v) = s ->
        toMilliseconds v =
        if (List.length s =? 10)%nat then of_Z (digits_val 10 s * 1000)
        else of_Z (digits_val 10 s)).
Proof.
  pose proof (Number_digits s Hd) as Hn.
  pose proof (toMilliseconds_trimmed (VString s) s Hd (trim_digits s Hd)) as Hs.
  repeat split.
  - intros Hl. rewrite Hs, Hn, Hl. reflexivity.
  - intros Hl. rewrite Hs, Hn, Hl. reflexivity.
  - exact Hn.
  - intros v Ht. exact (toMilliseconds_trimmed v s Hd Ht).
Qed.

(** C2 at a ten-digit string, a thirteen-digit string and a padded one. *)
Lemma toMilliseconds_by_digit_count_witness :
  toMilliseconds (VString (lit "1701792000")) = mul_pos (Number (VString (lit "1701792000"))) 1000
  /\ toMilliseconds (VString (lit "1701792000000")) = Number (VString (lit "1701792000000"))
  /\ toMilliseconds (VString (lit "  1701792000 ")) = of_Z 1701792000000.
Proof.
  split; [|split].
  - apply (toMilliseconds_by_digit_count (lit "1701792000"));
      [reflexivity | simpl; lia | reflexivity].
  - apply (toMilliseconds_by_digit_count (lit "1701792000000"));
      [reflexivity | simpl; lia | reflexivity].
  - destruct (toMilliseconds_by_digit_count (lit "1701792000") eq_refl
                ltac:(simpl; lia))
      as (_ & _ & _ & H).
    exact (H (VString (lit "  1701792000 ")) eq_refl).
Defined.

(** An accepted value denotes an instant of the window: its milliseconds
    are an integer between the two bounds, and the Date made from them is
    valid. *)
Lemma valid_timestamp_instant v :
  isValidTimestamp v = true ->
  exists ms,
    toMilliseconds v = of_Z ms
    /\ Constants.MIN_TIMESTAMP_MS <= ms <= Constants.MAX_TIMESTAMP_MS
    /\ TimeClip (toMilliseconds v) = Some ms.
Proof.
  intros H. apply isValidTimestamp_iff in H. destruct H as (Ha & _ & Hr).
  pose proof (toMilliseconds_trimmed v _ Ha eq_refl) as Hv.
  assert (Hclip : forall ms, 946684800000 <= ms <= 4102444800000 ->
                             TimeClip (of_Z ms) = Some ms).
  { intros ms Hms. unfold TimeClip, of_Z.
    replace (Qabs (inject_Z ms)) with (inject_Z (Z.abs ms)) by reflexivity.
    rewrite Qle_bool_inject.
    replace (Z.abs ms <=? 8640000000000000) with true by (symmetry; apply Z.leb_le; lia).
    unfold Qtrunc. simpl Qnum.
    replace (0 <=? ms) with true by (symmetry; apply Z.leb_le; lia).
    unfold Qfloor, inject_Z. rewrite Z.div_1_r. reflexivity. }
  unfold Constants.MIN_TIMESTAMP_MS, Constants.MAX_TIMESTAMP_MS.
  destruct Hr as [[Hl Hb]|[Hl Hb]]; rewrite Hl in Hv; simpl Nat.eqb in Hv; cbv iota in Hv;
    eexists; (split; [exact Hv|split; [exact Hb|rewrite Hv; apply Hclip; exact Hb]]).
Qed.

(* ----------------------------------------------------------------- *)
(** ** The monad *)

Lemma bind_return {A B} (m : M A) (k : A -> M B) w a w' :
  m w = (Return a, w') -> bind m k w = k a w'.
Proof. intros H. unfold bind. rewrite H. reflexivity. Qed.

Lemma bind_throw {A B} (m : M A) (k : A -> M B) w e w' :
  m w = (Throw e, w') -> bind m k w = (Throw e, w').
Proof. intros H. unfold bind. rewrite H. reflexivity. Qed.

Lemma try_catch_return {A} (m : M A) handler w a w' :
  m w = (Return a, w') -> try_catch m handler w = (Return a, w').
Proof. intros H. unfold try_catch. rewrite H. reflexivity. Qed.

Lemma try_catch_throw {A} (m : M A) handler w e w' :
  m w = (Throw e, w') -> try_catch m handler w = handler e w'.
Proof. intros H. unfold try_catch. rewrite H. reflexivity. Qed.

(** A [try] whose handler returns always returns. *)
Lemma try_catch_total {A} (m : M A) (handler : Error -> M A) :
  (forall e w, exists a w', handler e w = (Return a, w')) ->
  forall w, exists a w', try_catch m handler w = (Return a, w').
Proof.
  intros Hh w. unfold try_catch. destruct (m w) as [[a|e] w'].
  - exists a, w'. reflexivity.
  - apply Hh.
Qed.

(* ----------------------------------------------------------------- *)
(** ** Invalid input *)

Lemma toDate_invalid v : isValidTimestamp v = false -> toDate v = None.
Proof. intros H. unfold toDate. rewrite H. reflexivity. Qed.

(** C3.  On a value that [isValidTimestamp] rejects, whatever the options,
    [convert] does not throw: it returns the record with [success] false, the
    error text "Invalid timestamp", the value as it was given, and none of
    the numeric or formatted fields.  [convert("not-a-timestamp", {})] is such
    a call. *)
Theorem convert_invalid_input :
  (forall (h : Host) (v : JSValue) (o : Options) (w : World),
      isValidTimestamp v = false ->
      convert h v o w =
      (Return {| Result.success := false;
                 Result.error := Some (lit "Invalid timestamp");
                 Result.original := v;
                 Result.milliseconds := None; Result.seconds := None;
                 Result.isSeconds := None; Result.date := None;
                 Result.formatted := None; Result.secondaryFormatted := None;
                 Result.relative := None |}, w))
  /\ (forall (h : Host) (w : World),
        convert h (VString (lit "not-a-timestamp")) no_options w =
        (Return (failure (VString (lit "not-a-timestamp"))), w)).
Proof.
  split.
  - intros h v o w H. unfold convert. rewrite (toDate_invalid v H). reflexivity.
  - intros h w. reflexivity.
Qed.

(** C3 at the number 12345. *)
Lemma convert_invalid_input_witness :
  isValidTimestamp (VInt 12345) = false
  /\ convert sample_host (VInt 12345) no_options (world_at 0)
     = (Return (failure (VInt 12345)), world_at 0).
Proof.
  split; [reflexivity|].
  exact (proj1 convert_invalid_input sample_host (VInt 12345) no_options (world_at 0) eq_refl).
Defined.

(** C10.  Handed something that is not a Date, or a Date whose time value is
    NaN, [formatDate] returns "Invalid Date": for every host, every options
    record and every world, without reading the clock. *)
Theorem formatDate_invalid_date :
  forall (h : Host) (o : Options) (w : World),
    formatDate h NotADate o w = (Return (lit "Invalid Date"), w)
    /\ formatDate h (DateObj None) o w = (Return (lit "Invalid Date"), w).
Proof. intros h o w. split; reflexivity. Qed.

(* ----------------------------------------------------------------- *)
(** ** Formatting never throws; unknown zones *)

Lemma str_eqb_eq a b : str_eqb a b = true <-> a = b.
Proof.
  revert b. induction a as [|x a IH]; destruct b as [|y b]; simpl;
    try (split; [discriminate|discriminate]); [tauto|].
  unfold cu_eqb. rewrite andb_true_iff, N.eqb_eq, IH.
  split; [intros [-> ->]; reflexivity|intros E; inversion E; auto].
Qed.

Lemma lookup_zone_none_not_UTC h tz :
  lookup_zone h tz = None -> str_eqb tz (lit "UTC") = false.
Proof.
  unfold lookup_zone. destruct (str_eqb tz (lit "UTC")); [discriminate|reflexivity].
Qed.

Lemma resolve_zone_unknown h tz w :
  lookup_zone h tz = None -> resolve_zone h tz w = (Throw RangeError, w).
Proof. intros H. unfold resolve_zone. rewrite H. reflexivity. Qed.

Lemma getDateParts_unknown h t tz w :
  str_eqb tz (lit "local") = false -> lookup_zone h tz = None ->
  _getDateParts h t tz w = (Throw RangeError, w).
Proof.
  intros Hl Hz. unfold _getDateParts. rewrite Hl.
  apply bind_throw. apply resolve_zone_unknown. exact Hz.
Qed.

Lemma formatCustom_unknown h t pattern tz w :
  str_eqb tz (lit "local") = false -> lookup_zone h tz = None ->
  _formatCustom h t pattern tz w = (Throw RangeError, w).
Proof.
  intros Hl Hz. unfold _formatCustom.
  apply bind_throw. apply getDateParts_unknown; assumption.
Qed.

(** Relative formatting reads the clock once and returns. *)
Lemma formatRelative_returns d w :
  exists s, _formatRelative d w = (Return s, tick w).
Proof.
  unfold _formatRelative, bind, new_Date_now. destruct d as [t|].
  - cbv zeta.
    match goal with
    | |- context [let '(_, _) := ?X in _] => destruct X as [value unit]
    end.
    eexists. reflexivity.
  - eexists. reflexivity.
Qed.

(** [formatDate] returns: the guard, or a [try] whose handler returns. *)
Lemma formatDate_returns h d o w :
  exists s w', formatDate h d o w = (Return s, w').
Proof.
  destruct d as [|[t|]].
  - exists (lit "Invalid Date"), w. reflexivity.
  - unfold formatDate. apply try_catch_total.
    intros e w0. exists (toLocaleString_default h t), w0. reflexivity.
  - exists (lit "Invalid Date"), w. reflexivity.
Qed.

(** C7 (as amended).  On a valid Date, [formatDate] returns a string for
    every host, every options record (every dialect, every time-zone text)
    and every world: it never throws.  When the time zone asked for is not
    ['local'] and the platform does not know it, the dialects ['locale'],
    ['iso'] and ['custom'] yield the host's default rendering
    [date.toLocaleString()] of the same instant; the ['relative'] dialect
    does not look at the time zone and yields its phrase. *)
Theorem formatDate_total_and_fallback :
  forall (h : Host) (t : Z) (o : Options) (w : World),
    (exists s w', formatDate h (DateObj (Some t)) o w = (Return s, w'))
    /\ (forall tz,
          timezone o = Some tz ->
          str_eqb tz (lit "local") = false ->
          lookup_zone h tz = None ->
          (str_eqb (or_default (format o) "locale") (lit "relative") = false ->
           formatDate h (DateObj (Some t)) o w = (Return (toLocaleString_default h t), w))
          /\ (str_eqb (or_default (format o) "locale") (lit "relative") = true ->
              formatDate h (DateObj (Some t)) o w = _formatRelative (Some t) w)).
Proof.
  intros h t o w. split.
  - apply formatDate_returns.
  - intros tz Htz Hl Hz. unfold formatDate. cbv zeta. rewrite Htz. cbn [or_default].
    pose proof (lookup_zone_none_not_UTC h tz Hz) as Hu.
    rewrite Hl.
    destruct (str_eqb (or_default (format o) "locale") (lit "iso")) eqn:Eiso.
    + assert (Hrel : str_eqb (or_default (format o) "locale") (lit "relative") = false).
      { apply str_eqb_eq in Eiso. rewrite Eiso. reflexivity. }
      split; [|rewrite Hrel; discriminate].
      intros _. unfold _formatISO. rewrite Hl, Hu.
      erewrite try_catch_throw by (apply formatCustom_unknown; assumption). reflexivity.
    + destruct (str_eqb (or_default (format o) "locale") (lit "relative")) eqn:Erel.
      * split; [discriminate|]. intros _.
        destruct (formatRelative_returns (Some t) w) as [r Hr].
        rewrite Hr. apply try_catch_return. exact Hr.
      * split; [|discriminate]. intros _.
        destruct (str_eqb (or_default (format o) "locale") (lit "custom")).
        -- erewrite try_catch_throw by (apply formatCustom_unknown; assumption). reflexivity.
        -- erewrite try_catch_throw
             by (apply bind_throw; apply resolve_zone_unknown; exact Hz).
           reflexivity.
Qed.

(** C7 at a zone name the sample host does not know, custom dialect. *)
Lemma formatDate_total_and_fallback_witness :
  formatDate sample_host (DateObj (Some 1701792000000))
    {| format := Some (lit "custom"); customFormat := Some (lit "YYYY");
       timezone := Some (lit "Mars/Phobos");
       showSecondaryTimezone := false; secondaryTimezone := None |}
    (world_at 0)
  = (Return (toLocaleString_default sample_host 1701792000000), world_at 0).
Proof.
  apply (proj2 (formatDate_total_and_fallback sample_host 1701792000000 _ (world_at 0))
           (lit "Mars/Phobos")); reflexivity.
Defined.

(** C7, where the claim fails: in the relative dialect an unknown time zone
    does not lead to the default rendering, because the zone is never handed
    to the platform. *)
Lemma formatDate_relative_keeps_phrase_on_unknown_zone :
  lookup_zone sample_host (lit "Mars/Phobos") = None
  /\ fst (formatDate sample_host (DateObj (Some 1701792000000))
            {| format := Some (lit "relative"); customFormat := None;
               timezone := Some (lit "Mars/Phobos");
               showSecondaryTimezone := false; secondaryTimezone := None |}
            (world_at 1701795600000))
     = Return (lit "1 hour ago")
  /\ fst (formatDate sample_host (DateObj (Some 1701792000000))
            {| format := Some (lit "relative"); customFormat := None;
               timezone := Some (lit "Mars/Phobos");
               showSecondaryTimezone := false; secondaryTimezone := None |}
            (world_at 1701795600000))
     <> Return (toLocaleString_default sample_host 1701792000000).
Proof. repeat split; try reflexivity. vm_compute. discriminate. Qed.

(* ----------------------------------------------------------------- *)
(** ** Relative formatting *)

(** The ladder is a function of the distance: every distance has its
    magnitude and unit. *)
Lemma RelativeUnit_total d : exists value unit, RelativeUnit d value unit.
Proof.
  destruct (Z_lt_le_dec (d / 1000) 60); [eauto using RU_second|].
  destruct (Z_lt_le_dec (d / 1000 / 60) 60); [eauto using RU_minute|].
  destruct (Z_lt_le_dec (d / 1000 / 60 / 60) 24); [eauto using RU_hour|].
  destruct (Z_lt_le_dec (d / 1000 / 60 / 60 / 24) 7); [eauto using RU_day|].
  destruct (Z_lt_le_dec (d / 1000 / 60 / 60 / 24 / 7) 4); [eauto using RU_week|].
  destruct (Z_lt_le_dec (d / 1000 / 60 / 60 / 24 / 30) 12); [eauto using RU_month|].
  eauto using RU_year.
Qed.

Ltac ladder_step :=
  match goal with
  | |- context [?a <? ?b] =>
      destruct (Z.ltb_spec a b);
      [try (exfalso; Z.div_mod_to_equations; lia)
      |try (exfalso; Z.div_mod_to_equations; lia)]
  end.

Lemma ladder_choice d value unit :
  RelativeUnit d value unit ->
  (if d / 1000 <? 60 then (d / 1000, lit "second")
   else if d / 1000 / 60 <? 60 then (d / 1000 / 60, lit "minute")
   else if d / 1000 / 60 / 60 <? 24 then (d / 1000 / 60 / 60, lit "hour")
   else if d / 1000 / 60 / 60 / 24 <? 7 then (d / 1000 / 60 / 60 / 24, lit "day")
   else if d / 1000 / 60 / 60 / 24 / 7 <? 4 then (d / 1000 / 60 / 60 / 24 / 7, lit "week")
   else if d / 1000 / 60 / 60 / 24 / 30 <? 12
        then (d / 1000 / 60 / 60 / 24 / 30, lit "month")
        else (d / 1000 / 60 / 60 / 24 / 365, lit "year"))
  = (value, unit).
Proof.
  intros H; inversion H; subst; clear H; repeat ladder_step; reflexivity.
Qed.

Lemma formatRelative_unfold t w value unit :
  RelativeUnit (Z.abs (clock w (reads w) - t)) value unit ->
  _formatRelative (Some t) w =
  (Return (if 0 <? clock w (reads w) - t
           then (if value =? 0 then lit "just now"
                 else int_to_string value ++ lit " " ++ unit
                        ++ (if negb (value =? 1) then lit "s" else []) ++ lit " ago")
           else lit "in " ++ int_to_string value ++ lit " " ++ unit
                  ++ (if negb (value =? 1) then lit "s" else [])),
   tick w).
Proof.
  intros H. unfold _formatRelative, bind, new_Date_now. cbv zeta.
  rewrite (ladder_choice _ _ _ H). reflexivity.
Qed.

(** C5 (as amended).  Relative formatting takes [diff = now - instant] in
    milliseconds and the magnitude and unit that the divisor ladder selects
    for [|diff|]; the unit word gets an "s" unless the magnitude is 1.  With
    [diff > 0] it renders "<magnitude> <unit> ago" when the magnitude is not
    0, and "just now" when the instant is less than a second in the past;
    with [diff < 0] it renders "in <magnitude> <unit>".  An instant 3600000 ms
    in the past renders "1 hour ago", one 172800000 ms in the future
    "in 2 days". *)
Theorem formatRelative_ladder
  (t : Z) (w : World) (value : Z) (unit : jsstring)
  (Hladder : RelativeUnit (Z.abs (clock w (reads w) - t)) value unit) :
  (0 < clock w (reads w) - t -> value <> 0 ->
     _formatRelative (Some t) w =
     (Return (int_to_string value ++ lit " " ++ unit
                ++ (if value =? 1 then [] else lit "s") ++ lit " ago"), tick w))
  /\ (0 < clock w (reads w) - t -> clock w (reads w) - t < 1000 ->
        _formatRelative (Some t) w = (Return (lit "just now"), tick w))
  /\ (clock w (reads w) - t < 0 ->
        _formatRelative (Some t) w =
        (Return (lit "in " ++ int_to_string value ++ lit " " ++ unit
                   ++ (if value =? 1 then [] else lit "s")), tick w))
  /\ (forall t0,
        fst (_formatRelative (Some t0) (world_at (t0 + 3600000)))
        = Return (lit "1 hour ago"))
  /\ (forall t0,
        fst (_formatRelative (Some t0) (world_at (t0 - 172800000)))
        = Return (lit "in 2 days")).
Proof.
  split; [|split; [|split; [|split]]].
  - rewrite (formatRelative_unfold t w value unit Hladder).
    intros Hd Hv. apply Z.ltb_lt in Hd. rewrite Hd.
    apply Z.eqb_neq in Hv. rewrite Hv. destruct (value =? 1); reflexivity.
  - intros Hd Hs.
    assert (Hz : Z.abs (clock w (reads w) - t) / 1000 = 0)
      by (apply Z.div_small; lia).
    rewrite (formatRelative_unfold t w _ _
               (RU_second _ ltac:(rewrite Hz; lia))).
    apply Z.ltb_lt in Hd. rewrite Hd, Hz. reflexivity.
  - rewrite (formatRelative_unfold t w value unit Hladder). intros Hd.
    assert (E : (0 <? clock w (reads w) - t) = false) by (apply Z.ltb_ge; lia).
    rewrite E. destruct (value =? 1); reflexivity.
  - intros t0. unfold _formatRelative, bind, new_Date_now, world_at. cbn [clock reads].
    replace (t0 + 3600000 - t0) with 3600000 by lia. reflexivity.
  - intros t0. unfold _formatRelative, bind, new_Date_now, world_at. cbn [clock reads].
    replace (t0 - 172800000 - t0) with (-172800000) by lia. reflexivity.
Qed.

(** C5 at two hours in the past, 999 ms in the past and one minute in the
    future. *)
Lemma formatRelative_ladder_witness :
  _formatRelative (Some 1701792000000) (world_at 1701799200000)
  = (Return (lit "2 hours ago"), tick (world_at 1701799200000))
  /\ _formatRelative (Some 1701792000000) (world_at 1701792000999)
     = (Return (lit "just now"), tick (world_at 1701792000999))
  /\ _formatRelative (Some 1701792000000) (world_at 1701791940000)
     = (Return (lit "in 1 minute"), tick (world_at 1701791940000)).
Proof.
  split; [|split].
  - apply (formatRelative_ladder 1701792000000 (world_at 1701799200000) 2 (lit "hour")).
    + apply (RU_hour 7200000); vm_compute; congruence.
    + reflexivity.
    + discriminate.
  - apply (formatRelative_ladder 1701792000000 (world_at 1701792000999) 0 (lit "second")).
    + apply (RU_second 999); reflexivity.
    + reflexivity.
    + reflexivity.
  - apply (formatRelative_ladder 1701792000000 (world_at 1701791940000) 1 (lit "minute")).
    + apply (RU_minute 60000); vm_compute; congruence.
    + reflexivity.
Defined.

(** C5, where the claim fails: with no difference at all the code takes the
    future branch and renders "in 0 seconds", not "just now"; and half a
    second in the past is "just now", not an "ago" phrase. *)
Lemma formatRelative_zero_and_subsecond :
  fst (_formatRelative (Some 1701792000000) (world_at 1701792000000))
  = Return (lit "in 0 seconds")
  /\ fst (_formatRelative (Some 1701792000000) (world_at 1701792000000))
     <> Return (lit "just now")
  /\ fst (_formatRelative (Some 1701792000000) (world_at 1701792000500))
     = Return (lit "just now")
  /\ fst (_formatRelative (Some 1701792000000) (world_at 1701792000500))
     <> Return (lit "0 seconds ago").
Proof. repeat split; try reflexivity; vm_compute; discriminate. Qed.

(** The ladder leaves the magnitude at 0 between 28 and 29 days, and between
    360 and 364: four weeks ago is "just now". *)
Example formatRelative_four_weeks :
  fst (_formatRelative (Some 1701792000000) (world_at (1701792000000 + 28 * 86400000)))
  = Return (lit "just now")
  /\ fst (_formatRelative (Some 1701792000000) (world_at (1701792000000 - 28 * 86400000)))
     = Return (lit "in 0 months")
  /\ fst (_formatRelative (Some 1701792000000) (world_at (1701792000000 + 27 * 86400000)))
     = Return (lit "3 weeks ago")
  /\ fst (_formatRelative (Some 1701792000000) (world_at (1701792000000 + 30 * 86400000)))
     = Return (lit "1 month ago").
Proof. repeat split; reflexivity. Qed.

(* ----------------------------------------------------------------- *)
(** ** Determinism *)

Lemma det_ret {A} (a : A) : deterministic (ret a).
Proof. intros w1 w2 H. simpl. auto. Qed.

Lemma det_throw {A} e : deterministic (@throw A e).
Proof. intros w1 w2 H. simpl. auto. Qed.

Lemma det_bind {A B} (m : M A) (k : A -> M B) :
  deterministic m -> (forall a, deterministic (k a)) -> deterministic (bind m k).
Proof.
  intros Hm Hk w1 w2 H. destruct (Hm w1 w2 H) as (E & T & L). unfold bind.
  destruct (m w1) as [[a1|e1] w1'], (m w2) as [[a2|e2] w2']; simpl in *;
    try discriminate; inversion E; subst.
  - destruct (Hk a2 w1' w2' T) as (E' & T' & L'). rewrite L'. auto.
  - auto.
Qed.

Lemma det_try_catch {A} (m : M A) handler :
  deterministic m -> (forall e, deterministic (handler e)) ->
  deterministic (try_catch m handler).
Proof.
  intros Hm Hk w1 w2 H. destruct (Hm w1 w2 H) as (E & T & L). unfold try_catch.
  destruct (m w1) as [[a1|e1] w1'], (m w2) as [[a2|e2] w2']; simpl in *;
    try discriminate; inversion E; subst.
  - auto.
  - destruct (Hk e2 w1' w2' T) as (E' & T' & L'). rewrite L'. auto.
Qed.

Lemma det_new_Date_now : deterministic new_Date_now.
Proof.
  intros w1 w2 H. unfold new_Date_now. simpl. repeat split.
  - pose proof (H O) as H0. rewrite !Nat.add_0_r in H0. rewrite H0. reflexivity.
  - intros k. simpl. pose proof (H (S k)) as Hk.
    rewrite !Nat.add_succ_r in Hk. exact Hk.
Qed.

Lemma det_resolve_zone h tz : deterministic (resolve_zone h tz).
Proof.
  unfold resolve_zone. destruct (lookup_zone h tz); [apply det_ret|apply det_throw].
Qed.

Ltac det :=
  repeat first
    [ apply det_ret | apply det_throw | apply det_new_Date_now
    | apply det_resolve_zone | apply det_bind | apply det_try_catch
    | match goal with
      | |- forall _, _ => intro
      | |- deterministic (if ?b then _ else _) => destruct b
      | |- deterministic (match ?x with _ => _ end) => destruct x
      end ].

Lemma det_formatRelative d : deterministic (_formatRelative d).
Proof.
  unfold _formatRelative. apply det_bind; [apply det_new_Date_now|].
  intros now. destruct d as [t|]; [|apply det_ret]. cbv zeta.
  match goal with
  | |- context [let '(_, _) := ?X in _] => destruct X as [value unit]
  end.
  apply det_ret.
Qed.

Lemma det_getTimezoneOffset h t tz : deterministic (_getTimezoneOffset h t tz).
Proof. unfold _getTimezoneOffset. det. Qed.

Lemma det_getTimezoneAbbr h t tz : deterministic (_getTimezoneAbbr h t tz).
Proof. unfold _getTimezoneAbbr. det. Qed.

Lemma det_getDateParts h t tz : deterministic (_getDateParts h t tz).
Proof.
  unfold _getDateParts.
  apply det_bind; [destruct (str_eqb tz (lit "local")); [apply det_ret|apply det_resolve_zone]|].
  intros zone. cbv zeta.
  apply det_bind; [apply det_getTimezoneOffset|]. intros off.
  apply det_bind; [apply det_getTimezoneAbbr|]. intros ab. apply det_ret.
Qed.

Lemma det_formatCustom h t p tz : deterministic (_formatCustom h t p tz).
Proof.
  unfold _formatCustom. apply det_bind; [apply det_getDateParts|].
  intros parts. apply det_ret.
Qed.

Lemma det_formatISO h t tz : deterministic (_formatISO h t tz).
Proof.
  unfold _formatISO. destruct (str_eqb tz (lit "local")).
  - cbv zeta. destruct (TimeClip _); [apply det_ret|apply det_throw].
  - destruct (str_eqb tz (lit "UTC")); [apply det_ret|apply det_formatCustom].
Qed.

Lemma det_formatDate h d o : deterministic (formatDate h d o).
Proof.
  unfold formatDate. cbv zeta. destruct d as [|[t|]]; try apply det_ret.
  apply det_try_catch; [|intros e; apply det_ret].
  destruct (str_eqb _ (lit "iso")); [apply det_formatISO|].
  destruct (str_eqb _ (lit "relative")); [apply det_formatRelative|].
  destruct (str_eqb _ (lit "custom")); [apply det_formatCustom|].
  destruct (str_eqb _ (lit "local")); [apply det_ret|].
  apply det_bind; [apply det_resolve_zone|intros z; apply det_ret].
Qed.

Lemma det_convert h v o : deterministic (convert h v o).
Proof.
  unfold convert. destruct (toDate v) as [date|]; [|apply det_ret].
  cbv zeta. apply det_bind; [apply det_formatDate|]. intros f.
  apply det_bind.
  - destruct (showSecondaryTimezone o && truthy (secondaryTimezone o)); [|apply det_ret].
    apply det_bind; [apply det_formatDate|intros r; apply det_ret].
  - intros s. apply det_bind; [apply det_formatRelative|intros r; apply det_ret].
Qed.

(** C9.  [convert] is deterministic: two calls with the same value and the
    same options, made on the same host while the clock shows the same
    times, return the same record (or throw the same error), whatever else
    differs between the two moments -- how often the clock was read before,
    where the shared RegExp's [lastIndex] stands -- and the call leaves that
    shared state as it found it. *)
Theorem convert_deterministic
  (h : Host) (v : JSValue) (o : Options) (w1 w2 : World)
  (Hclock : same_time w1 w2) :
  fst (convert h v o w1) = fst (convert h v o w2)
  /\ shared_lastIndex (snd (convert h v o w1)) = shared_lastIndex w1.
Proof.
  destruct (det_convert h v o w1 w2 Hclock) as (E & _ & L). split; assumption.
Qed.

(** C9 at two worlds that differ in the readings already taken and in the
    shared [lastIndex]. *)
Lemma convert_deterministic_witness :
  fst (convert sample_host (VString (lit "1701792000"))
         {| format := Some (lit "relative"); customFormat := None;
            timezone := None; showSecondaryTimezone := true;
            secondaryTimezone := Some (lit "UTC") |}
         (world_at 1701795600000))
  = fst (convert sample_host (VString (lit "1701792000"))
           {| format := Some (lit "relative"); customFormat := None;
              timezone := None; showSecondaryTimezone := true;
              secondaryTimezone := Some (lit "UTC") |}
           {| clock := fun _ => 1701795600000; reads := 3; shared_lastIndex := 7 |}).
Proof.
  apply (convert_deterministic sample_host (VString (lit "1701792000")) _
           (world_at 1701795600000)
           {| clock := fun _ => 1701795600000; reads := 3; shared_lastIndex := 7 |}).
  intros k. reflexivity.
Defined.

(* ----------------------------------------------------------------- *)
(** ** Custom patterns *)

Lemma getTimezoneOffset_returns h t tz w :
  exists s, _getTimezoneOffset h t tz w = (Return s, w).
Proof.
  unfold _getTimezoneOffset. destruct (str_eqb tz (lit "local")).
  - eexists. reflexivity.
  - unfold try_catch, bind, resolve_zone. destruct (lookup_zone h tz).
    + simpl. destruct (match_gmt_offset _); eexists; reflexivity.
    + eexists. reflexivity.
Qed.

Lemma getTimezoneAbbr_returns h t tz w :
  exists s, _getTimezoneAbbr h t tz w = (Return s, w).
Proof.
  unfold _getTimezoneAbbr. destruct (str_eqb tz (lit "local")).
  - eexists. reflexivity.
  - unfold try_catch, bind, resolve_zone. destruct (lookup_zone h tz);
      eexists; reflexivity.
Qed.

(** The date parts in a zone the platform knows. *)
Lemma getDateParts_known h t tz zone w :
  str_eqb tz (lit "local") = false -> lookup_zone h tz = Some zone ->
  exists off ab,
    _getDateParts h t tz w =
    (Return
       (let f := fields_of (t + zone t * 60000) in
        {| year := year_of_era (f_year f);
           month := f_month f;
           monthLong := month_long (f_month f);
           monthShort := month_short (f_month f);
           day := f_day f;
           weekdayLong := weekday_long (f_weekday f);
           weekdayShort := weekday_short (f_weekday f);
           hour := f_hour f;
           hour12 := if f_hour f =? 0 then 12
                     else if 12 <? f_hour f then f_hour f - 12 else f_hour f;
           minute := f_minute f;
           second := f_second f;
           millisecond := t mod 1000;
           ampm := if f_hour f <? 12 then lit "am" else lit "pm";
           offset := off;
           tzAbbr := ab |}), w).
Proof.
  intros Hl Hz.
  destruct (getTimezoneOffset_returns h t tz w) as [off Hoff].
  destruct (getTimezoneAbbr_returns h t tz w) as [ab Hab].
  exists off, ab. unfold _getDateParts. rewrite Hl.
  erewrite bind_return by (unfold resolve_zone; rewrite Hz; reflexivity).
  cbv zeta.
  erewrite bind_return by exact Hoff.
  erewrite bind_return by exact Hab.
  reflexivity.
Qed.

(** The keys are tried longest first: the lengths of the sorted keys never
    go up, so a token is replaced before any shorter token that is a part of
    it ([YYYY] before [YY], [MMMM] before [MMM], [MM] and [M]). *)
Lemma sorted_tokens_longest_first parts :
  map fst (sort_longest_first (tokens parts)) =
  map lit ["YYYY"; "MMMM"; "dddd"; "MMM"; "ddd"; "SSS";
           "YY"; "MM"; "DD"; "HH"; "hh"; "mm"; "ss";
           "M"; "D"; "H"; "h"; "m"; "s"; "A"; "a"; "Z"; "z"]%string.
Proof. reflexivity. Qed.

(** The instant of the timestamp 1701792000 (seconds), in UTC, with the
    pattern [YYYY-MM-DD HH:mm:ss]. *)
Lemma formatCustom_example h w :
  toMilliseconds (VString (lit "1701792000")) = of_Z 1701792000000
  /\ _formatCustom h 1701792000000 (lit "YYYY-MM-DD HH:mm:ss") (lit "UTC") w
     = (Return (lit "2023-12-05 16:00:00"), w).
Proof.
  split; [reflexivity|].
  destruct (getDateParts_known h 1701792000000 (lit "UTC") (fun _ => 0) w
              eq_refl eq_refl) as (off & ab & E).
  unfold _formatCustom. rewrite (bind_return _ _ _ _ _ E).
  vm_compute. reflexivity.
Qed.

(** C6 at the failing input.  The passes run one after the other over the
    whole intermediate string, so the text a longer token has put in is
    matched again by the one-letter tokens: in December the month name that
    [MMMM] produces is rewritten by the [D] and [m] passes.  The same happens
    to the program's own predefined pattern
    [FORMAT_PATTERNS.long = 'MMMM D, YYYY h:mm:ss A']. *)
Theorem formatCustom_rematches_substituted_text :
  forall (h : Host) (w : World),
    _formatCustom h 1701792000000 (lit "MMMM") (lit "UTC") w
    = (Return (lit "5ece0ber"), w)
    /\ _formatCustom h 1701792000000 (lit "MMMM D, YYYY h:mm:ss A") (lit "UTC") w
       = (Return (lit "5ece0ber 5, 2023 4:00:00 PM"), w).
Proof.
  intros h w.
  destruct (getDateParts_known h 1701792000000 (lit "UTC") (fun _ => 0) w
              eq_refl eq_refl) as (off & ab & E).
  unfold _formatCustom. rewrite !(bind_return _ _ _ _ _ E).
  split; vm_compute; reflexivity.
Qed.

(* ----------------------------------------------------------------- *)
(** ** The success record *)

Lemma toDate_valid v :
  isValidTimestamp v = true -> toDate v = Some (TimeClip (toMilliseconds v)).
Proof. intros H. unfold toDate. rewrite H. reflexivity. Qed.

(** What [convert] returns on a value that [isValidTimestamp] accepts: the
    fields of the success record, and where each comes from. *)
Lemma convert_success_record h v o w :
  isValidTimestamp v = true ->
  exists f w1 sec w2 rel,
    let date := DateObj (TimeClip (toMilliseconds v)) in
    formatDate h date o w = (Return f, w1)
    /\ (if showSecondaryTimezone o && truthy (secondaryTimezone o)
        then exists s, formatDate h date (with_timezone o (secondaryTimezone o)) w1
                       = (Return s, w2) /\ sec = Some s
        else sec = None /\ w2 = w1)
    /\ _formatRelative (TimeClip (toMilliseconds v)) w2 = (Return rel, tick w2)
    /\ convert h v o w =
       (Return {| Result.success := true;
                  Result.error := None;
                  Result.original := v;
                  Result.milliseconds := Some (toMilliseconds v);
                  Result.seconds := Some (floor_div (toMilliseconds v) 1000);
                  Result.isSeconds := Some (List.length (ToString v) =? 10)%nat;
                  Result.date := Some (TimeClip (toMilliseconds v));
                  Result.formatted := Some f;
                  Result.secondaryFormatted := sec;
                  Result.relative := Some rel |}, tick w2).
Proof.
  intros Hv. unfold convert. rewrite (toDate_valid v Hv). cbv zeta.
  destruct (formatDate_returns h (DateObj (TimeClip (toMilliseconds v))) o w)
    as (f & w1 & Hf).
  destruct (showSecondaryTimezone o && truthy (secondaryTimezone o)) eqn:Esec.
  - destruct (formatDate_returns h (DateObj (TimeClip (toMilliseconds v)))
                (with_timezone o (secondaryTimezone o)) w1) as (s & w2 & Hs).
    destruct (formatRelative_returns (TimeClip (toMilliseconds v)) w2) as (rel & Hr).
    exists f, w1, (Some s), w2, rel. split; [exact Hf|].
    split; [exists s; auto|]. split; [exact Hr|].
    rewrite (bind_return _ _ _ _ _ Hf).
    erewrite bind_return by (erewrite bind_return by exact Hs; reflexivity).
    rewrite (bind_return _ _ _ _ _ Hr). reflexivity.
  - destruct (formatRelative_returns (TimeClip (toMilliseconds v)) w1) as (rel & Hr).
    exists f, w1, None, w1, rel. split; [exact Hf|].
    split; [auto|]. split; [exact Hr|].
    rewrite (bind_return _ _ _ _ _ Hf).
    erewrite bind_return by reflexivity.
    rewrite (bind_return _ _ _ _ _ Hr). reflexivity.
Qed.

(** On a value given without surrounding white space the flag is the digit
    count: true for ten digits, false for thirteen. *)
Lemma isSeconds_of_trimmed_value v :
  isValidTimestamp v = true -> trim (ToString v) = ToString v ->
  ((List.length (ToString v) =? 10)%nat = true <->
   all_digits (ToString v) = true /\ List.length (ToString v) = 10%nat).
Proof.
  intros Hv Ht. apply isValidTimestamp_shape in Hv. rewrite Ht in Hv.
  apply test_10_or_13_spec in Hv as [Ha _]. rewrite Nat.eqb_eq. tauto.
Qed.

(** C8 at the failing input.  [isValidTimestamp] and [toMilliseconds] trim
    the string form; the flag [isSeconds] is computed from the untrimmed
    one.  A ten-digit value with a space in front is accepted and converted
    as seconds (its milliseconds are the number times 1000), and the record
    says [isSeconds = false]. *)
Theorem convert_isSeconds_untrimmed :
  forall (h : Host) (o : Options) (w : World),
    isValidTimestamp (VString (lit " 1701792000")) = true
    /\ all_digits (trim (lit " 1701792000")) = true
    /\ List.length (trim (lit " 1701792000")) = 10%nat
    /\ exists r w',
         convert h (VString (lit " 1701792000")) o w = (Return r, w')
         /\ Result.success r = true
         /\ Result.milliseconds r = Some (of_Z (1701792000 * 1000))
         /\ Result.seconds r = Some (of_Z 1701792000)
         /\ Result.isSeconds r = Some false.
Proof.
  intros h o w. split; [reflexivity|]. split; [reflexivity|]. split; [reflexivity|].
  destruct (convert_success_record h (VString (lit " 1701792000")) o w eq_refl)
    as (f & w1 & sec & w2 & rel & _ & _ & _ & E).
  eexists. eexists. split; [exact E|]. repeat split.
Qed.

(* ----------------------------------------------------------------- *)
(** ** The detector *)

Lemma slice_length text i n :
  (i + n <= List.length text)%nat -> List.length (slice text i n) = n.
Proof. intros H. unfold slice. rewrite length_firstn, length_skipn. lia. Qed.

Lemma slice_nth text i n k :
  (k < n)%nat -> nth_error (slice text i n) k = nth_error text (i + k).
Proof.
  intros H. unfold slice. rewrite nth_error_firstn, nth_error_skipn.
  destruct (Nat.ltb_spec k n); [reflexivity|lia].
Qed.

Lemma digits_at_spec text i n :
  (0 < n)%nat ->
  digits_at text i n = true <->
  (i + n <= List.length text)%nat
  /\ forall k, (k < n)%nat ->
       exists c, nth_error text (i + k) = Some c /\ is_digit c = true.
Proof.
  intros Hn. unfold digits_at. rewrite andb_true_iff, Nat.eqb_eq. split.
  - intros [Hl Ha].
    assert (Hle : (i + n <= List.length text)%nat).
    { unfold slice in Hl. rewrite length_firstn, length_skipn in Hl. lia. }
    split; [exact Hle|]. intros k Hk.
    destruct (nth_error (slice text i n) k) as [c|] eqn:E.
    + exists c. split; [rewrite <- (slice_nth text i n k Hk); exact E|].
      unfold all_digits in Ha. rewrite forallb_forall in Ha.
      apply Ha. exact (nth_error_In _ _ E).
    + apply nth_error_None in E. lia.
  - intros [Hle Hd]. split; [apply slice_length; exact Hle|].
    apply forallb_forall. intros c Hc. apply In_nth_error in Hc as [k Hk].
    assert (Hkn : (k < n)%nat).
    { rewrite <- (slice_length text i n Hle). apply nth_error_Some. congruence. }
    rewrite (slice_nth text i n k Hkn) in Hk.
    destruct (Hd k Hkn) as (c' & E & D). congruence.
Qed.

Lemma word_at_digit text j c :
  nth_error text j = Some c -> is_digit c = true -> word_at text j = true.
Proof. intros E D. unfold word_at. rewrite E. apply digit_is_word, D. Qed.

Lemma word_at_in_range text j : word_at text j = true -> (j < List.length text)%nat.
Proof.
  unfold word_at. destruct (nth_error text j) eqn:E; [|discriminate].
  intros _. apply nth_error_Some. congruence.
Qed.

(** [\b] in front of a word character: nothing, or a non-word character,
    comes before it. *)
Lemma boundary_before_word text i :
  word_at text i = true ->
  (word_boundary text i = true <->
   (i = O \/ exists c, nth_error text (i - 1) = Some c /\ is_word c = false)).
Proof.
  intros Hw. unfold word_boundary. rewrite Hw. destruct i as [|j].
  - simpl. tauto.
  - replace (S j - 1)%nat with j by lia. unfold word_at.
    destruct (nth_error text j) as [c|] eqn:E.
    + destruct (is_word c) eqn:W; simpl; split; try discriminate; eauto.
      * intros [H|(c' & H1 & H2)]; [discriminate|congruence].
    + exfalso. apply nth_error_None in E. apply word_at_in_range in Hw. lia.
Qed.

(** [\b] behind a word character: the text ends, or a non-word character
    follows. *)
Lemma boundary_after_word text i :
  (0 < i)%nat -> word_at text (i - 1) = true ->
  (word_boundary text i = true <->
   (i = List.length text \/ exists c, nth_error text i = Some c /\ is_word c = false)).
Proof.
  intros Hi Hw. unfold word_boundary. destruct i as [|j]; [lia|].
  replace (S j - 1)%nat with j in Hw by lia. rewrite Hw. unfold word_at.
  destruct (nth_error text (S j)) as [c|] eqn:E.
  - destruct (is_word c) eqn:W; simpl; split; try discriminate; eauto.
    intros [H|(c' & H1 & H2)]; [|congruence].
    exfalso. assert (nth_error text (S j) <> None) by congruence.
    apply nth_error_Some in H0. lia.
  - simpl. split; [|reflexivity]. intros _. left.
    apply nth_error_None in E. apply word_at_in_range in Hw. lia.
Qed.

(** Strictly inside a run of digits there is no word boundary. *)
Lemma no_boundary_inside text i n j :
  digits_at text i n = true -> (i < j < i + n)%nat -> word_boundary text j = false.
Proof.
  intros Hd Hj. apply digits_at_spec in Hd as [_ Hd]; [|lia].
  destruct (Hd (j - i)%nat ltac:(lia)) as (c & Ec & Dc).
  destruct (Hd (j - 1 - i)%nat ltac:(lia)) as (b & Eb & Db).
  replace (i + (j - i))%nat with j in Ec by lia.
  replace (i + (j - 1 - i))%nat with (j - 1)%nat in Eb by lia.
  unfold word_boundary. destruct j as [|j']; [lia|].
  replace (S j' - 1)%nat with j' in Eb by lia.
  rewrite (word_at_digit _ _ _ Eb Db), (word_at_digit _ _ _ Ec Dc). reflexivity.
Qed.

Lemma digits_at_shorter text i n m :
  (0 < m <= n)%nat -> digits_at text i n = true -> digits_at text i m = true.
Proof.
  intros Hm Hd. apply digits_at_spec in Hd as [Hl Hd]; [|lia].
  apply digits_at_spec; [lia|]. split; [lia|]. intros k Hk. apply Hd. lia.
Qed.

(** The pattern matches at [i] with length [n] exactly when a run of 10 or
    13 digits bounded by word boundaries starts at [i]. *)
Lemma run_matches text i n :
  (0 < n)%nat -> digits_at text i n = true ->
  (word_boundary text i = true /\ word_boundary text (i + n) = true
   <-> bounded_digit_run text i n).
Proof.
  intros Hn Hd. pose proof Hd as Hd'. apply digits_at_spec in Hd' as [Hl Hk]; [|exact Hn].
  assert (Hfirst : word_at text i = true).
  { destruct (Hk O Hn) as (c & E & D). rewrite Nat.add_0_r in E.
    exact (word_at_digit _ _ _ E D). }
  assert (Hlast : word_at text (i + n - 1) = true).
  { destruct (Hk (n - 1)%nat ltac:(lia)) as (c & E & D).
    replace (i + (n - 1))%nat with (i + n - 1)%nat in E by lia.
    exact (word_at_digit _ _ _ E D). }
  rewrite (boundary_before_word text i Hfirst).
  rewrite (boundary_after_word text (i + n) ltac:(lia) Hlast).
  unfold bounded_digit_run. tauto.
Qed.

Lemma match_at_spec text i n :
  match_at text i = Some n <->
  (n = 10%nat \/ n = 13%nat) /\ bounded_digit_run text i n.
Proof.
  unfold match_at. split.
  - destruct (word_boundary text i) eqn:B; [|discriminate].
    destruct (digits_at text i 10) eqn:D10; simpl.
    + destruct (word_boundary text (i + 10)) eqn:B10.
      * intros E. inversion E; subst n. split; [auto|].
        apply run_matches; [lia|exact D10|auto].
      * destruct (digits_at text i 13) eqn:D13; simpl; [|discriminate].
        destruct (word_boundary text (i + 13)) eqn:B13; [|discriminate].
        intros E. inversion E; subst n. split; [auto|].
        apply run_matches; [lia|exact D13|auto].
    + destruct (digits_at text i 13) eqn:D13; simpl; [|discriminate].
      rewrite (digits_at_shorter text i 13 10 ltac:(lia) D13) in D10. discriminate.
  - intros [Hn Hrun].
    assert (Hd : digits_at text i n = true).
    { apply digits_at_spec; [lia|]. destruct Hrun as (Hl & Hk & _). auto. }
    apply (run_matches text i n ltac:(lia) Hd) in Hrun as [B Bn].
    rewrite B. destruct Hn as [-> | ->].
    + rewrite Hd, Bn. reflexivity.
    + rewrite (digits_at_shorter text i 13 10 ltac:(lia) Hd).
      rewrite (no_boundary_inside text i 13 (i + 10) Hd ltac:(lia)).
      simpl. rewrite Hd, Bn. reflexivity.
Qed.

(** No match begins strictly inside a match. *)
Lemma no_match_inside text i n j :
  match_at text i = Some n -> (i < j < i + n)%nat -> match_at text j = None.
Proof.
  intros H Hj. apply match_at_spec in H as [Hn (Hl & Hk & _)].
  assert (Hd : digits_at text i n = true) by (apply digits_at_spec; [lia|auto]).
  unfold match_at. rewrite (no_boundary_inside text i n j Hd Hj). reflexivity.
Qed.

Lemma exec_from_none text k :
  forall i, exec_from text i k = None ->
            forall j, (i <= j < i + k)%nat -> match_at text j = None.
Proof.
  induction k as [|k IH]; intros i H j Hj; [lia|].
  simpl in H. destruct (match_at text i) eqn:E; [discriminate|].
  destruct (Nat.eq_dec j i) as [->|Hne]; [exact E|].
  apply (IH (S i) H). lia.
Qed.

Lemma exec_from_some text k :
  forall i idx n,
    exec_from text i k = Some (idx, n) ->
    (i <= idx < i + k)%nat /\ match_at text idx = Some n
    /\ forall j, (i <= j < idx)%nat -> match_at text j = None.
Proof.
  induction k as [|k IH]; intros i idx n H; [discriminate|].
  simpl in H. destruct (match_at text i) eqn:E.
  - inversion H; subst. repeat split; [lia|lia|exact E|]. intros j Hj. lia.
  - destruct (IH (S i) idx n H) as (Hr & Hm & Hn).
    repeat split; [lia|lia|exact Hm|].
    intros j Hj. destruct (Nat.eq_dec j i) as [->|Hne]; [exact E|]. apply Hn. lia.
Qed.

Lemma non_overlapping_weaken results :
  forall a b, (a <= b)%nat -> non_overlapping b results -> non_overlapping a results.
Proof.
  destruct results as [|c r]; simpl; [auto|]. intros a b Hab [H1 H2]. split; [lia|exact H2].
Qed.

(** The loop, started at [from] with enough fuel, ends and appends exactly
    the candidates to report from [from] on, in text order. *)
Lemma findTimestamps_loop_spec text :
  forall fuel from acc,
    (from <= List.length text)%nat ->
    (S (List.length text) - from <= fuel)%nat ->
    exists res,
      findTimestamps_loop fuel text from acc = Some (acc ++ res)
      /\ (forall c, In c res <-> (from <= Candidate.index c)%nat /\ reported text c)
      /\ non_overlapping from res.
Proof.
  induction fuel as [|fuel IH]; intros from acc Hfrom Hfuel; [lia|].
  simpl. destruct (exec text from) as [[idx n]|] eqn:E.
  - unfold exec in E. apply exec_from_some in E as (Hidx & Hm & Hnone).
    pose proof Hm as Hrun. apply match_at_spec in Hrun as [Hn (Hl & _)].
    assert (Hn10 : (10 <= n)%nat) by lia.
    assert (Hlen : List.length (slice text idx n) = n) by (apply slice_length; exact Hl).
    rewrite Hlen.
    set (c0 := {| Candidate.value := slice text idx n; Candidate.index := idx;
                  Candidate.length := n; Candidate.isSeconds := (n =? 10)%nat |}).
    assert (Hlater : forall c res',
               (forall c, In c res' <-> (idx + n <= Candidate.index c)%nat /\ reported text c) ->
               (from <= Candidate.index c)%nat -> reported text c ->
               c = c0 \/ In c res').
    { intros c res' Hres Hc Hrep. pose proof Hrep as (Hmc & Hvc & Hsc & _).
      destruct (Nat.lt_ge_cases (Candidate.index c) idx) as [Hlt|Hge].
      { rewrite (Hnone _ (conj Hc Hlt)) in Hmc. discriminate. }
      destruct (Nat.eq_dec (Candidate.index c) idx) as [Heq|Hne].
      - left. rewrite Heq, Hm in Hmc. inversion Hmc as [Hcl].
        destruct c as [v i l s]. simpl in *. subst. reflexivity.
      - destruct (Nat.lt_ge_cases (Candidate.index c) (idx + n)) as [Hin|Hout].
        + rewrite (no_match_inside text idx n (Candidate.index c) Hm ltac:(lia)) in Hmc.
          discriminate.
        + right. apply Hres. auto. }
    destruct (isValidTimestamp (VString (slice text idx n))) eqn:V.
    + destruct (IH (idx + n)%nat (acc ++ [c0]) Hl ltac:(lia)) as (res' & Eq & Hin & Hord).
      exists (c0 :: res'). split; [rewrite Eq, <- app_assoc; reflexivity|]. split.
      * intros c. split.
        -- intros [<-|Hc].
           ++ split; [simpl; lia|]. unfold reported. simpl. auto.
           ++ apply Hin in Hc as [Hc Hr]. split; [lia|exact Hr].
        -- intros [Hc Hr]. destruct (Hlater c res' Hin Hc Hr) as [->|H]; [left|right]; auto.
      * simpl. split; [lia|exact Hord].
    + destruct (IH (idx + n)%nat acc Hl ltac:(lia)) as (res' & Eq & Hin & Hord).
      exists res'. split; [exact Eq|]. split.
      * intros c. split.
        -- intros Hc. apply Hin in Hc as [Hc Hr]. split; [lia|exact Hr].
        -- intros [Hc Hr]. destruct (Hlater c res' Hin Hc Hr) as [->|H]; [|exact H].
           exfalso. destruct Hr as (_ & _ & _ & Hv). simpl in Hv. congruence.
      * apply (non_overlapping_weaken res' from (idx + n)%nat); [lia|exact Hord].
  - exists []. rewrite app_nil_r. split; [reflexivity|]. split; [|exact I].
    intros c. split; [intros []|]. intros [Hc (Hm & _)]. exfalso.
    pose proof Hm as Hrun. apply match_at_spec in Hrun as [_ (Hl & _)].
    unfold exec in E.
    rewrite (exec_from_none text _ from E (Candidate.index c) ltac:(lia)) in Hm.
    discriminate.
Qed.

Lemma not_word_not_digit c : is_word c = false -> is_digit c = false.
Proof.
  intros H. destruct (is_digit c) eqn:D; [|reflexivity].
  rewrite (digit_is_word c D) in H. discriminate.
Qed.

(** C4.  [findTimestamps text] ends, and what it returns is exactly the runs
    of ASCII digits of length 10 or 13 that are bounded by word boundaries
    and pass [isValidTimestamp], each with its text, its index, its length
    and the ten-digit flag.  A reported run is maximal -- no digit stands
    right before or right after it -- so no run of another length and no
    10- or 13-digit window of a longer run is reported.  The results are in
    text order and do not overlap.  Scanning ["id12345678901x"] yields
    nothing; scanning ["ts=1701792000 done"] yields the one candidate
    ["1701792000"] at index 3 with length 10. *)
Theorem findTimestamps_spec :
  (forall text : jsstring,
      exists results,
        findTimestamps text = Some results
        /\ (forall c,
              In c results <->
              (Candidate.length c = 10%nat \/ Candidate.length c = 13%nat)
              /\ bounded_digit_run text (Candidate.index c) (Candidate.length c)
              /\ Candidate.value c = slice text (Candidate.index c) (Candidate.length c)
              /\ isValidTimestamp (VString (Candidate.value c)) = true
              /\ Candidate.isSeconds c = (Candidate.length c =? 10)%nat)
        /\ (forall c ch,
              In c results ->
              (nth_error text (Candidate.index c + Candidate.length c) = Some ch ->
               is_digit ch = false)
              /\ ((0 < Candidate.index c)%nat ->
                  nth_error text (Candidate.index c - 1) = Some ch ->
                  is_digit ch = false))
        /\ non_overlapping 0 results)
  /\ findTimestamps (lit "id12345678901x") = Some []
  /\ findTimestamps (lit "ts=1701792000 done")
     = Some [ {| Candidate.value := lit "1701792000"; Candidate.index := 3;
                 Candidate.length := 10; Candidate.isSeconds := true |} ].
Proof.
  split; [|split; reflexivity].
  intros text.
  destruct (findTimestamps_loop_spec text (S (List.length text)) 0 []
              ltac:(lia) ltac:(lia)) as (res & E & Hin & Hord).
  assert (Hiff : forall c,
             In c res <->
             (Candidate.length c = 10%nat \/ Candidate.length c = 13%nat)
             /\ bounded_digit_run text (Candidate.index c) (Candidate.length c)
             /\ Candidate.value c = slice text (Candidate.index c) (Candidate.length c)
             /\ isValidTimestamp (VString (Candidate.value c)) = true
             /\ Candidate.isSeconds c = (Candidate.length c =? 10)%nat).
  { intros c. rewrite Hin. unfold reported. rewrite match_at_spec.
    split.
    - intros (_ & (Hn & Hr) & Hv & Hs & Hok). tauto.
    - intros (Hn & Hr & Hv & Hok & Hs). split; [lia|tauto]. }
  exists res. split; [exact E|]. split; [exact Hiff|]. split; [|exact Hord].
  intros c ch Hc. apply Hiff in Hc as (_ & (_ & _ & Hb & Ha) & _). split.
  - intros Hch. destruct Ha as [Ha|(c' & Ec & Wc)].
    + exfalso. assert (nth_error text (Candidate.index c + Candidate.length c) <> None)
        by congruence.
      apply nth_error_Some in H. lia.
    + apply not_word_not_digit. congruence.
  - intros Hpos Hch. destruct Hb as [Hb|(c' & Ec & Wc)]; [lia|].
    apply not_word_not_digit. congruence.
Qed.

(** C4 on a text with a ten-digit and a thirteen-digit timestamp. *)
Lemma findTimestamps_spec_witness :
  exists results,
    findTimestamps (lit "at 1701792000, then 1701792000000.") = Some results
    /\ In {| Candidate.value := lit "1701792000000"; Candidate.index := 20;
             Candidate.length := 13; Candidate.isSeconds := false |} results
    /\ non_overlapping 0 results.
Proof.
  destruct (proj1 findTimestamps_spec (lit "at 1701792000, then 1701792000000."))
    as (results & E & Hiff & _ & Hord).
  exists results. split; [exact E|]. split; [|exact Hord].
  apply Hiff. split; [right; reflexivity|]. split.
  - apply match_at_spec with (n := 13%nat). reflexivity.
  - repeat split; reflexivity.
Defined.

(* ================================================================= *)
(** * Further properties of the converter and of its callers *)

(* ----------------------------------------------------------------- *)
(** ** [toDate] and [dateToEpoch] *)

(** X1.  [toDate] returns [null] exactly on the values that
    [isValidTimestamp] rejects, and otherwise a Date that is never invalid:
    its time value is the integer [toMilliseconds] computes, inside the
    accepted window. *)
Theorem toDate_never_invalid (v : JSValue) :
  match toDate v with
  | None => isValidTimestamp v = false
  | Some None => False
  | Some (Some ms) =>
      isValidTimestamp v = true
      /\ toMilliseconds v = of_Z ms
      /\ Constants.MIN_TIMESTAMP_MS <= ms <= Constants.MAX_TIMESTAMP_MS
  end.
Proof.
  destruct (isValidTimestamp v) eqn:E.
  - rewrite (toDate_valid v E).
    destruct (valid_timestamp_instant v E) as (ms & Hm & Hr & Hc).
    rewrite Hc. auto.
  - rewrite (toDate_invalid v E). reflexivity.
Qed.

(** X2.  Round trip through a Date.  For an accepted value, [dateToEpoch]
    of the Date that [toDate] makes gives back the milliseconds, and with
    [inSeconds] the whole seconds; a ten-digit value comes back as the number
    it was, in seconds, and a thirteen-digit value as the number it was, in
    milliseconds. *)
Theorem dateToEpoch_round_trip
  (parse : jsstring -> option Z) (v : JSValue) (Hv : isValidTimestamp v = true) :
  exists tv ms,
    toDate v = Some tv
    /\ toMilliseconds v = of_Z ms
    /\ dateToEpoch parse (DIDate tv) false = Some ms
    /\ dateToEpoch parse (DIDate tv) true = Some (ms / 1000)
    /\ (List.length (trim (ToString v)) = 10%nat ->
        dateToEpoch parse (DIDate tv) true = Some (digits_val 10 (trim (ToString v))))
    /\ (List.length (trim (ToString v)) = 13%nat ->
        dateToEpoch parse (DIDate tv) false = Some (digits_val 10 (trim (ToString v)))).
Proof.
  destruct (valid_timestamp_instant v Hv) as (ms & Hm & Hr & Hc).
  exists (Some ms), ms. rewrite (toDate_valid v Hv), Hc.
  pose proof (proj1 (isValidTimestamp_iff v) Hv) as (Ha & _ & _).
  pose proof (toMilliseconds_trimmed v _ Ha eq_refl) as Ht.
  rewrite Hm in Ht.
  repeat split; auto.
  - intros Hl. rewrite Hl in Ht. simpl in Ht. unfold of_Z, inject_Z in Ht.
    inversion Ht as [Hms]. unfold dateToEpoch. rewrite Z.div_mul by lia. reflexivity.
  - intros Hl. rewrite Hl in Ht. simpl in Ht. unfold of_Z, inject_Z in Ht.
    inversion Ht as [Hms]. reflexivity.
Qed.

(** X2 at a ten-digit timestamp. *)
Lemma dateToEpoch_round_trip_witness :
  exists tv ms,
    toDate (VString (lit "1701792000")) = Some tv
    /\ toMilliseconds (VString (lit "1701792000")) = of_Z ms
    /\ dateToEpoch (fun _ => None) (DIDate tv) true = Some 1701792000.
Proof.
  destruct (dateToEpoch_round_trip (fun _ => None) (VString (lit "1701792000")) eq_refl)
    as (tv & ms & H1 & H2 & _ & _ & H5 & _).
  exists tv, ms. split; [exact H1|]. split; [exact H2|]. exact (H5 eq_refl).
Defined.

(* ----------------------------------------------------------------- *)
(** ** [convert] as a whole *)

(** X3.  On a value that is a string or an integral Number, with an options
    object whose fields are strings or absent (and a boolean
    [showSecondaryTimezone]), [convert] never throws, whatever the host and
    the time: it returns a record whose [success] flag is the verdict of
    [isValidTimestamp], with the error text present exactly on failure and
    the value handed back unchanged; on a rejected value it does not read
    the clock. *)
Theorem convert_total (h : Host) (v : JSValue) (o : Options) (w : World) :
  exists r w',
    convert h v o w = (Return r, w')
    /\ Result.success r = isValidTimestamp v
    /\ Result.original r = v
    /\ Result.error r =
       (if isValidTimestamp v then None else Some (lit "Invalid timestamp"))
    /\ (isValidTimestamp v = false -> w' = w).
Proof.
  destruct (isValidTimestamp v) eqn:E.
  - destruct (convert_success_record h v o w E)
      as (f & w1 & sec & w2 & rel & _ & _ & _ & Hc).
    eexists. eexists. split; [exact Hc|]. repeat split. discriminate.
  - unfold convert. rewrite (toDate_invalid v E).
    eexists. eexists. split; [reflexivity|]. repeat split.
Qed.

(** X3 at a value that is rejected. *)
Lemma convert_total_witness :
  exists r w',
    convert sample_host (VString (lit "12:30")) no_options (world_at 5) = (Return r, w')
    /\ Result.success r = false /\ w' = world_at 5.
Proof.
  destruct (convert_total sample_host (VString (lit "12:30")) no_options (world_at 5))
    as (r & w' & Hc & Hs & _ & _ & Hw).
  exists r, w'. split; [exact Hc|]. split; [exact Hs|]. exact (Hw eq_refl).
Defined.

(** X4.  What the detector reports, the facade converts.  For every
    candidate of [findTimestamps], [convert] on its text succeeds, takes it
    as seconds exactly when the candidate is flagged [isSeconds], and gives
    the milliseconds that the digit count calls for. *)
Theorem candidates_convert
  (h : Host) (o : Options) (w : World) (text : jsstring)
  (results : list Candidate.t) (c : Candidate.t)
  (Hfind : findTimestamps text = Some results) (Hin : In c results) :
  exists r w',
    convert h (VString (Candidate.value c)) o w = (Return r, w')
    /\ Result.success r = true
    /\ Result.isSeconds r = Some (Candidate.isSeconds c)
    /\ Result.milliseconds r =
       Some (of_Z (if Candidate.isSeconds c
                   then digits_val 10 (Candidate.value c) * 1000
                   else digits_val 10 (Candidate.value c))).
Proof.
  destruct (findTimestamps_loop_spec text (S (List.length text)) 0 []
              ltac:(lia) ltac:(lia)) as (res & E & Hiff & _).
  unfold findTimestamps in Hfind. rewrite E in Hfind. inversion Hfind; subst results.
  apply Hiff in Hin as (_ & Hm & Hv & Hs & Hok).
  apply match_at_spec in Hm as (Hn & Hl & Hd & _).
  assert (Hlen : List.length (Candidate.value c) = Candidate.length c)
    by (rewrite Hv; apply slice_length; exact Hl).
  assert (Hdig : all_digits (Candidate.value c) = true).
  { assert (Hda : digits_at text (Candidate.index c) (Candidate.length c) = true)
      by (apply digits_at_spec; [lia|auto]).
    unfold digits_at in Hda. apply andb_true_iff in Hda as [_ Hda]. rewrite Hv. exact Hda. }
  destruct (convert_success_record h (VString (Candidate.value c)) o w Hok)
    as (f & w1 & sec & w2 & rel & _ & _ & _ & Hc).
  eexists. eexists. split; [exact Hc|]. simpl.
  split; [reflexivity|]. split.
  - rewrite Hlen, Hs. reflexivity.
  - rewrite (toMilliseconds_trimmed (VString (Candidate.value c)) _ Hdig
               (trim_digits _ Hdig)).
    rewrite Hlen, Hs. destruct (Candidate.length c =? 10)%nat; reflexivity.
Qed.

(** X4 on a text with one timestamp. *)
Lemma candidates_convert_witness :
  exists r w',
    convert sample_host (VString (lit "1701792000")) no_options (world_at 0) = (Return r, w')
    /\ Result.isSeconds r = Some true.
Proof.
  destruct (candidates_convert sample_host no_options (world_at 0)
              (lit "ts=1701792000 done") _
              {| Candidate.value := lit "1701792000"; Candidate.index := 3;
                 Candidate.length := 10; Candidate.isSeconds := true |}
              eq_refl (or_introl eq_refl))
    as (r & w' & Hc & _ & Hs & _).
  exists r, w'. split; [exact Hc|exact Hs].
Defined.

(* ----------------------------------------------------------------- *)
(** ** The content script: replacing a text node *)

Lemma firstn_plus {A} (n m : nat) (l : list A) :
  firstn (n + m) l = firstn n l ++ firstn m (skipn n l).
Proof.
  revert l. induction n as [|n IH]; intros l; [reflexivity|].
  destruct l as [|x l]; simpl; [rewrite firstn_nil; reflexivity|].
  rewrite IH. reflexivity.
Qed.

Lemma slice_app text a n m :
  slice text a n ++ slice text (a + n) m = slice text a (n + m).
Proof.
  unfold slice. rewrite firstn_plus, skipn_skipn.
  replace (n + a)%nat with (a + n)%nat by lia. reflexivity.
Qed.

(** What [findTimestamps] returns, as the loop lemma gives it. *)
Lemma findTimestamps_results text :
  exists results,
    findTimestamps text = Some results
    /\ non_overlapping 0 results
    /\ (forall c, In c results ->
          Candidate.value c = slice text (Candidate.index c) (Candidate.length c)
          /\ (Candidate.index c + Candidate.length c <= List.length text)%nat
          /\ (10 <= Candidate.length c)%nat
          /\ isValidTimestamp (VString (Candidate.value c)) = true).
Proof.
  destruct (findTimestamps_loop_spec text (S (List.length text)) 0 []
              ltac:(lia) ltac:(lia)) as (res & E & Hiff & Hord).
  exists res. split; [exact E|]. split; [exact Hord|].
  intros c Hc. apply Hiff in Hc as (_ & Hm & Hv & _ & Hok).
  apply match_at_spec in Hm as (Hn & Hl & _). repeat split; auto; lia.
Qed.

Lemma appendCandidates_spec text timestamps :
  forall from,
    (from <= List.length text)%nat ->
    non_overlapping from timestamps ->
    (forall c, In c timestamps ->
       Candidate.value c = slice text (Candidate.index c) (Candidate.length c)
       /\ (Candidate.index c + Candidate.length c <= List.length text)%nat
       /\ (10 <= Candidate.length c)%nat
       /\ isValidTimestamp (VString (Candidate.value c)) = true) ->
    exists children last,
      Content.appendCandidates text from timestamps = (children, last)
      /\ (from <= last <= List.length text)%nat
      /\ List.concat (map Content.originalText children) = slice text from (last - from)
      /\ Content.wrapped children = map Candidate.value timestamps
      /\ Forall (fun f => Content.originalText f <> []) children.
Proof.
  induction timestamps as [|c rest IH]; intros from Hfrom Hord Hwf.
  - exists [], from. simpl. replace (from - from)%nat with O by lia.
    repeat split; auto; lia.
  - destruct Hord as [Hidx Hord].
    destruct (Hwf c (or_introl eq_refl)) as (Hv & Hl & Hn & _).
    assert (Hlen : List.length (Candidate.value c) = Candidate.length c)
      by (rewrite Hv; apply slice_length; exact Hl).
    destruct (IH (Candidate.index c + Candidate.length c)%nat Hl Hord
                (fun c' H => Hwf c' (or_intror H)))
      as (more & last & Em & Hlast & Hcat & Hwr & Hne).
    simpl. unfold Content.appendCandidate. rewrite Hlen, Em.
    eexists. exists last. split; [reflexivity|]. split; [lia|].
    assert (Hval : Candidate.value c <> [])
      by (intros E0; rewrite E0 in Hlen; simpl in Hlen; lia).
    destruct (Nat.ltb_spec from (Candidate.index c)) as [Hlt|Hge].
    + split; [|split].
      * simpl. rewrite Hcat, Hv.
        set (i := Candidate.index c) in *. set (n := Candidate.length c) in *.
        replace (slice text i n) with (slice text (from + (i - from)) n)
          by (f_equal; lia).
        rewrite app_assoc, slice_app.
        replace (i + n)%nat with (from + (i - from + n))%nat by lia.
        rewrite slice_app. f_equal. lia.
      * simpl. rewrite Hwr. reflexivity.
      * constructor.
        -- simpl. intros E0.
           assert (Hs : List.length (slice text from (Candidate.index c - from))
                        = (Candidate.index c - from)%nat) by (apply slice_length; lia).
           rewrite E0 in Hs. simpl in Hs. lia.
        -- constructor; [exact Hval|exact Hne].
    + assert (Heq : Candidate.index c = from) by lia.
      split; [|split].
      * simpl. rewrite Hcat, Hv, Heq.
        rewrite slice_app. f_equal. lia.
      * simpl. rewrite Hwr. reflexivity.
      * constructor; [exact Hval|exact Hne].
Qed.

(** X5.  Replacing a text node keeps its text.  When [processTextNode]
    replaces a node, the children of the fragment, read in order with every
    wrapper standing for the timestamp it wraps, spell the node's text
    again; the wrappers are the candidates of [findTimestamps] in order, one
    per unit added to the counter; no child is empty.  The node is left
    alone exactly when it has no parent or nothing to report. *)
Theorem processTextNode_keeps_text (node : Content.TextNode) :
  exists results,
    findTimestamps (Content.nodeValue node) = Some results
    /\ match Content.processTextNode node with
       | Some (children, count) =>
           List.concat (map Content.originalText children) = Content.nodeValue node
           /\ Content.wrapped children = map Candidate.value results
           /\ count = List.length results
           /\ Forall (fun f => Content.originalText f <> []) children
           /\ results <> []
           /\ Content.parentNode node <> None
       | None => results = [] \/ Content.parentNode node = None
       end.
Proof.
  destruct (findTimestamps_results (Content.nodeValue node)) as (results & E & Hord & Hwf).
  exists results. split; [exact E|].
  unfold Content.processTextNode. rewrite E.
  destruct results as [|c rest]; [left; reflexivity|].
  destruct (Content.parentNode node) as [parent|]; [|right; reflexivity].
  destruct (appendCandidates_spec (Content.nodeValue node) (c :: rest) 0
              ltac:(lia) Hord Hwf) as (children & last & Ea & Hlast & Hcat & Hwr & Hne).
  rewrite Ea. rewrite Nat.sub_0_r in Hcat.
  split; [|split; [|split; [reflexivity|split; [|split; discriminate]]]].
  - rewrite map_app, concat_app, Hcat.
    destruct (Nat.ltb_spec last (List.length (Content.nodeValue node))) as [Hlt|Hge].
    + simpl. rewrite app_nil_r. unfold slice. simpl. apply firstn_skipn.
    + simpl. rewrite app_nil_r. unfold slice. simpl. apply firstn_all2. lia.
  - unfold Content.wrapped in *. rewrite flat_map_app, Hwr.
    destruct (last <? _)%nat; simpl; rewrite app_nil_r; reflexivity.
  - apply Forall_app. split; [exact Hne|].
    destruct (Nat.ltb_spec last (List.length (Content.nodeValue node))) as [Hlt|Hge];
      [|constructor].
    constructor; [|constructor]. simpl. intros E0.
    assert (Hs : List.length (skipn last (Content.nodeValue node)) <> O)
      by (rewrite length_skipn; lia).
    rewrite E0 in Hs. simpl in Hs. congruence.
Qed.

(* ----------------------------------------------------------------- *)
(** ** The content script: the shared RegExp in [acceptNode] *)

Lemma exec_finds text from idx n :
  match_at text idx = Some n -> (from <= idx)%nat -> exec text from <> None.
Proof.
  intros Hm Hle Hnone. unfold exec in Hnone.
  pose proof Hm as Hrun. apply match_at_spec in Hrun as (_ & Hl & _).
  rewrite (exec_from_none text _ from Hnone idx ltac:(lia)) in Hm. discriminate.
Qed.

(** The verdict of [acceptNode] and what it does to [lastIndex]. *)
Lemma acceptNode_verdict (node : Content.TextNode) (w : World) :
  exists b w',
    Content.acceptNode node w = (Return b, w')
    /\ (b = true ->
        Content.eligible node = true
        /\ exists idx n,
             (shared_lastIndex w <= idx)%nat
             /\ match_at (Content.nodeValue node) idx = Some n
             /\ shared_lastIndex w' = (idx + n)%nat)
    /\ (b = false -> Content.eligible node = true -> shared_lastIndex w' = O)
    /\ (Content.eligible node = true -> shared_lastIndex w = O ->
        (b = true <-> exists idx n, match_at (Content.nodeValue node) idx = Some n))
    /\ (Content.eligible node = true ->
        (forall idx n, match_at (Content.nodeValue node) idx = Some n ->
                       (idx < shared_lastIndex w)%nat) ->
        b = false).
Proof.
  unfold Content.acceptNode, Content.eligible.
  destruct (Content.parentNode node) as [parent|].
  2:{ exists false, w. repeat split; try discriminate; intros; discriminate. }
  destruct (Content.skipped (Content.tagName parent)).
  { exists false, w. repeat split; try discriminate; intros; discriminate. }
  destruct (Content.isTimestampWrapper parent).
  { exists false, w. repeat split; try discriminate; intros; discriminate. }
  unfold bind, Content.TIMESTAMP_REGEX_test.
  destruct (exec (Content.nodeValue node) (shared_lastIndex w)) as [[idx n]|] eqn:E.
  - exists true. eexists. split; [reflexivity|].
    pose proof E as E'. unfold exec in E'.
    apply exec_from_some in E' as (Hr & Hm & _).
    split; [intros _; split; [reflexivity|]; exists idx, n; simpl; repeat split; auto; lia|].
    split; [discriminate|]. split.
    + intros _ _. split; [intros _; eauto|reflexivity].
    + intros _ Hall. specialize (Hall idx n Hm). lia.
  - exists false. eexists. split; [reflexivity|].
    split; [discriminate|]. split; [reflexivity|]. split; [|reflexivity].
    intros _ H0. split; [discriminate|]. intros (idx & n & Hm). exfalso.
    rewrite H0 in E. exact (exec_finds _ 0 idx n Hm ltac:(lia) E).
Qed.

(** X6.  [acceptNode] consults the shared RegExp, whose [lastIndex]
    survives from one text node to the next.  It never throws.  A node it
    accepts is eligible and has a match of the pattern at or after the
    [lastIndex] it found, and [lastIndex] is left at the end of that match;
    a rejection by the RegExp resets [lastIndex] to 0.  Starting from
    [lastIndex = 0] an eligible node is accepted exactly when its text has a
    match; but an eligible node all of whose matches begin before the
    [lastIndex] left behind is rejected, whatever timestamps it holds. *)
Theorem acceptNode_shared_lastIndex (node : Content.TextNode) (w : World) :
  exists b w',
    Content.acceptNode node w = (Return b, w')
    /\ (b = true ->
        Content.eligible node = true
        /\ exists idx n,
             (shared_lastIndex w <= idx)%nat
             /\ match_at (Content.nodeValue node) idx = Some n
             /\ shared_lastIndex w' = (idx + n)%nat)
    /\ (b = false -> Content.eligible node = true -> shared_lastIndex w' = O)
    /\ (Content.eligible node = true -> shared_lastIndex w = O ->
        (b = true <-> exists idx n, match_at (Content.nodeValue node) idx = Some n))
    /\ (Content.eligible node = true ->
        (forall idx n, match_at (Content.nodeValue node) idx = Some n ->
                       (idx < shared_lastIndex w)%nat) ->
        b = false).
Proof. exact (acceptNode_verdict node w). Qed.

(** X6 at a node with one timestamp, first with [lastIndex] at 0, then with
    [lastIndex] behind the timestamp. *)
Lemma acceptNode_shared_lastIndex_witness :
  fst (Content.acceptNode
         {| Content.parentNode := Some {| Content.tagName := Some (lit "P");
                                          Content.isTimestampWrapper := false |};
            Content.nodeValue := lit "1701792000" |}
         (world_at 0)) = Return true
  /\ fst (Content.acceptNode
            {| Content.parentNode := Some {| Content.tagName := Some (lit "P");
                                             Content.isTimestampWrapper := false |};
               Content.nodeValue := lit "1701792000" |}
            (Content.set_lastIndex 5 (world_at 0))) = Return false.
Proof.
  split.
  - destruct (acceptNode_shared_lastIndex
                {| Content.parentNode := Some {| Content.tagName := Some (lit "P");
                                                 Content.isTimestampWrapper := false |};
                   Content.nodeValue := lit "1701792000" |} (world_at 0))
      as (b & w' & E & _ & _ & H & _).
    rewrite E. simpl. f_equal. apply (H eq_refl eq_refl).
    exists 0%nat, 10%nat. reflexivity.
  - destruct (acceptNode_shared_lastIndex
                {| Content.parentNode := Some {| Content.tagName := Some (lit "P");
                                                 Content.isTimestampWrapper := false |};
                   Content.nodeValue := lit "1701792000" |}
                (Content.set_lastIndex 5 (world_at 0)))
      as (b & w' & E & _ & _ & _ & H).
    rewrite E. simpl. f_equal. apply (H eq_refl).
    intros idx n Hm. simpl.
    destruct (Nat.lt_ge_cases idx 5) as [Hlt|Hge]; [exact Hlt|exfalso].
    apply match_at_spec in Hm as (Hn & Hl & _). simpl in Hl. lia.
Defined.

Lemma collectTextNodes_sound nodes :
  forall w, exists kept w',
    Content.collectTextNodes nodes w = (Return kept, w')
    /\ incl kept nodes
    /\ Forall (fun node =>
                 Content.eligible node = true
                 /\ exists idx n, match_at (Content.nodeValue node) idx = Some n) kept.
Proof.
  induction nodes as [|node rest IH]; intros w.
  - exists [], w. repeat split; [apply incl_refl|constructor].
  - destruct (acceptNode_verdict node w) as (b & w1 & Ea & Hacc & _).
    destruct (IH w1) as (kept & w2 & Ec & Hincl & Hall).
    simpl. unfold bind. rewrite Ea, Ec.
    destruct b.
    + exists (node :: kept), w2. split; [reflexivity|]. split.
      * intros x [<-|Hx]; [left; reflexivity|right; apply Hincl, Hx].
      * constructor; [|exact Hall].
        destruct (Hacc eq_refl) as (He & idx & n & _ & Hm & _). eauto.
    + exists kept, w2. split; [reflexivity|]. split; [|exact Hall].
      intros x Hx. right. apply Hincl, Hx.
Qed.

(** X7.  The nodes [scanPage] collects.  Every collected text node is
    eligible and has a match of the pattern, and the collection never throws.
    It can miss nodes: of two eligible nodes in a row, when the first has a
    match ending at [e] and the second is shorter than [e], only the first is
    collected, whatever the second contains, and [lastIndex] is back at 0
    afterwards. *)
Theorem collectTextNodes_sound_and_missing
  (nodes : list Content.TextNode) (w : World) :
  (exists kept w',
      Content.collectTextNodes nodes w = (Return kept, w')
      /\ incl kept nodes
      /\ Forall (fun node =>
                   Content.eligible node = true
                   /\ exists idx n, match_at (Content.nodeValue node) idx = Some n) kept)
  /\ (forall n1 n2 idx n,
        nodes = [n1; n2] ->
        Content.eligible n1 = true -> Content.eligible n2 = true ->
        exec (Content.nodeValue n1) (shared_lastIndex w) = Some (idx, n) ->
        (List.length (Content.nodeValue n2) < idx + n)%nat ->
        Content.collectTextNodes nodes w = (Return [n1], Content.set_lastIndex 0 w)).
Proof.
  split; [apply collectTextNodes_sound|].
  intros n1 n2 idx n -> He1 He2 Hex Hlen.
  unfold Content.eligible in He1, He2.
  simpl. unfold bind, Content.acceptNode.
  destruct (Content.parentNode n1) as [p1|]; [|discriminate].
  destruct (Content.parentNode n2) as [p2|]; [|discriminate].
  apply andb_true_iff in He1 as [Hs1 Hw1]. apply andb_true_iff in He2 as [Hs2 Hw2].
  apply negb_true_iff in Hs1, Hw1, Hs2, Hw2. rewrite Hs1, Hw1, Hs2, Hw2.
  unfold bind, Content.TIMESTAMP_REGEX_test. rewrite Hex. simpl.
  assert (Hnone : exec (Content.nodeValue n2) (idx + n) = None).
  { unfold exec. replace (S (List.length (Content.nodeValue n2)) - (idx + n))%nat
      with O by lia. reflexivity. }
  rewrite Hnone. reflexivity.
Qed.

(** X7 at two paragraphs that each hold a timestamp. *)
Lemma collectTextNodes_sound_and_missing_witness :
  Content.collectTextNodes
    [ {| Content.parentNode := Some {| Content.tagName := Some (lit "P");
                                       Content.isTimestampWrapper := false |};
         Content.nodeValue := lit "created at 1701792000" |};
      {| Content.parentNode := Some {| Content.tagName := Some (lit "P");
                                       Content.isTimestampWrapper := false |};
         Content.nodeValue := lit "1701795600" |} ]
    (world_at 0)
  = (Return [ {| Content.parentNode := Some {| Content.tagName := Some (lit "P");
                                               Content.isTimestampWrapper := false |};
                 Content.nodeValue := lit "created at 1701792000" |} ],
     Content.set_lastIndex 0 (world_at 0)).
Proof.
  match goal with
  | |- Content.collectTextNodes ?l _ = _ =>
      destruct (collectTextNodes_sound_and_missing l (world_at 0)) as [_ H]
  end.
  eapply (H _ _ 11%nat 10%nat); try reflexivity. simpl. lia.
Defined.

(* ----------------------------------------------------------------- *)
(** ** The popup's copies *)

(** X8.  The popup's [isValidTimestamp] tests the string as it is, without
    trimming: it accepts exactly the strings that the converter's
    [isValidTimestamp] accepts and that have no white space around them.  On
    the trimmed input that [handleInput] hands it, the two agree. *)
Theorem popup_isValidTimestamp_agrees (value : jsstring) :
  Popup.isValidTimestamp value
  = isValidTimestamp (VString value) && str_eqb (trim value) value.
Proof.
  unfold Popup.isValidTimestamp, isValidTimestamp. simpl ToString.
  destruct (test_10_or_13 value) eqn:T.
  - pose proof T as T'. apply test_10_or_13_spec in T' as [Ha Hl].
    rewrite (trim_digits value Ha), T.
    replace (str_eqb value value) with true by (symmetry; apply str_eqb_eq; reflexivity).
    change (Number (VString value)) with (StringToNumber value).
    pose proof (Number_digits value Ha) as Hn. simpl in Hn. rewrite Hn.
    simpl. rewrite andb_true_r. reflexivity.
  - simpl. destruct (str_eqb (trim value) value) eqn:E.
    + apply str_eqb_eq in E. rewrite E, T. simpl.
      destruct (isNaN _); reflexivity.
    + rewrite andb_false_r. reflexivity.
Qed.

(** X9.  The popup's [formatRelative] stops its ladder at days.  Within a
    week of now it renders what the converter's [_formatRelative] renders.
    For every instant the magnitude and the unit are those of the four-step
    ladder (seconds below a minute, minutes below an hour, hours below a day,
    days from there on), rendered "<n> <unit>[s] ago" for the past ("just
    now" for a magnitude of 0) and "in <n> <unit>[s]" otherwise; any instant
    a second or more in the past renders with [n >= 1].  From one day on the
    unit is the day, however far the instant lies: the whole days of the
    distance, with "ago" behind or "in" before. *)
Theorem popup_formatRelative (date : Z) (w : World) :
  (Z.abs (clock w (reads w) - date) < 604800000 ->
   Popup.formatRelative date w = _formatRelative (Some date) w)
  /\ (1000 <= clock w (reads w) - date ->
      exists value unit,
        1 <= value
        /\ Popup.formatRelative date w =
           (Return (int_to_string value ++ lit " " ++ unit
                      ++ (if value =? 1 then [] else lit "s") ++ lit " ago"), tick w))
  /\ (exists value unit,
        Popup.LadderUnit (Z.abs (clock w (reads w) - date)) value unit
        /\ Popup.formatRelative date w =
           (Return
              (if 0 <? clock w (reads w) - date
               then (if value =? 0 then lit "just now"
                     else int_to_string value ++ lit " " ++ unit
                            ++ (if value =? 1 then [] else lit "s") ++ lit " ago")
               else lit "in " ++ int_to_string value ++ lit " " ++ unit
                      ++ (if value =? 1 then [] else lit "s")), tick w))
  /\ (86400000 <= clock w (reads w) - date ->
      Popup.formatRelative date w =
      (Return (int_to_string ((clock w (reads w) - date) / 86400000) ++ lit " day"
                 ++ (if (clock w (reads w) - date) / 86400000 =? 1 then []
                     else lit "s") ++ lit " ago"), tick w))
  /\ (86400000 <= date - clock w (reads w) ->
      Popup.formatRelative date w =
      (Return (lit "in " ++ int_to_string ((date - clock w (reads w)) / 86400000)
                 ++ lit " day"
                 ++ (if (date - clock w (reads w)) / 86400000 =? 1 then []
                     else lit "s")), tick w)).
Proof.
  assert (Hdiv : forall a, a / 1000 / 60 / 60 / 24 = a / 86400000).
  { intros a. rewrite !Z.div_div by lia. reflexivity. }
  assert (Hplural : forall value : Z,
             (if negb (value =? 1) then lit "s" else [])
             = (if value =? 1 then [] else lit "s"))
    by (intros value; destruct (value =? 1); reflexivity).
  unfold Popup.formatRelative, _formatRelative, bind, new_Date_now. cbv zeta.
  set (d := clock w (reads w) - date).
  replace (date - clock w (reads w)) with (- d) by (unfold d; lia).
  split; [|split; [|split; [|split]]].
  - intros Hd.
    assert (Hdays : Z.abs d / 1000 / 60 / 60 / 24 < 7)
      by (Z.div_mod_to_equations; lia).
    repeat ladder_step; reflexivity.
  - intros Hd. assert (Hp : (0 <? d) = true) by (apply Z.ltb_lt; lia).
    assert (Habs : Z.abs d = d) by lia. rewrite Habs, Hp.
    assert (Hfin : forall value unit,
               1 <= value ->
               exists value' unit',
                 1 <= value'
                 /\ (Return (if value =? 0 then lit "just now"
                             else int_to_string value ++ lit " " ++ unit
                                    ++ (if negb (value =? 1) then lit "s" else [])
                                    ++ lit " ago"), tick w)
                    = (Return (int_to_string value' ++ lit " " ++ unit'
                                 ++ (if value' =? 1 then [] else lit "s") ++ lit " ago"),
                       tick w)).
    { intros value unit Hv. exists value, unit. split; [exact Hv|].
      replace (value =? 0) with false by (symmetry; apply Z.eqb_neq; lia).
      destruct (value =? 1); reflexivity. }
    destruct (Z.ltb_spec (d / 1000) 60);
      [apply Hfin; Z.div_mod_to_equations; lia|].
    destruct (Z.ltb_spec (d / 1000 / 60) 60);
      [apply Hfin; Z.div_mod_to_equations; lia|].
    destruct (Z.ltb_spec (d / 1000 / 60 / 60) 24);
      apply Hfin; Z.div_mod_to_equations; lia.
  - destruct (Z.ltb_spec (Z.abs d / 1000) 60) as [H1|H1].
    { eexists _, _. split; [apply Popup.LU_second; exact H1|].
      rewrite Hplural. reflexivity. }
    destruct (Z.ltb_spec (Z.abs d / 1000 / 60) 60) as [H2|H2].
    { eexists _, _. split; [apply Popup.LU_minute; assumption|].
      rewrite Hplural. reflexivity. }
    destruct (Z.ltb_spec (Z.abs d / 1000 / 60 / 60) 24) as [H3|H3].
    { eexists _, _. split; [apply Popup.LU_hour; assumption|].
      rewrite Hplural. reflexivity. }
    eexists _, _. split; [apply Popup.LU_day; assumption|].
    rewrite Hplural. reflexivity.
  - intros Hd. assert (Hp : (0 <? d) = true) by (apply Z.ltb_lt; lia).
    assert (Habs : Z.abs d = d) by lia. rewrite Habs, Hp.
    assert (Hday : 1 <= d / 86400000)
      by (apply Z.div_le_lower_bound; lia).
    assert (H1 : (d / 1000 <? 60) = false)
      by (apply Z.ltb_ge; Z.div_mod_to_equations; lia).
    assert (H2 : (d / 1000 / 60 <? 60) = false)
      by (apply Z.ltb_ge; Z.div_mod_to_equations; lia).
    assert (H3 : (d / 1000 / 60 / 60 <? 24) = false)
      by (apply Z.ltb_ge; Z.div_mod_to_equations; lia).
    rewrite H1, H2, H3, Hdiv, Hplural.
    replace (d / 86400000 =? 0) with false by (symmetry; apply Z.eqb_neq; lia).
    reflexivity.
  - intros Hd. assert (Hp : (0 <? d) = false) by (apply Z.ltb_ge; lia).
    assert (Habs : Z.abs d = - d) by lia. rewrite Habs, Hp.
    assert (H1 : (- d / 1000 <? 60) = false)
      by (apply Z.ltb_ge; Z.div_mod_to_equations; lia).
    assert (H2 : (- d / 1000 / 60 <? 60) = false)
      by (apply Z.ltb_ge; Z.div_mod_to_equations; lia).
    assert (H3 : (- d / 1000 / 60 / 60 <? 24) = false)
      by (apply Z.ltb_ge; Z.div_mod_to_equations; lia).
    rewrite H1, H2, H3, Hdiv, Hplural. reflexivity.
Qed.

(** X9 at three days in the past and at four weeks in the past. *)
Lemma popup_formatRelative_witness :
  Popup.formatRelative 1701792000000 (world_at (1701792000000 + 3 * 86400000))
  = _formatRelative (Some 1701792000000) (world_at (1701792000000 + 3 * 86400000))
  /\ Popup.formatRelative 1701792000000 (world_at (1701792000000 + 28 * 86400000))
     = (Return (lit "28 days ago"), tick (world_at (1701792000000 + 28 * 86400000))).
Proof.
  split.
  - apply (proj1 (popup_formatRelative 1701792000000
                    (world_at (1701792000000 + 3 * 86400000)))).
    reflexivity.
  - destruct (popup_formatRelative 1701792000000
                (world_at (1701792000000 + 28 * 86400000)))
      as (_ & _ & _ & H & _).
    rewrite H; [reflexivity | simpl; lia].
Defined.

(* ----------------------------------------------------------------- *)
(** ** The three renderings of the locale dialect *)

(** X10.  The popup's [formatDate(date, timezone)], the service worker's
    [formatDate(date, settings)] and the converter's [formatDate] are three
    copies of the locale rendering with its fallback.  The popup's equals the
    converter's locale dialect in the same time zone.  The worker's equals
    the converter's whenever the dialect is not ['iso'], ['relative'] or
    ['custom']; for ['iso'] it returns the UTC form [toISOString] whatever
    the time zone, which is what the converter returns for ['UTC'] only. *)
Theorem formatDate_copies_agree (h : Host) (t : Z) (w : World) :
  (forall tz,
      Popup.formatDate h t tz w =
      formatDate h (DateObj (Some t))
        {| format := None; customFormat := None; timezone := Some tz;
           showSecondaryTimezone := false; secondaryTimezone := None |} w)
  /\ (forall o,
        str_eqb (or_default (format o) "locale") (lit "iso") = false ->
        str_eqb (or_default (format o) "locale") (lit "relative") = false ->
        str_eqb (or_default (format o) "locale") (lit "custom") = false ->
        ServiceWorker.formatDate h (Some t) o w = formatDate h (DateObj (Some t)) o w)
  /\ (forall o,
        str_eqb (or_default (format o) "locale") (lit "iso") = true ->
        ServiceWorker.formatDate h (Some t) o w = (Return (toISOString t), w)
        /\ (timezone o = Some (lit "UTC") ->
            formatDate h (DateObj (Some t)) o w = (Return (toISOString t), w))).
Proof.
  split; [|split].
  - intros tz. unfold Popup.formatDate, formatDate. cbv zeta. cbn [or_default format timezone].
    change (str_eqb (lit "locale") (lit "iso")) with false.
    change (str_eqb (lit "locale") (lit "relative")) with false.
    change (str_eqb (lit "locale") (lit "custom")) with false. cbv iota.
    destruct (str_eqb tz (lit "local")); reflexivity.
  - intros o H1 H2 H3. unfold ServiceWorker.formatDate, formatDate. cbv zeta.
    rewrite H1, H2, H3.
    destruct (str_eqb (or_default (timezone o) "local") (lit "local")); reflexivity.
  - intros o H1. unfold ServiceWorker.formatDate, formatDate. cbv zeta. rewrite H1.
    split; [reflexivity|]. intros Htz. rewrite Htz. reflexivity.
Qed.

(** X10 at the default settings and at the quick "ISO" menu entry. *)
Lemma formatDate_copies_agree_witness :
  ServiceWorker.formatDate sample_host (Some 1701792000000) no_options (world_at 0)
  = formatDate sample_host (DateObj (Some 1701792000000)) no_options (world_at 0)
  /\ ServiceWorker.formatDate sample_host (Some 1701792000000)
       {| format := Some (lit "iso"); customFormat := None;
          timezone := Some (lit "Asia/Kolkata");
          showSecondaryTimezone := false; secondaryTimezone := None |} (world_at 0)
     = (Return (lit "2023-12-05T16:00:00.000Z"), world_at 0).
Proof.
  split.
  - apply (proj1 (proj2 (formatDate_copies_agree sample_host 1701792000000 (world_at 0))));
      reflexivity.
  - apply (proj2 (proj2 (formatDate_copies_agree sample_host 1701792000000 (world_at 0)))).
    reflexivity.
Defined.

(* ----------------------------------------------------------------- *)
(** ** The service worker's [convertTimestamp] *)

Lemma sw_isValidTimestamp_same v :
  ServiceWorker.isValidTimestamp v = isValidTimestamp v.
Proof. reflexivity. Qed.

Lemma sw_formatDate_returns h d o w :
  exists s, ServiceWorker.formatDate h d o w = (Return s, w).
Proof.
  unfold ServiceWorker.formatDate. cbv zeta. destruct d as [t|]; [|eexists; reflexivity].
  unfold try_catch, bind, resolve_zone.
  destruct (str_eqb _ (lit "iso")); [eexists; reflexivity|].
  destruct (str_eqb _ (lit "local")); [eexists; reflexivity|].
  destruct (lookup_zone h _); eexists; reflexivity.
Qed.

(** X11.  The worker's [convertTimestamp] never throws and never reads the
    clock.  Its [success] flag is the converter's verdict; on success its
    [milliseconds], [seconds] and [isSeconds] are those of the converter's
    [convert] on the same value, and its [date] is the ISO text of the
    instant that [convert] returns as a Date; on failure it carries the same
    error text, without the original value. *)
Theorem convertTimestamp_agrees_with_convert
  (h : Host) (v : JSValue) (o : Options) (w : World) :
  exists r r' w',
    ServiceWorker.convertTimestamp h v o w = (Return r, w)
    /\ convert h v o w = (Return r', w')
    /\ ServiceWorker.Result.success r = isValidTimestamp v
    /\ ServiceWorker.Result.success r = Result.success r'
    /\ ServiceWorker.Result.error r = Result.error r'
    /\ ServiceWorker.Result.milliseconds r = Result.milliseconds r'
    /\ ServiceWorker.Result.seconds r = Result.seconds r'
    /\ ServiceWorker.Result.isSeconds r = Result.isSeconds r'
    /\ ServiceWorker.Result.original r
       = (if isValidTimestamp v then Some v else None)
    /\ match Result.date r' with
       | Some (Some ms) => ServiceWorker.Result.date r = Some (toISOString ms)
       | Some None => False
       | None => ServiceWorker.Result.date r = None
       end.
Proof.
  unfold ServiceWorker.convertTimestamp. rewrite sw_isValidTimestamp_same.
  destruct (isValidTimestamp v) eqn:E.
  - destruct (convert_success_record h v o w E)
      as (f & w1 & sec & w2 & rel & _ & _ & _ & Hc).
    destruct (valid_timestamp_instant v E) as (ms & Hm & Hr & Hclip).
    change (ServiceWorker.toMilliseconds v) with (toMilliseconds v).
    cbv zeta. cbn [negb].
    destruct (sw_formatDate_returns h (TimeClip (toMilliseconds v)) o w) as (s & Hs).
    rewrite (bind_return _ _ _ _ _ Hs). rewrite Hclip. unfold bind, ret.
    eexists. eexists. eexists. split; [reflexivity|]. split; [exact Hc|].
    simpl. rewrite Hclip. repeat split.
  - unfold convert. rewrite (toDate_invalid v E). simpl.
    eexists. eexists. eexists. split; [reflexivity|]. split; [reflexivity|].
    simpl. repeat split.
Qed.

(* ----------------------------------------------------------------- *)
(** ** Decimal text: the number of digits *)

Lemma to_digits_length f :
  forall n acc k,
    0 <= n < 2 ^ Z.of_nat f -> f <> O ->
    (k = O \/ 10 ^ Z.of_nat k <= n) -> n < 10 ^ Z.of_nat (S k) ->
    List.length (to_digits f n acc) = (S k + List.length acc)%nat.
Proof.
  induction f as [|f IH]; intros n acc k Hn Hf Hlo Hhi; [congruence|].
  cbn [to_digits]. destruct (Z.ltb_spec n 10) as [Hlt|Hge].
  - assert (k = O).
    { destruct Hlo as [->|Hlo]; [reflexivity|]. destruct k as [|k]; [reflexivity|].
      exfalso. rewrite Nat2Z.inj_succ, Z.pow_succ_r in Hlo by lia.
      assert (0 < 10 ^ Z.of_nat k) by (apply Z.pow_pos_nonneg; lia). lia. }
    subst k. reflexivity.
  - destruct k as [|k].
    { exfalso. change (10 ^ Z.of_nat 1) with 10 in Hhi. lia. }
    assert (Hdiv : 0 <= n / 10 < 2 ^ Z.of_nat f).
    { split; [apply Z.div_pos; lia|].
      apply Z.div_lt_upper_bound; [lia|].
      rewrite Nat2Z.inj_succ, Z.pow_succ_r in Hn by lia. lia. }
    assert (Hf' : f <> O).
    { intros ->. simpl in Hdiv.
      assert (1 <= n / 10) by (apply Z.div_le_lower_bound; lia). lia. }
    rewrite (IH (n / 10) _ k Hdiv Hf').
    + simpl. lia.
    + destruct Hlo as [Hk|Hlo]; [discriminate|]. right.
      rewrite Nat2Z.inj_succ, Z.pow_succ_r in Hlo by lia.
      apply Z.div_le_lower_bound; lia.
    + apply Z.div_lt_upper_bound; [lia|].
      rewrite (Nat2Z.inj_succ (S k)), Z.pow_succ_r in Hhi by lia. lia.
Qed.

(** A non-negative integer between [10^k] and [10^(k+1)] prints with
    [k + 1] digits. *)
Lemma nat_to_string_length n k :
  0 <= n -> (k = O \/ 10 ^ Z.of_nat k <= n) -> n < 10 ^ Z.of_nat (S k) ->
  List.length (nat_to_string n) = S k.
Proof.
  intros Hn Hlo Hhi. unfold nat_to_string.
  rewrite (to_digits_length _ n [] k); [simpl; lia| |discriminate|exact Hlo|exact Hhi].
  split; [exact Hn|]. rewrite Nat2Z.inj_succ, Z2Nat.id by apply Z.log2_nonneg.
  destruct (Z.eq_dec n 0) as [->|Hpos]; [reflexivity|].
  apply Z.log2_spec. lia.
Qed.

Lemma int_to_string_nonneg n : 0 <= n -> int_to_string n = nat_to_string n.
Proof.
  intros H. unfold int_to_string.
  replace (n <? 0) with false by (symmetry; apply Z.ltb_ge; exact H). reflexivity.
Qed.

(* ----------------------------------------------------------------- *)
(** ** The service worker: copying a timestamp *)

(** X12.  "Copy as timestamp" on a valid timestamp copies the decimal text
    of its milliseconds.  That text is itself a valid timestamp, denoting
    the same instant, exactly when the instant is not before 10^12 ms
    (2001-09-09): the instants of the window before that print with twelve
    digits, which no [isValidTimestamp] accepts. *)
Theorem handleCopyTimestamp_text
  (parse : jsstring -> option Z) (selection : jsstring)
  (Hv : ServiceWorker.isValidTimestamp (VString selection) = true) :
  exists ms,
    ServiceWorker.toMilliseconds (VString selection) = of_Z ms
    /\ ServiceWorker.handleCopyTimestamp parse selection =
       [ ServiceWorker.CopyToClipboard (int_to_string ms);
         ServiceWorker.ShowNotification (lit "Copied")
           (lit "Timestamp: " ++ int_to_string ms ++ lit "ms") ]
    /\ all_digits (int_to_string ms) = true
    /\ (isValidTimestamp (VString (int_to_string ms)) = true <-> 1000000000000 <= ms)
    /\ (1000000000000 <= ms ->
        toMilliseconds (VString (int_to_string ms)) = of_Z ms).
Proof.
  rewrite sw_isValidTimestamp_same in Hv.
  destruct (valid_timestamp_instant (VString selection) Hv) as (ms & Hm & Hr & _).
  unfold Constants.MIN_TIMESTAMP_MS, Constants.MAX_TIMESTAMP_MS in Hr.
  exists ms. split; [exact Hm|].
  assert (Hpos : 0 <= ms) by lia.
  destruct (nat_to_string_spec ms Hpos) as (Hall & Hne & Hval).
  rewrite (int_to_string_nonneg ms Hpos).
  split.
  - unfold ServiceWorker.handleCopyTimestamp. rewrite sw_isValidTimestamp_same, Hv.
    change (ServiceWorker.toMilliseconds (VString selection))
      with (toMilliseconds (VString selection)).
    rewrite Hm. unfold ServiceWorker.number_text, of_Z, Qfloor, inject_Z.
    rewrite Z.div_1_r, (int_to_string_nonneg ms Hpos). reflexivity.
  - split; [exact Hall|].
    assert (Hlen13 : 1000000000000 <= ms -> List.length (nat_to_string ms) = 13%nat).
    { intros H. apply (nat_to_string_length ms 12 Hpos).
      - right. change (10 ^ Z.of_nat 12) with 1000000000000. exact H.
      - change (10 ^ Z.of_nat 13) with 10000000000000. lia. }
    assert (Hlen12 : ms < 1000000000000 -> List.length (nat_to_string ms) = 12%nat).
    { intros H. apply (nat_to_string_length ms 11 Hpos).
      - right. change (10 ^ Z.of_nat 11) with 100000000000. lia.
      - change (10 ^ Z.of_nat 12) with 1000000000000. exact H. }
    split.
    + rewrite isValidTimestamp_iff. simpl ToString.
      rewrite (trim_digits _ Hall), Hval. split.
      * intros (_ & _ & [[Hl _]|[Hl _]]);
          destruct (Z_lt_le_dec ms 1000000000000) as [Hlt|Hge]; try exact Hge;
          rewrite (Hlen12 Hlt) in Hl; discriminate.
      * intros Hge. split; [exact Hall|]. split.
        -- rewrite <- Hval at 2. apply Number_digits. exact Hall.
        -- right. split; [exact (Hlen13 Hge)|lia].
    + intros Hge.
      rewrite (toMilliseconds_trimmed (VString (nat_to_string ms)) _ Hall
                 (trim_digits _ Hall)).
      rewrite (Hlen13 Hge), Hval. reflexivity.
Qed.

(** X12 at a timestamp of 2023 and at the first second of the window. *)
Lemma handleCopyTimestamp_text_witness :
  ServiceWorker.handleCopyTimestamp (fun _ => None) (lit "1701792000")
  = [ ServiceWorker.CopyToClipboard (lit "1701792000000");
      ServiceWorker.ShowNotification (lit "Copied") (lit "Timestamp: 1701792000000ms") ]
  /\ ServiceWorker.handleCopyTimestamp (fun _ => None) (lit "0946684800")
     = [ ServiceWorker.CopyToClipboard (lit "946684800000");
         ServiceWorker.ShowNotification (lit "Copied") (lit "Timestamp: 946684800000ms") ].
Proof.
  split.
  - destruct (handleCopyTimestamp_text (fun _ => None) (lit "1701792000") eq_refl)
      as (ms & Hm & Hc & _).
    rewrite Hc. inversion Hm. reflexivity.
  - destruct (handleCopyTimestamp_text (fun _ => None) (lit "0946684800") eq_refl)
      as (ms & Hm & Hc & _).
    rewrite Hc. inversion Hm. reflexivity.
Defined.

(** X13.  The badge text of [updateBadge] is empty for a count of 0 or
    less, "99+" above 99, and otherwise the decimal text of the count: it is
    never longer than three characters, and non-empty exactly for a positive
    count. *)
Theorem badgeText_bounds (count : Z) :
  (List.length (ServiceWorker.badgeText count) <= 3)%nat
  /\ (ServiceWorker.badgeText count = [] <-> count <= 0)
  /\ (0 < count <= 99 ->
      ServiceWorker.badgeText count = int_to_string count
      /\ all_digits (ServiceWorker.badgeText count) = true
      /\ digits_val 10 (ServiceWorker.badgeText count) = count)
  /\ (99 < count -> ServiceWorker.badgeText count = lit "99+").
Proof.
  unfold ServiceWorker.badgeText.
  destruct (Z.ltb_spec 0 count) as [Hp|Hn].
  - destruct (Z.ltb_spec 99 count) as [Hb|Hs].
    + split; [simpl; lia|]. split; [split; [discriminate|lia]|].
      split; [lia|reflexivity].
    + assert (Hpos : 0 <= count) by lia.
      destruct (nat_to_string_spec count Hpos) as (Hall & Hne & Hval).
      rewrite (int_to_string_nonneg count Hpos).
      split; [|split; [split; [congruence|lia]|split; [auto|lia]]].
      destruct (Z_lt_le_dec count 10) as [H1|H2].
      * rewrite (nat_to_string_length count 0 Hpos); [lia|auto|exact H1].
      * rewrite (nat_to_string_length count 1 Hpos); [lia| |].
        -- right. exact H2.
        -- change (10 ^ Z.of_nat 2) with 100. lia.
  - split; [simpl; lia|]. split; [split; [lia|reflexivity]|]. split; lia.
Qed.

(** X13 at a count of 42 and at a count of 250. *)
Lemma badgeText_bounds_witness :
  ServiceWorker.badgeText 42 = int_to_string 42
  /\ digits_val 10 (ServiceWorker.badgeText 42) = 42
  /\ ServiceWorker.badgeText 250 = lit "99+".
Proof.
  destruct (badgeText_bounds 42) as (_ & _ & H & _).
  destruct (H ltac:(lia)) as (H1 & _ & H3).
  destruct (badgeText_bounds 250) as (_ & _ & _ & H').
  split; [exact H1|]. split; [exact H3|]. apply H'. lia.
Defined.

(* ----------------------------------------------------------------- *)
(** ** The date parts *)

Lemma getDateParts_zone h t tz zone w :
  effective_zone h tz = Some zone ->
  exists off ab,
    _getDateParts h t tz w =
    (Return
       (let f := fields_of (t + zone t * 60000) in
        {| year := year_of_era (f_year f);
           month := f_month f;
           monthLong := month_long (f_month f);
           monthShort := month_short (f_month f);
           day := f_day f;
           weekdayLong := weekday_long (f_weekday f);
           weekdayShort := weekday_short (f_weekday f);
           hour := f_hour f;
           hour12 := if f_hour f =? 0 then 12
                     else if 12 <? f_hour f then f_hour f - 12 else f_hour f;
           minute := f_minute f;
           second := f_second f;
           millisecond := t mod 1000;
           ampm := if f_hour f <? 12 then lit "am" else lit "pm";
           offset := off;
           tzAbbr := ab |}), w)
    /\ _getTimezoneOffset h t tz w = (Return off, w)
    /\ _getTimezoneAbbr h t tz w = (Return ab, w).
Proof.
  unfold effective_zone. intros Hz.
  destruct (getTimezoneOffset_returns h t tz w) as [off Hoff].
  destruct (getTimezoneAbbr_returns h t tz w) as [ab Hab].
  exists off, ab. split; [|auto]. unfold _getDateParts.
  destruct (str_eqb tz (lit "local")).
  - inversion Hz; subst zone.
    erewrite bind_return by reflexivity. cbv zeta.
    erewrite bind_return by exact Hoff.
    erewrite bind_return by exact Hab. reflexivity.
  - erewrite bind_return by (unfold resolve_zone; rewrite Hz; reflexivity).
    cbv zeta.
    erewrite bind_return by exact Hoff.
    erewrite bind_return by exact Hab. reflexivity.
Qed.

Lemma fields_of_clock t :
  0 <= f_hour (fields_of t) <= 23
  /\ 0 <= f_minute (fields_of t) <= 59
  /\ 0 <= f_second (fields_of t) <= 59.
Proof.
  unfold fields_of. destruct (civil_from_days (t / 86400000)) as [[y m] d]. simpl.
  pose proof (Z.mod_pos_bound t 86400000 ltac:(lia)) as Hr.
  pose proof (Z.mod_pos_bound (t mod 86400000 / 60000) 60 ltac:(lia)).
  pose proof (Z.mod_pos_bound (t mod 86400000 / 1000) 60 ltac:(lia)).
  repeat split; try lia.
  - apply Z.div_pos; lia.
  - assert (t mod 86400000 / 3600000 < 24) by (apply Z.div_lt_upper_bound; lia). lia.
Qed.

(** X14.  The date parts of an instant.  [_getDateParts] throws (a
    RangeError) exactly when the zone is not ['local'] and the platform does
    not know it, and otherwise leaves the world as it is.  Its 12-hour clock
    is a faithful reading of the 24-hour one: [hour12] lies in 1..12, [ampm]
    is "am" or "pm", and the two determine [hour], which lies in 0..23;
    minutes and seconds lie in 0..59 and milliseconds in 0..999. *)
Theorem getDateParts_clock (h : Host) (t : Z) (tz : jsstring) (w : World) :
  match effective_zone h tz with
  | None => _getDateParts h t tz w = (Throw RangeError, w)
  | Some _ =>
      exists p,
        _getDateParts h t tz w = (Return p, w)
        /\ 0 <= hour p <= 23
        /\ 1 <= hour12 p <= 12
        /\ (ampm p = lit "am" \/ ampm p = lit "pm")
        /\ hour p = hour12 p mod 12 + (if str_eqb (ampm p) (lit "pm") then 12 else 0)
        /\ 0 <= minute p <= 59
        /\ 0 <= second p <= 59
        /\ 0 <= millisecond p <= 999
  end.
Proof.
  destruct (effective_zone h tz) as [zone|] eqn:Ez.
  - destruct (getDateParts_zone h t tz zone w Ez) as (off & ab & E & _).
    eexists. split; [exact E|]. cbv zeta. cbn [hour hour12 ampm minute second millisecond].
    destruct (fields_of_clock (t + zone t * 60000)) as (Hh & Hm & Hs).
    set (hr := f_hour (fields_of (t + zone t * 60000))) in *. clearbody hr.
    pose proof (Z.mod_pos_bound t 1000 ltac:(lia)) as Hms.
    split; [exact Hh|].
    assert (Hpm : str_eqb (lit "pm") (lit "pm") = true) by reflexivity.
    assert (Ham : str_eqb (lit "am") (lit "pm") = false) by reflexivity.
    destruct (Z.eqb_spec hr 0) as [E0|E0];
      destruct (Z.ltb_spec 12 hr) as [H12|H12];
      destruct (Z.ltb_spec hr 12) as [Hlt|Hge];
      rewrite ?Hpm, ?Ham; try lia;
      (split; [lia|]); (split; [auto|]);
      (split; [|split; [exact Hm|split; [exact Hs|lia]]]).
    + subst hr. reflexivity.
    + rewrite Z.mod_small by lia. lia.
    + rewrite Z.mod_small by lia. lia.
    + assert (E12 : hr = 12) by lia. subst hr. reflexivity.
  - unfold effective_zone in Ez.
    destruct (str_eqb tz (lit "local")) eqn:El; [discriminate|].
    apply getDateParts_unknown; assumption.
Qed.

(* ----------------------------------------------------------------- *)
(** ** The offset text *)

Lemma digits_val_cons0 s : digits_val 10 (48%N :: s) = digits_val 10 s.
Proof. reflexivity. Qed.

(** Two-digit padding of a number below 100. *)
Lemma pad_int2_spec z :
  0 <= z < 100 ->
  exists a b,
    pad_int 2 z = [a; b] /\ is_digit a = true /\ is_digit b = true
    /\ digits_val 10 [a; b] = z.
Proof.
  intros Hz. unfold pad_int, padStart0.
  assert (Hpos : 0 <= z) by lia.
  destruct (nat_to_string_spec z Hpos) as (Hall & Hne & Hval).
  rewrite (int_to_string_nonneg z Hpos).
  destruct (Z_lt_le_dec z 10) as [H1|H2].
  - pose proof (nat_to_string_length z 0 Hpos (or_introl eq_refl) H1) as Hl.
    destruct (nat_to_string z) as [|a [|b l]]; try discriminate Hl.
    simpl in Hall. rewrite andb_true_r in Hall.
    exists 48%N, a. simpl. repeat split; auto.
  - assert (Hl : List.length (nat_to_string z) = 2%nat).
    { apply (nat_to_string_length z 1 Hpos); [right; exact H2|].
      change (10 ^ Z.of_nat 2) with 100. lia. }
    destruct (nat_to_string z) as [|a [|b [|c l]]]; try discriminate Hl.
    simpl in Hall. rewrite andb_true_r in Hall. apply andb_true_iff in Hall as [Da Db].
    exists a, b. simpl. repeat split; auto.
Qed.

Lemma gmt_offset_at_shape s m :
  gmt_offset_at s = Some m ->
  exists sg rest, m = sg :: rest /\ (sg = 43%N \/ sg = 45%N).
Proof.
  unfold gmt_offset_at. destruct s as [|sg [|d1 r1]]; try discriminate.
  destruct (((sg =? 43) || (sg =? 45))%N && is_digit d1) eqn:E; [|discriminate].
  apply andb_true_iff in E as [E _]. apply orb_true_iff in E.
  assert (Hsg : sg = 43%N \/ sg = 45%N)
    by (destruct E as [E|E]; apply N.eqb_eq in E; auto).
  intros H.
  assert (Hone : forall m', match colon_digits r1 with
                            | Some t => Some (sg :: d1 :: t)
                            | None => None
                            end = Some m' -> exists rest, m' = sg :: rest).
  { intros m'. destruct (colon_digits r1); [|discriminate].
    intros E'. inversion E'. eauto. }
  destruct r1 as [|d2 r2].
  - destruct (Hone m H) as [rest ->]. eauto.
  - destruct (is_digit d2).
    + destruct (colon_digits r2).
      * inversion H. eauto.
      * destruct (Hone m H) as [rest ->]. eauto.
    + destruct (Hone m H) as [rest ->]. eauto.
Qed.

Lemma match_gmt_offset_shape s m :
  match_gmt_offset s = Some m ->
  exists sg rest, m = sg :: rest /\ (sg = 43%N \/ sg = 45%N).
Proof.
  induction s as [|c s IH]; [discriminate|].
  cbn [match_gmt_offset]. destruct (starts_with (lit "GMT") (c :: s)); [|exact IH].
  destruct (gmt_offset_at (skipn 3 (c :: s))) eqn:E; [|exact IH].
  intros H. inversion H; subst. exact (gmt_offset_at_shape _ _ E).
Qed.

(** X15.  The offset text behind the [Z] token.  [_getTimezoneOffset]
    never throws: for a zone the platform does not know it returns the empty
    string.  For ['local'] and a host offset of less than 100 hours it
    returns six characters, a sign, two digits, a colon and two digits,
    which spell the host's offset: '+' exactly for an offset that is not
    negative, and hours times 60 plus minutes equal to its magnitude.  For
    any other zone it returns the empty string or a text that starts with a
    sign and contains a colon. *)
Theorem getTimezoneOffset_text (h : Host) (t : Z) (tz : jsstring) (w : World) :
  exists r,
    _getTimezoneOffset h t tz w = (Return r, w)
    /\ (effective_zone h tz = None -> r = [])
    /\ (str_eqb tz (lit "local") = true -> Z.abs (localOffset h t) < 6000 ->
        List.length r = 6%nat
        /\ slice r 0 1 = (if 0 <=? localOffset h t then lit "+" else lit "-")
        /\ slice r 3 1 = lit ":"
        /\ all_digits (slice r 1 2) = true
        /\ all_digits (slice r 4 2) = true
        /\ digits_val 10 (slice r 1 2) * 60 + digits_val 10 (slice r 4 2)
           = Z.abs (localOffset h t))
    /\ (str_eqb tz (lit "local") = false ->
        r = []
        \/ exists sg rest,
             r = sg :: rest /\ (sg = 43%N \/ sg = 45%N)
             /\ existsb (fun c => (c =? 58)%N) r = true).
Proof.
  unfold _getTimezoneOffset, effective_zone.
  destruct (str_eqb tz (lit "local")) eqn:El.
  - eexists. split; [reflexivity|]. split; [discriminate|]. split; [|discriminate].
    intros _ Hb. set (o := localOffset h t) in *.
    assert (Hh : 0 <= Z.abs o / 60 < 100).
    { split; [apply Z.div_pos; lia|apply Z.div_lt_upper_bound; lia]. }
    assert (Hm : 0 <= Z.abs o mod 60 < 100)
      by (pose proof (Z.mod_pos_bound (Z.abs o) 60 ltac:(lia)); lia).
    unfold offset_hours, offset_mins, offset_sign.
    destruct (pad_int2_spec _ Hh) as (a & b & -> & Da & Db & Vh).
    destruct (pad_int2_spec _ Hm) as (c & d & -> & Dc & Dd & Vm).
    assert (Hs : exists sg, (if 0 <=? o then lit "+" else lit "-") = [sg])
      by (destruct (0 <=? o); eexists; reflexivity).
    destruct Hs as [sg ->].
    change (lit ":") with [58%N].
    cbn [app slice skipn firstn List.length all_digits forallb].
    rewrite Da, Db, Dc, Dd, Vh, Vm.
    repeat split. rewrite Z.mul_comm. symmetry. apply Z.div_mod. lia.
  - unfold try_catch, bind, resolve_zone.
    destruct (lookup_zone h tz) as [zone|].
    + cbn. destruct (match_gmt_offset _) as [m|] eqn:Em.
      * eexists. split; [reflexivity|]. split; [discriminate|]. split; [discriminate|].
        intros _. right.
        destruct (match_gmt_offset_shape _ _ Em) as (sg & rest & -> & Hsg).
        destruct (existsb (fun c => (c =? 58)%N) (sg :: rest)) eqn:Ec.
        -- exists sg, rest. auto.
        -- destruct rest as [|x [|y rest']].
           ++ exists sg, (lit ":"). repeat split; auto.
              destruct Hsg as [-> | ->]; reflexivity.
           ++ exists sg, (x :: lit ":"). repeat split; auto. cbn.
              rewrite !orb_true_r. reflexivity.
           ++ exists sg, (x :: y :: lit ":" ++ rest'). repeat split; auto. cbn.
              rewrite !orb_true_r. reflexivity.
      * exists []. repeat split; auto; discriminate.
    + exists []. repeat split; auto; discriminate.
Qed.

(** X15 on the sample host: local time, and the zone of Kolkata. *)
Lemma getTimezoneOffset_text_witness :
  _getTimezoneOffset sample_host 1701792000000 (lit "local") (world_at 0)
  = (Return (lit "+01:00"), world_at 0)
  /\ exists r,
       _getTimezoneOffset sample_host 1701792000000 (lit "Asia/Kolkata") (world_at 0)
       = (Return r, world_at 0)
       /\ (r = [] \/ exists sg rest, r = sg :: rest /\ (sg = 43%N \/ sg = 45%N)
                                     /\ existsb (fun c => (c =? 58)%N) r = true).
Proof.
  split; [reflexivity|].
  destruct (getTimezoneOffset_text sample_host 1701792000000 (lit "Asia/Kolkata")
              (world_at 0)) as (r & E & _ & _ & H).
  exists r. split; [exact E|]. exact (H eq_refl).
Defined.

(* ----------------------------------------------------------------- *)
(** ** The ISO dialect in local time *)

Lemma TimeClip_of_Z x :
  TimeClip (of_Z x) = if Z.abs x <=? 8640000000000000 then Some x else None.
Proof.
  unfold TimeClip, of_Z.
  replace (Qabs (inject_Z x)) with (inject_Z (Z.abs x)) by reflexivity.
  rewrite Qle_bool_inject. destruct (Z.abs x <=? 8640000000000000); [|reflexivity].
  unfold Qtrunc, Qceiling, Qfloor, inject_Z. simpl Qnum.
  destruct (0 <=? x); simpl; rewrite Z.div_1_r; [reflexivity|].
  f_equal. lia.
Qed.

(** X16.  The ISO dialect in local time.  [formatDate] shifts the instant
    by the host's offset, takes the UTC text of the shifted instant without
    its final "Z" and appends the offset text of the [Z] token.  When the
    shifted instant leaves the range of Date (8.64e15 ms either way) the
    inner [toISOString] throws and [formatDate] returns the host's default
    rendering instead. *)
Theorem formatDate_iso_local
  (h : Host) (t : Z) (o : Options) (w : World)
  (Hformat : format o = Some (lit "iso"))
  (Hzone : or_default (timezone o) "local" = lit "local") :
  exists z,
    _getTimezoneOffset h t (lit "local") w = (Return z, w)
    /\ formatDate h (DateObj (Some t)) o w =
       (Return
          (if Z.abs (t + localOffset h t * 60000) <=? 8640000000000000
           then slice_drop_last 1 (toISOString (t + localOffset h t * 60000)) ++ z
           else toLocaleString_default h t), w).
Proof.
  eexists. split; [reflexivity|].
  unfold formatDate. cbv zeta. rewrite Hformat, Hzone. cbn [or_default].
  change (str_eqb (lit "iso") (lit "iso")) with true. cbv iota.
  unfold _formatISO.
  change (str_eqb (lit "local") (lit "local")) with true. cbv iota zeta.
  rewrite TimeClip_of_Z.
  destruct (Z.abs (t + localOffset h t * 60000) <=? 8640000000000000); reflexivity.
Qed.

(** X16 on the sample host, at a timestamp of 2023 and at the last instant
    a Date can hold. *)
Lemma formatDate_iso_local_witness :
  formatDate sample_host (DateObj (Some 1701792000000))
    {| format := Some (lit "iso"); customFormat := None; timezone := None;
       showSecondaryTimezone := false; secondaryTimezone := None |} (world_at 0)
  = (Return (lit "2023-12-05T17:00:00.000+01:00"), world_at 0)
  /\ formatDate sample_host (DateObj (Some 8640000000000000))
       {| format := Some (lit "iso"); customFormat := None; timezone := None;
          showSecondaryTimezone := false; secondaryTimezone := None |} (world_at 0)
     = (Return (toLocaleString_default sample_host 8640000000000000), world_at 0).
Proof.
  split.
  - destruct (formatDate_iso_local sample_host 1701792000000
                {| format := Some (lit "iso"); customFormat := None; timezone := None;
                   showSecondaryTimezone := false; secondaryTimezone := None |}
                (world_at 0) eq_refl eq_refl) as (z & Hz & E).
    rewrite E. inversion Hz. reflexivity.
  - destruct (formatDate_iso_local sample_host 8640000000000000
                {| format := Some (lit "iso"); customFormat := None; timezone := None;
                   showSecondaryTimezone := false; secondaryTimezone := None |}
                (world_at 0) eq_refl eq_refl) as (z & Hz & E).
    rewrite E. reflexivity.
Defined.

(* ----------------------------------------------------------------- *)
(** ** The token passes of the custom pattern *)

Lemma free_app c a b : free c (a ++ b) = free c a && free c b.
Proof. unfold free. apply forallb_app. Qed.

Lemma plain_free c s :
  plain s = true -> is_digit c = false -> (c =? 45)%N = false -> free c s = true.
Proof.
  unfold plain, free. intros Hp Hd Hm. induction s as [|x s IH]; [reflexivity|].
  cbn [forallb] in *. apply andb_true_iff in Hp as [Hx Hs].
  rewrite (IH Hs), andb_true_r.
  destruct (N.eqb_spec x c) as [->|]; [|reflexivity].
  rewrite Hd, Hm in Hx. discriminate.
Qed.

Lemma literal_free c s :
  literal s = true -> existsb (N.eqb c) token_letters = true -> free c s = true.
Proof.
  unfold literal, free. intros Hl Hc. induction s as [|x s IH]; [reflexivity|].
  cbn [forallb] in *. apply andb_true_iff in Hl as [Hx Hs].
  rewrite (IH Hs), andb_true_r.
  destruct (N.eqb_spec x c) as [->|]; [|reflexivity].
  rewrite Hc in Hx. discriminate.
Qed.

Lemma starts_with_head c tk x s : starts_with (c :: tk) (x :: s) = true -> x = c.
Proof.
  unfold starts_with. cbn [List.length firstn str_eqb]. intros H.
  apply andb_true_iff in H as [H _]. unfold cu_eqb in H.
  apply N.eqb_eq in H. auto.
Qed.

Lemma starts_with_app tk s : starts_with tk (tk ++ s) = true.
Proof.
  unfold starts_with. apply str_eqb_eq.
  induction tk as [|c tk IH]; [reflexivity|]. cbn. f_equal. exact IH.
Qed.

(** A pass whose token starts with a character the text does not have
    leaves the text as it is. *)
Lemma replace_from_free c tk r whole s : forall pos,
  free c s = true -> replace_from (c :: tk) r whole pos 0 s = s.
Proof.
  induction s as [|x s IH]; intros pos Hf; [reflexivity|].
  unfold free in Hf. cbn [forallb] in Hf. apply andb_true_iff in Hf as [Hx Hs].
  cbn [replace_from].
  destruct (starts_with (c :: tk) (x :: s)) eqn:E.
  - apply starts_with_head in E. subst x. rewrite N.eqb_refl in Hx. discriminate.
  - f_equal. apply IH. exact Hs.
Qed.

Lemma replace_all_free c tk r s :
  free c s = true -> replace_all (c :: tk) r s = s.
Proof. apply replace_from_free. Qed.

(** A pass goes over a stretch without the token's first character. *)
Lemma replace_from_prefix c tk r whole a s : forall pos,
  free c a = true ->
  replace_from (c :: tk) r whole pos 0 (a ++ s)
  = a ++ replace_from (c :: tk) r whole (pos + List.length a) 0 s.
Proof.
  induction a as [|x a IH]; intros pos Hf.
  - cbn [app List.length]. rewrite Nat.add_0_r. reflexivity.
  - unfold free in Hf. cbn [forallb] in Hf. apply andb_true_iff in Hf as [Hx Hs].
    cbn [app replace_from].
    destruct (starts_with (c :: tk) (x :: a ++ s)) eqn:E.
    + apply starts_with_head in E. subst x. rewrite N.eqb_refl in Hx. discriminate.
    + f_equal. rewrite (IH (S pos) Hs). cbn [List.length].
      rewrite Nat.add_succ_r. reflexivity.
Qed.

(** After a match the pass resumes behind it. *)
Lemma replace_from_skipping token r whole a s : forall pos,
  replace_from token r whole pos (List.length a) (a ++ s)
  = replace_from token r whole (pos + List.length a) 0 s.
Proof.
  induction a as [|x a IH]; intros pos.
  - cbn [app List.length]. rewrite Nat.add_0_r. reflexivity.
  - cbn [app List.length replace_from]. rewrite IH, Nat.add_succ_r. reflexivity.
Qed.

(** A replacement text without a dollar sign is inserted as it is. *)
Lemma expand_plain m b a r :
  free 36%N r = true -> expand_replacement m b a r = r.
Proof.
  induction r as [|c r IH]; intros Hf; [reflexivity|].
  unfold free in Hf. cbn [forallb] in Hf. apply andb_true_iff in Hf as [Hc Hr].
  cbn [expand_replacement]. apply negb_true_iff in Hc. rewrite Hc.
  f_equal. exact (IH Hr).
Qed.

(** A pass over a text with one occurrence of its token. *)
Lemma replace_all_once c tk r a b :
  free c a = true -> free c b = true -> free 36%N r = true ->
  replace_all (c :: tk) r (a ++ (c :: tk) ++ b) = a ++ r ++ b.
Proof.
  intros Ha Hb Hr. unfold replace_all.
  rewrite (replace_from_prefix c tk r _ a _ 0%nat Ha). f_equal.
  cbn [app replace_from].
  change (c :: tk ++ b) with ((c :: tk) ++ b).
  rewrite starts_with_app, (expand_plain _ _ _ _ Hr). f_equal.
  replace (List.length (c :: tk) - 1)%nat with (List.length tk)
    by (cbn [List.length]; lia).
  rewrite replace_from_skipping. apply replace_from_free. exact Hb.
Qed.

(** A pass over a text in which the token's first character only occurs in
    a part where the token does not match. *)
Lemma replace_all_prefix c tk r a b :
  free c a = true ->
  (forall whole pos, replace_from (c :: tk) r whole pos 0 b = b) ->
  replace_all (c :: tk) r (a ++ b) = a ++ b.
Proof.
  intros Ha Hb. unfold replace_all.
  rewrite (replace_from_prefix c tk r _ a _ 0%nat Ha), Hb. reflexivity.
Qed.

Lemma to_digits_plain fuel : forall n acc,
  plain acc = true -> plain (to_digits fuel n acc) = true.
Proof.
  induction fuel as [|f IH]; intros n acc Ha; [exact Ha|].
  cbn [to_digits]. cbv zeta.
  assert (Hd : plain (Z.to_N (48 + n mod 10) :: acc) = true).
  { unfold plain. cbn [forallb]. fold (plain acc). rewrite Ha, andb_true_r.
    apply orb_true_iff. left.
    pose proof (Z.mod_pos_bound n 10 ltac:(lia)) as Hb.
    unfold is_digit. apply andb_true_iff. split; apply N.leb_le; lia. }
  destruct (n <? 10); [exact Hd|]. apply IH. exact Hd.
Qed.

Lemma int_to_string_plain z : plain (int_to_string z) = true.
Proof.
  unfold int_to_string, nat_to_string. destruct (z <? 0).
  - unfold plain. cbn [forallb]. apply andb_true_iff. split; [reflexivity|].
    apply to_digits_plain. reflexivity.
  - apply to_digits_plain. reflexivity.
Qed.

Lemma pad_int_plain n z : plain (pad_int n z) = true.
Proof.
  unfold pad_int, padStart0, plain. rewrite forallb_app.
  apply andb_true_iff. split; [|apply int_to_string_plain].
  induction (n - List.length (int_to_string z))%nat as [|k IH]; [reflexivity|].
  cbn [repeat forallb]. rewrite IH. reflexivity.
Qed.

(** The token table in the order of the passes. *)
Lemma sorted_tokens parts :
  sort_longest_first (tokens parts) =
  [ (lit "YYYY", int_to_string (year parts));
    (lit "MMMM", monthLong parts);
    (lit "dddd", weekdayLong parts);
    (lit "MMM", monthShort parts);
    (lit "ddd", weekdayShort parts);
    (lit "SSS", pad_int 3 (millisecond parts));
    (lit "YY", slice_last 2 (int_to_string (year parts)));
    (lit "MM", pad_int 2 (month parts));
    (lit "DD", pad_int 2 (day parts));
    (lit "HH", pad_int 2 (hour parts));
    (lit "hh", pad_int 2 (hour12 parts));
    (lit "mm", pad_int 2 (minute parts));
    (lit "ss", pad_int 2 (second parts));
    (lit "M", int_to_string (month parts));
    (lit "D", int_to_string (day parts));
    (lit "H", int_to_string (hour parts));
    (lit "h", int_to_string (hour12 parts));
    (lit "m", int_to_string (minute parts));
    (lit "s", int_to_string (second parts));
    (lit "A", toUpperCase (ampm parts));
    (lit "a", toLowerCase (ampm parts));
    (lit "Z", offset parts);
    (lit "z", tzAbbr parts) ].
Proof. reflexivity. Qed.

Ltac free_solver :=
  repeat rewrite free_app;
  repeat (apply andb_true_intro; split);
  first [ reflexivity
        | apply plain_free; [assumption | reflexivity | reflexivity] ].

Ltac pass_absent :=
  match goal with
  | |- replace_all ?tok ?r ?s = ?s =>
      let c := eval cbv in (hd 0%N tok) in
      let tk := eval cbv in (tl tok) in
      change (replace_all (c :: tk) r s = s);
      apply replace_all_free; free_solver
  end.

Ltac pass_once a b :=
  match goal with
  | |- replace_all ?tok ?r ?s = _ =>
      let c := eval cbv in (hd 0%N tok) in
      let tk := eval cbv in (tl tok) in
      transitivity (replace_all (c :: tk) r (a ++ (c :: tk) ++ b));
      [ f_equal; first [ reflexivity | repeat rewrite <- app_assoc; reflexivity ]
      | rewrite replace_all_once;
        [ first [ reflexivity
                | repeat rewrite <- app_assoc; rewrite ?app_nil_r; reflexivity ]
        | free_solver .. ] ]
  end.

(** The passes over the default pattern, for any values of the numeric
    tokens that are decimal texts. *)
Lemma default_pattern_passes
  (vYYYY vMMMM vdddd vMMM vddd vSSS vYY vMM vDD vHH vhh vmm vss
   vM vD vH vh vm vs vA va vZ vz : jsstring) :
  plain vYYYY = true -> plain vMM = true -> plain vDD = true ->
  plain vHH = true -> plain vmm = true -> plain vss = true ->
  fold_left (fun result t => replace_all (fst t) (snd t) result)
    [ (lit "YYYY", vYYYY); (lit "MMMM", vMMMM); (lit "dddd", vdddd);
      (lit "MMM", vMMM); (lit "ddd", vddd); (lit "SSS", vSSS);
      (lit "YY", vYY); (lit "MM", vMM); (lit "DD", vDD); (lit "HH", vHH);
      (lit "hh", vhh); (lit "mm", vmm); (lit "ss", vss);
      (lit "M", vM); (lit "D", vD); (lit "H", vH); (lit "h", vh);
      (lit "m", vm); (lit "s", vs); (lit "A", vA); (lit "a", va);
      (lit "Z", vZ); (lit "z", vz) ]
    (lit "YYYY-MM-DD HH:mm:ss")
  = vYYYY ++ lit "-" ++ vMM ++ lit "-" ++ vDD ++ lit " "
    ++ vHH ++ lit ":" ++ vmm ++ lit ":" ++ vss.
Proof.
  intros PY PMo PD PH PMi PS.
  cbn [fold_left fst snd].
  assert (E1 : replace_all (lit "YYYY") vYYYY (lit "YYYY-MM-DD HH:mm:ss")
               = vYYYY ++ lit "-MM-DD HH:mm:ss").
  { pass_once (@nil code_unit) (lit "-MM-DD HH:mm:ss"). }
  rewrite E1. clear E1.
  assert (E2 : forall tk r,
             replace_all (77%N :: 77%N :: 77%N :: tk) r (vYYYY ++ lit "-MM-DD HH:mm:ss")
             = vYYYY ++ lit "-MM-DD HH:mm:ss").
  { intros tk r. apply replace_all_prefix; [free_solver|].
    intros whole pos. reflexivity. }
  change (lit "MMMM") with (77%N :: 77%N :: 77%N :: lit "M").
  change (lit "MMM") with (77%N :: 77%N :: 77%N :: @nil code_unit).
  rewrite (E2 (lit "M") vMMMM).
  assert (E3 : replace_all (lit "dddd") vdddd (vYYYY ++ lit "-MM-DD HH:mm:ss")
               = vYYYY ++ lit "-MM-DD HH:mm:ss") by pass_absent.
  rewrite E3. clear E3.
  rewrite (E2 (@nil code_unit) vMMM). clear E2.
  assert (E4 : replace_all (lit "ddd") vddd (vYYYY ++ lit "-MM-DD HH:mm:ss")
               = vYYYY ++ lit "-MM-DD HH:mm:ss") by pass_absent.
  rewrite E4. clear E4.
  assert (E5 : replace_all (lit "SSS") vSSS (vYYYY ++ lit "-MM-DD HH:mm:ss")
               = vYYYY ++ lit "-MM-DD HH:mm:ss") by pass_absent.
  rewrite E5. clear E5.
  assert (E6 : replace_all (lit "YY") vYY (vYYYY ++ lit "-MM-DD HH:mm:ss")
               = vYYYY ++ lit "-MM-DD HH:mm:ss") by pass_absent.
  rewrite E6. clear E6.
  assert (E7 : replace_all (lit "MM") vMM (vYYYY ++ lit "-MM-DD HH:mm:ss")
               = vYYYY ++ lit "-" ++ vMM ++ lit "-DD HH:mm:ss").
  { pass_once (vYYYY ++ lit "-") (lit "-DD HH:mm:ss"). }
  rewrite E7. clear E7.
  assert (E8 : replace_all (lit "DD") vDD
                 (vYYYY ++ lit "-" ++ vMM ++ lit "-DD HH:mm:ss")
               = vYYYY ++ lit "-" ++ vMM ++ lit "-" ++ vDD ++ lit " HH:mm:ss").
  { pass_once (vYYYY ++ lit "-" ++ vMM ++ lit "-") (lit " HH:mm:ss"). }
  rewrite E8. clear E8.
  assert (E9 : replace_all (lit "HH") vHH
                 (vYYYY ++ lit "-" ++ vMM ++ lit "-" ++ vDD ++ lit " HH:mm:ss")
               = vYYYY ++ lit "-" ++ vMM ++ lit "-" ++ vDD ++ lit " "
                 ++ vHH ++ lit ":mm:ss").
  { pass_once (vYYYY ++ lit "-" ++ vMM ++ lit "-" ++ vDD ++ lit " ") (lit ":mm:ss"). }
  rewrite E9. clear E9.
  assert (E10 : replace_all (lit "hh") vhh
                  (vYYYY ++ lit "-" ++ vMM ++ lit "-" ++ vDD ++ lit " "
                   ++ vHH ++ lit ":mm:ss")
                = vYYYY ++ lit "-" ++ vMM ++ lit "-" ++ vDD ++ lit " "
                  ++ vHH ++ lit ":mm:ss") by pass_absent.
  rewrite E10. clear E10.
  assert (E11 : replace_all (lit "mm") vmm
                  (vYYYY ++ lit "-" ++ vMM ++ lit "-" ++ vDD ++ lit " "
                   ++ vHH ++ lit ":mm:ss")
                = vYYYY ++ lit "-" ++ vMM ++ lit "-" ++ vDD ++ lit " "
                  ++ vHH ++ lit ":" ++ vmm ++ lit ":ss").
  { pass_once (vYYYY ++ lit "-" ++ vMM ++ lit "-" ++ vDD ++ lit " "
               ++ vHH ++ lit ":") (lit ":ss"). }
  rewrite E11. clear E11.
  assert (E12 : replace_all (lit "ss") vss
                  (vYYYY ++ lit "-" ++ vMM ++ lit "-" ++ vDD ++ lit " "
                   ++ vHH ++ lit ":" ++ vmm ++ lit ":ss")
                = vYYYY ++ lit "-" ++ vMM ++ lit "-" ++ vDD ++ lit " "
                  ++ vHH ++ lit ":" ++ vmm ++ lit ":" ++ vss).
  { pass_once (vYYYY ++ lit "-" ++ vMM ++ lit "-" ++ vDD ++ lit " "
               ++ vHH ++ lit ":" ++ vmm ++ lit ":") (@nil code_unit). }
  rewrite E12. clear E12.
  set (final := vYYYY ++ lit "-" ++ vMM ++ lit "-" ++ vDD ++ lit " "
                ++ vHH ++ lit ":" ++ vmm ++ lit ":" ++ vss).
  assert (Hlast : forall c tk r,
             is_digit c = false -> (c =? 45)%N = false ->
             (c =? 32)%N = false -> (c =? 58)%N = false ->
             replace_all (c :: tk) r final = final).
  { intros c tk r Hd Hm Hs Hc. apply replace_all_free. unfold final.
    assert (Hl : forall x, (x =? c)%N = false -> free c [x] = true)
      by (intros x Hx; unfold free; cbn [forallb]; rewrite Hx; reflexivity).
    repeat rewrite free_app.
    rewrite (plain_free c vYYYY), (plain_free c vMM), (plain_free c vDD),
      (plain_free c vHH), (plain_free c vmm), (plain_free c vss) by assumption.
    change (lit "-") with [45%N]. change (lit " ") with [32%N].
    change (lit ":") with [58%N].
    rewrite !Hl by (rewrite N.eqb_sym; assumption). reflexivity. }
  change (lit "M") with (77%N :: @nil code_unit).
  change (lit "D") with (68%N :: @nil code_unit).
  change (lit "H") with (72%N :: @nil code_unit).
  change (lit "h") with (104%N :: @nil code_unit).
  change (lit "m") with (109%N :: @nil code_unit).
  change (lit "s") with (115%N :: @nil code_unit).
  change (lit "A") with (65%N :: @nil code_unit).
  change (lit "a") with (97%N :: @nil code_unit).
  change (lit "Z") with (90%N :: @nil code_unit).
  change (lit "z") with (122%N :: @nil code_unit).
  rewrite !Hlast by reflexivity. reflexivity.
Qed.

(** Passes over a text without token letters. *)
Lemma literal_passes (l : list (jsstring * jsstring)) (pattern : jsstring) :
  Forall (fun t : jsstring * jsstring =>
            exists (c : code_unit) (tk : jsstring),
              fst t = c :: tk /\ existsb (N.eqb c) token_letters = true) l ->
  literal pattern = true ->
  fold_left (fun result t => replace_all (fst t) (snd t) result) l pattern = pattern.
Proof.
  intros Hl Hp. induction Hl as [|t l (c & tk & Et & Hc) _ IH]; [reflexivity|].
  simpl fold_left. rewrite Et, (replace_all_free c tk _ _ (literal_free c _ Hp Hc)).
  exact IH.
Qed.

Lemma formatCustom_default_zone h t tz zone w :
  effective_zone h tz = Some zone ->
  _formatCustom h t (lit "YYYY-MM-DD HH:mm:ss") tz w
  = (Return (default_rendering (fields_of (t + zone t * 60000))), w).
Proof.
  intros Ez.
  destruct (getDateParts_zone h t tz zone w Ez) as (off & ab & E & _).
  unfold _formatCustom. rewrite (bind_return _ _ _ _ _ E).
  cbv zeta. rewrite sorted_tokens. unfold ret. do 2 f_equal.
  cbn [year month day hour minute second].
  apply default_pattern_passes;
    first [apply int_to_string_plain | apply pad_int_plain].
Qed.

Lemma effective_zone_unknown h tz :
  effective_zone h tz = None ->
  str_eqb tz (lit "local") = false /\ lookup_zone h tz = None.
Proof.
  unfold effective_zone. destruct (str_eqb tz (lit "local")); [discriminate|auto].
Qed.

(** X17.  The default pattern.  With the pattern [YYYY-MM-DD HH:mm:ss],
    the one [formatDate] uses when no custom pattern is set, [_formatCustom]
    returns for every instant and every zone the platform knows the year, the
    two-digit month and day, a space, and the two-digit hour (0 to 23),
    minute and second of the instant in that zone: the numbers substituted
    by one pass hold no letter that a later pass could match.  For a zone the
    platform does not know it throws. *)
Theorem formatCustom_default_pattern (h : Host) (t : Z) (tz : jsstring) (w : World) :
  match effective_zone h tz with
  | Some zone =>
      let f := fields_of (t + zone t * 60000) in
      _formatCustom h t (lit "YYYY-MM-DD HH:mm:ss") tz w
      = (Return (int_to_string (year_of_era (f_year f)) ++ lit "-"
                 ++ pad_int 2 (f_month f) ++ lit "-" ++ pad_int 2 (f_day f)
                 ++ lit " " ++ pad_int 2 (f_hour f) ++ lit ":"
                 ++ pad_int 2 (f_minute f) ++ lit ":" ++ pad_int 2 (f_second f)), w)
  | None => _formatCustom h t (lit "YYYY-MM-DD HH:mm:ss") tz w = (Throw RangeError, w)
  end.
Proof.
  destruct (effective_zone h tz) as [zone|] eqn:Ez.
  - exact (formatCustom_default_zone h t tz zone w Ez).
  - destruct (effective_zone_unknown h tz Ez).
    apply formatCustom_unknown; assumption.
Qed.

(** X18.  A pattern without any of the token letters
    [Y M D d H h m s S A a Z z] comes back from [_formatCustom] unchanged,
    whatever the instant, in every zone the platform knows. *)
Theorem formatCustom_literal_pattern
  (h : Host) (t : Z) (pattern tz : jsstring) (zone : Z -> Z) (w : World) :
  literal pattern = true ->
  effective_zone h tz = Some zone ->
  _formatCustom h t pattern tz w = (Return pattern, w).
Proof.
  intros Hp Ez.
  destruct (getDateParts_zone h t tz zone w Ez) as (off & ab & E & _).
  unfold _formatCustom. rewrite (bind_return _ _ _ _ _ E).
  cbv zeta. rewrite sorted_tokens. unfold ret. do 2 f_equal.
  apply literal_passes; [|exact Hp].
  repeat constructor; eexists _, _; split; reflexivity.
Qed.

(** X18 on the sample host, for a pattern of punctuation and other letters. *)
Lemma formatCustom_literal_pattern_witness :
  literal (lit "(UTC) 12:00 o'clock") = true
  /\ _formatCustom sample_host 1701792000000 (lit "(UTC) 12:00 o'clock") (lit "UTC")
       (world_at 0)
     = (Return (lit "(UTC) 12:00 o'clock"), world_at 0).
Proof.
  split; [reflexivity|].
  apply (formatCustom_literal_pattern sample_host 1701792000000
           (lit "(UTC) 12:00 o'clock") (lit "UTC") (fun _ => 0) (world_at 0));
    reflexivity.
Defined.

(* ----------------------------------------------------------------- *)
(** ** The popup's input field *)

Lemma popup_formatDate_returns h t tz w :
  exists s, Popup.formatDate h t tz w = (Return s, w).
Proof.
  unfold Popup.formatDate, try_catch, bind, resolve_zone, ret, throw.
  destruct (str_eqb tz (lit "local")); [eauto|].
  destruct (lookup_zone h tz); eauto.
Qed.

Lemma popup_formatRelative_returns t w :
  exists s, Popup.formatRelative t w = (Return s, tick w).
Proof.
  unfold Popup.formatRelative, bind, new_Date_now, ret. cbv zeta.
  destruct (_ <? 60); [eauto|].
  destruct (_ <? 60); [eauto|].
  destruct (_ <? 24); eauto.
Qed.

Lemma fillCard_returns h settings label ms t w :
  exists card,
    Popup.fillCard h settings label ms (Some t) w = (Return card, tick w)
    /\ Popup.timestampType card = label
    /\ Popup.epochSeconds card = floor_div ms 1000
    /\ Popup.epochMs card = ms
    /\ Popup.isoDate card = toISOString t.
Proof.
  unfold Popup.fillCard.
  destruct (popup_formatDate_returns h t (Popup.timezone settings) w) as [f Hf].
  rewrite (bind_return _ _ _ _ _ Hf).
  destruct (popup_formatRelative_returns t w) as [r Hr].
  destruct (Popup.showSecondaryTimezone settings
            && negb (str_eqb (Popup.secondaryTimezone settings) [])).
  - destruct (popup_formatDate_returns h t (Popup.secondaryTimezone settings) w)
      as [s Hs].
    erewrite bind_return
      by (erewrite bind_return by exact Hs; reflexivity).
    rewrite (bind_return _ _ _ _ _ Hr). eexists. split; [reflexivity|]. auto.
  - erewrite bind_return by reflexivity.
    rewrite (bind_return _ _ _ _ _ Hr). eexists. split; [reflexivity|]. auto.
Qed.

(** On the trimmed input the popup's check is the converter's. *)
Lemma popup_valid_trimmed input :
  Popup.isValidTimestamp (trim input) = isValidTimestamp (VString input).
Proof.
  unfold Popup.isValidTimestamp, isValidTimestamp.
  change (ToString (VString input)) with input.
  destruct (test_10_or_13 (trim input)) eqn:T.
  - pose proof T as T'. apply test_10_or_13_spec in T' as [Ha Hl].
    assert (Hne : trim input <> [])
      by (destruct (trim input); [simpl in Hl; lia|discriminate]).
    rewrite (Number_digits _ Ha).
    rewrite (Number_of_digit_form (VString input) Ha Hne).
    reflexivity.
  - cbn [negb]. destruct (isNaN _); reflexivity.
Qed.

(** X19.  The popup's input field.  [handleInput] never throws.  It shows
    the timestamp card exactly for the inputs that the converter's
    [isValidTimestamp] accepts, and then with the converter's numbers: the
    milliseconds are [toMilliseconds] of the input, the seconds their
    thousandth rounded down, the ISO text that of the instant, and the card
    and the hint say "Seconds" for ten digits and "Milliseconds" for
    thirteen.  For any other input the view is decided by the trimmed text:
    blank input shows the empty state without a hint; a text that
    [Date.parse] places between 2000 and 2100 (bounds included) shows a card
    labelled "From Date" with the parsed milliseconds, their seconds and
    their ISO text; and every other text shows the error and leaves the
    clock unread. *)
Theorem popup_handleInput
  (h : Host) (parse : jsstring -> option Z) (settings : Popup.Settings)
  (input : jsstring) (w : World) :
  exists view hint w',
    Popup.handleInput h parse settings input w = (Return (view, hint), w')
    /\ (isValidTimestamp (VString input) = true ->
        exists card t,
          view = Popup.ResultCard card
          /\ Popup.epochMs card = toMilliseconds (VString input)
          /\ Popup.epochSeconds card = floor_div (toMilliseconds (VString input)) 1000
          /\ toDate (VString input) = Some (Some t)
          /\ Popup.isoDate card = toISOString t
          /\ ((List.length (trim input) = 10%nat
               /\ Popup.timestampType card = lit "Seconds"
               /\ hint = Some Popup.Seconds)
              \/ (List.length (trim input) = 13%nat
                  /\ Popup.timestampType card = lit "Milliseconds"
                  /\ hint = Some Popup.Milliseconds)))
    /\ (isValidTimestamp (VString input) = false ->
        match view with
        | Popup.EmptyState => trim input = []
        | Popup.ResultCard card =>
            Popup.timestampType card = lit "From Date"
            /\ exists t,
                 parse (trim input) = Some t
                 /\ Popup.MIN_TIMESTAMP_MS <= t <= Popup.MAX_TIMESTAMP_MS
                 /\ Popup.epochMs card = of_Z t
                 /\ Popup.isoDate card = toISOString t
        | Popup.ErrorCard message =>
            message = lit "Invalid timestamp or date format"
            /\ trim input <> []
        end)
    /\ (trim input = [] -> view = Popup.EmptyState /\ hint = None /\ w' = w)
    /\ (isValidTimestamp (VString input) = false -> trim input <> [] ->
        forall t,
          parse (trim input) = Some t ->
          Popup.MIN_TIMESTAMP_MS <= t <= Popup.MAX_TIMESTAMP_MS ->
          exists card,
            view = Popup.ResultCard card
            /\ Popup.timestampType card = lit "From Date"
            /\ Popup.epochMs card = of_Z t
            /\ Popup.epochSeconds card = floor_div (of_Z t) 1000
            /\ Popup.isoDate card = toISOString t
            /\ hint = Popup.detectInputType (trim input))
    /\ (isValidTimestamp (VString input) = false -> trim input <> [] ->
        (parse (trim input) = None
         \/ exists t, parse (trim input) = Some t
                      /\ (t < Popup.MIN_TIMESTAMP_MS \/ Popup.MAX_TIMESTAMP_MS < t)) ->
        view = Popup.ErrorCard (lit "Invalid timestamp or date format")
        /\ hint = Popup.detectInputType (trim input)
        /\ w' = w).
Proof.
  unfold Popup.handleInput. cbv zeta.
  destruct (trim input) as [|c rest] eqn:Et.
  - exists Popup.EmptyState, None, w. split; [reflexivity|].
    split; [|split; [reflexivity|split; [auto|split; intros _ Hne; congruence]]].
    intros V. apply isValidTimestamp_shape in V. simpl in V. rewrite Et in V.
    discriminate.
  - rewrite <- Et. rewrite popup_valid_trimmed.
    assert (Hne : trim input <> []) by (rewrite Et; discriminate).
    destruct (isValidTimestamp (VString input)) eqn:V.
    + destruct (valid_timestamp_instant _ V) as (ms & Hms & Hr & Hc).
      unfold Popup.showTimestampResult. cbv zeta.
      change (if (List.length (trim input) =? 10)%nat
              then mul_pos (Number (VString (trim input))) 1000
              else Number (VString (trim input)))
        with (toMilliseconds (VString input)).
      rewrite Hc.
      destruct (fillCard_returns h settings
                  (if (List.length (trim input) =? 10)%nat
                   then lit "Seconds" else lit "Milliseconds")
                  (toMilliseconds (VString input)) ms w)
        as (card & E & Hty & Hsec & Hm & Hiso).
      rewrite (bind_return _ _ _ _ _ E).
      exists (Popup.ResultCard card), (Popup.detectInputType (trim input)), (tick w).
      split; [reflexivity|].
      split; [|split; [discriminate|split; [intros; contradiction|
                                            split; discriminate]]].
      intros _. exists card, ms. repeat split; auto.
      * rewrite (toDate_valid _ V), Hc. reflexivity.
      * apply isValidTimestamp_iff in V as (Ha & _ & Hl). simpl ToString in *.
        unfold Popup.detectInputType, test_digits. rewrite Ha, Hty. cbn [andb].
        destruct Hl as [[Hl _]|[Hl _]]; rewrite Hl; [left|right]; auto.
    + unfold Popup.parseDate.
      destruct (parse (trim input)) as [t|] eqn:Ep.
      * destruct ((t <? Popup.MIN_TIMESTAMP_MS) || (Popup.MAX_TIMESTAMP_MS <? t)) eqn:Eo.
        -- apply orb_true_iff in Eo.
           eexists _, _, w. split; [reflexivity|]. split; [discriminate|].
           split; [intros _; split; [reflexivity|exact Hne]|].
           split; [intros; contradiction|].
           split; [|intros _ _ _; auto].
           intros _ _ t' Ht' Hr'. inversion Ht'; subst t'.
           destruct Eo as [Eo|Eo]; apply Z.ltb_lt in Eo; lia.
        -- apply orb_false_iff in Eo as [E1 E2].
           apply Z.ltb_ge in E1. apply Z.ltb_ge in E2.
           unfold Popup.showDateResult.
           destruct (fillCard_returns h settings (lit "From Date") (of_Z t) t w)
             as (card & E & Hty & Hsec & Hm & Hiso).
           rewrite (bind_return _ _ _ _ _ E).
           eexists _, _, _. split; [reflexivity|]. split; [discriminate|].
           split; [intros _; split; [exact Hty|exists t; auto]|].
           split; [intros; contradiction|].
           split.
           ++ intros _ _ t' Ht' _. inversion Ht'; subst t'.
              exists card. auto 10.
           ++ intros _ _ [Hn|(t' & Ht' & Ho)]; [discriminate|].
              inversion Ht'; subst t'. lia.
      * eexists _, _, w. split; [reflexivity|]. split; [discriminate|].
        split; [intros _; split; [reflexivity|exact Hne]|].
        split; [intros; contradiction|].
        split; [intros _ _ t' Ht'; discriminate|intros _ _ _; auto].
Qed.

(** X19 on a timestamp in seconds, typed with a space before it, and on a
    date text that the platform parses. *)
Lemma popup_handleInput_witness :
  (exists view hint w',
      Popup.handleInput sample_host (fun _ => None)
        {| Popup.timezone := lit "UTC"; Popup.showSecondaryTimezone := false;
           Popup.secondaryTimezone := lit "UTC" |}
        (lit " 1701792000") (world_at 1701792060000) = (Return (view, hint), w')
      /\ exists card,
           view = Popup.ResultCard card
           /\ Popup.epochMs card = of_Z 1701792000000
           /\ Popup.isoDate card = lit "2023-12-05T16:00:00.000Z"
           /\ hint = Some Popup.Seconds)
  /\ (exists view hint w',
        Popup.handleInput sample_host (fun _ => Some 1701792000000)
          {| Popup.timezone := lit "UTC"; Popup.showSecondaryTimezone := false;
             Popup.secondaryTimezone := lit "UTC" |}
          (lit "2023-12-05T16:00Z") (world_at 1701792060000) = (Return (view, hint), w')
        /\ exists card,
             view = Popup.ResultCard card
             /\ Popup.timestampType card = lit "From Date"
             /\ Popup.epochMs card = of_Z 1701792000000
             /\ hint = Some Popup.DateText).
Proof.
  split.
  - destruct (popup_handleInput sample_host (fun _ => None)
                {| Popup.timezone := lit "UTC"; Popup.showSecondaryTimezone := false;
                   Popup.secondaryTimezone := lit "UTC" |}
                (lit " 1701792000") (world_at 1701792060000))
      as (view & hint & w' & E & Hv & _).
    exists view, hint, w'. split; [exact E|].
    destruct (Hv eq_refl) as (card & t & -> & Hm & _ & Ht & Hiso & Hk).
    exists card. split; [reflexivity|]. split; [exact Hm|].
    split.
    + rewrite Hiso. vm_compute in Ht. inversion Ht. reflexivity.
    + destruct Hk as [(_ & _ & Hh)|(Hl & _)]; [exact Hh|].
      vm_compute in Hl. discriminate.
  - destruct (popup_handleInput sample_host (fun _ => Some 1701792000000)
                {| Popup.timezone := lit "UTC"; Popup.showSecondaryTimezone := false;
                   Popup.secondaryTimezone := lit "UTC" |}
                (lit "2023-12-05T16:00Z") (world_at 1701792060000))
      as (view & hint & w' & E & _ & _ & _ & Hd & _).
    exists view, hint, w'. split; [exact E|].
    destruct (Hd eq_refl ltac:(vm_compute; discriminate) 1701792000000 eq_refl
                ltac:(vm_compute; split; discriminate))
      as (card & Hc & Hty & Hm & _ & _ & Hh).
    exists card. auto.
Defined.

(* ----------------------------------------------------------------- *)
(** ** The preview of the options page *)

(** The nine passes of the options page over the default pattern. *)
Lemma options_pattern_passes (vYYYY vMM vDD vHH vhh vmm vss vA va : jsstring) :
  plain vYYYY = true -> plain vMM = true -> plain vDD = true ->
  plain vHH = true -> plain vmm = true -> plain vss = true ->
  fold_left (fun result t => replace_all (fst t) (snd t) result)
    (sort_longest_first
       [ (lit "YYYY", vYYYY); (lit "MM", vMM); (lit "DD", vDD); (lit "HH", vHH);
         (lit "hh", vhh); (lit "mm", vmm); (lit "ss", vss);
         (lit "A", vA); (lit "a", va) ])
    (lit "YYYY-MM-DD HH:mm:ss")
  = vYYYY ++ lit "-" ++ vMM ++ lit "-" ++ vDD ++ lit " "
    ++ vHH ++ lit ":" ++ vmm ++ lit ":" ++ vss.
Proof.
  intros PY PMo PD PH PMi PS.
  change (sort_longest_first
            [ (lit "YYYY", vYYYY); (lit "MM", vMM); (lit "DD", vDD); (lit "HH", vHH);
              (lit "hh", vhh); (lit "mm", vmm); (lit "ss", vss);
              (lit "A", vA); (lit "a", va) ])
    with [ (lit "YYYY", vYYYY); (lit "MM", vMM); (lit "DD", vDD); (lit "HH", vHH);
           (lit "hh", vhh); (lit "mm", vmm); (lit "ss", vss);
           (lit "A", vA); (lit "a", va) ].
  cbn [fold_left fst snd].
  assert (E1 : replace_all (lit "YYYY") vYYYY (lit "YYYY-MM-DD HH:mm:ss")
               = vYYYY ++ lit "-MM-DD HH:mm:ss").
  { pass_once (@nil code_unit) (lit "-MM-DD HH:mm:ss"). }
  rewrite E1. clear E1.
  assert (E2 : replace_all (lit "MM") vMM (vYYYY ++ lit "-MM-DD HH:mm:ss")
               = vYYYY ++ lit "-" ++ vMM ++ lit "-DD HH:mm:ss").
  { pass_once (vYYYY ++ lit "-") (lit "-DD HH:mm:ss"). }
  rewrite E2. clear E2.
  assert (E3 : replace_all (lit "DD") vDD
                 (vYYYY ++ lit "-" ++ vMM ++ lit "-DD HH:mm:ss")
               = vYYYY ++ lit "-" ++ vMM ++ lit "-" ++ vDD ++ lit " HH:mm:ss").
  { pass_once (vYYYY ++ lit "-" ++ vMM ++ lit "-") (lit " HH:mm:ss"). }
  rewrite E3. clear E3.
  assert (E4 : replace_all (lit "HH") vHH
                 (vYYYY ++ lit "-" ++ vMM ++ lit "-" ++ vDD ++ lit " HH:mm:ss")
               = vYYYY ++ lit "-" ++ vMM ++ lit "-" ++ vDD ++ lit " "
                 ++ vHH ++ lit ":mm:ss").
  { pass_once (vYYYY ++ lit "-" ++ vMM ++ lit "-" ++ vDD ++ lit " ") (lit ":mm:ss"). }
  rewrite E4. clear E4.
  assert (E5 : replace_all (lit "hh") vhh
                 (vYYYY ++ lit "-" ++ vMM ++ lit "-" ++ vDD ++ lit " "
                  ++ vHH ++ lit ":mm:ss")
               = vYYYY ++ lit "-" ++ vMM ++ lit "-" ++ vDD ++ lit " "
                 ++ vHH ++ lit ":mm:ss") by pass_absent.
  rewrite E5. clear E5.
  assert (E6 : replace_all (lit "mm") vmm
                 (vYYYY ++ lit "-" ++ vMM ++ lit "-" ++ vDD ++ lit " "
                  ++ vHH ++ lit ":mm:ss")
               = vYYYY ++ lit "-" ++ vMM ++ lit "-" ++ vDD ++ lit " "
                 ++ vHH ++ lit ":" ++ vmm ++ lit ":ss").
  { pass_once (vYYYY ++ lit "-" ++ vMM ++ lit "-" ++ vDD ++ lit " "
               ++ vHH ++ lit ":") (lit ":ss"). }
  rewrite E6. clear E6.
  assert (E7 : replace_all (lit "ss") vss
                 (vYYYY ++ lit "-" ++ vMM ++ lit "-" ++ vDD ++ lit " "
                  ++ vHH ++ lit ":" ++ vmm ++ lit ":ss")
               = vYYYY ++ lit "-" ++ vMM ++ lit "-" ++ vDD ++ lit " "
                 ++ vHH ++ lit ":" ++ vmm ++ lit ":" ++ vss).
  { pass_once (vYYYY ++ lit "-" ++ vMM ++ lit "-" ++ vDD ++ lit " "
               ++ vHH ++ lit ":" ++ vmm ++ lit ":") (@nil code_unit). }
  rewrite E7. clear E7.
  assert (E8 : replace_all (lit "A") vA
                 (vYYYY ++ lit "-" ++ vMM ++ lit "-" ++ vDD ++ lit " "
                  ++ vHH ++ lit ":" ++ vmm ++ lit ":" ++ vss)
               = vYYYY ++ lit "-" ++ vMM ++ lit "-" ++ vDD ++ lit " "
                 ++ vHH ++ lit ":" ++ vmm ++ lit ":" ++ vss) by pass_absent.
  rewrite E8. clear E8.
  pass_absent.
Qed.

Lemma options_formatCustom_default_zone h t tz zone w :
  effective_zone h tz = Some zone ->
  OptionsPage.formatCustom h t (lit "YYYY-MM-DD HH:mm:ss") tz w
  = (Return (default_rendering (fields_of (t + zone t * 60000))), w).
Proof.
  unfold effective_zone. intros Ez. unfold OptionsPage.formatCustom.
  assert (Hz : (if str_eqb tz (lit "local") then ret (localOffset h)
                else resolve_zone h tz) w = (Return zone, w)).
  { destruct (str_eqb tz (lit "local")).
    - inversion Ez; subst zone. reflexivity.
    - unfold resolve_zone. rewrite Ez. reflexivity. }
  rewrite (bind_return _ _ _ _ _ Hz).
  cbv zeta. unfold ret. do 2 f_equal.
  apply options_pattern_passes;
    first [apply int_to_string_plain | apply pad_int_plain].
Qed.

Lemma options_formatCustom_unknown h t pattern tz w :
  effective_zone h tz = None ->
  OptionsPage.formatCustom h t pattern tz w = (Throw RangeError, w).
Proof.
  intros Ez. destruct (effective_zone_unknown h tz Ez) as [El Hz].
  unfold OptionsPage.formatCustom. apply bind_throw. rewrite El.
  apply resolve_zone_unknown. exact Hz.
Qed.

(** X20.  The preview of the options page.  For the locale format, and
    for the custom format with the default pattern, [updateFormatPreview]
    shows for the current instant exactly what the converter's [formatDate]
    renders with the same settings, in every zone, known to the platform or
    not. *)
Theorem preview_matches_formatDate
  (h : Host) (settings : OptionsPage.Settings) (w : World)
  (Hiso : str_eqb (OptionsPage.dateFormat settings) (lit "iso") = false)
  (Hrel : str_eqb (OptionsPage.dateFormat settings) (lit "relative") = false)
  (Hpat : str_eqb (OptionsPage.dateFormat settings) (lit "custom") = true ->
          OptionsPage.customFormat settings = lit "YYYY-MM-DD HH:mm:ss") :
  OptionsPage.updateFormatPreview h settings w
  = formatDate h (DateObj (Some (clock w (reads w))))
      {| format := Some (OptionsPage.dateFormat settings);
         customFormat := Some (OptionsPage.customFormat settings);
         timezone := Some (OptionsPage.timezone settings);
         showSecondaryTimezone := false;
         secondaryTimezone := None |} (tick w).
Proof.
  unfold OptionsPage.updateFormatPreview, formatDate.
  unfold bind at 1. unfold new_Date_now at 1. cbv zeta.
  cbn [or_default format customFormat timezone].
  rewrite Hiso, Hrel.
  destruct (str_eqb (OptionsPage.dateFormat settings) (lit "custom")) eqn:Ec.
  - rewrite (Hpat eq_refl). unfold try_catch.
    destruct (effective_zone h (OptionsPage.timezone settings)) as [zone|] eqn:Ez.
    + rewrite (options_formatCustom_default_zone _ _ _ _ _ Ez),
        (formatCustom_default_zone _ _ _ _ _ Ez). reflexivity.
    + rewrite (options_formatCustom_unknown _ _ _ _ _ Ez).
      destruct (effective_zone_unknown _ _ Ez) as [El Hz].
      rewrite (formatCustom_unknown _ _ _ _ _ El Hz). reflexivity.
  - destruct (str_eqb (OptionsPage.timezone settings) (lit "local")); reflexivity.
Qed.

(** X20 on the sample host: the custom format with the default pattern, in
    the zone of Kolkata. *)
Lemma preview_matches_formatDate_witness :
  OptionsPage.updateFormatPreview sample_host
    {| OptionsPage.dateFormat := lit "custom";
       OptionsPage.customFormat := lit "YYYY-MM-DD HH:mm:ss";
       OptionsPage.timezone := lit "Asia/Kolkata" |} (world_at 1701792000000)
  = formatDate sample_host (DateObj (Some 1701792000000))
      {| format := Some (lit "custom");
         customFormat := Some (lit "YYYY-MM-DD HH:mm:ss");
         timezone := Some (lit "Asia/Kolkata");
         showSecondaryTimezone := false;
         secondaryTimezone := None |} (tick (world_at 1701792000000)).
Proof.
  apply (preview_matches_formatDate sample_host
           {| OptionsPage.dateFormat := lit "custom";
              OptionsPage.customFormat := lit "YYYY-MM-DD HH:mm:ss";
              OptionsPage.timezone := lit "Asia/Kolkata" |}
           (world_at 1701792000000)); reflexivity.
Defined.
